(** * VZ Portal: application status workflow and DMS synchronisation

    A shallow embedding of the two pieces of executable logic the portal's
    backend documents carry:

    - the row-level path of a statement on [public.applications] (the
      BEFORE UPDATE triggers [handle_application_status_change] and
      [update_updated_at_column], the table's CHECK constraints, and the
      AFTER trigger [audit_applications_changes]), in module [Workflow];
    - the [sync-dms] edge function ([serve], [pushDocumentsToDMS],
      [pullDocumentsFromDMS] and their helpers), in module [DMSSync].

    SQL values are modelled with their NULLs ([option]) and SQL's
    three-valued logic; the TypeScript code is modelled in a small
    state-and-exception monad over the database tables and the trace of
    HTTP requests.

    Further modules cover the rest of the same documents: the AFTER
    UPDATE notification trigger ([StatusNotification]), the clients of
    the external APIs ([RateLimiter], [TokenManager], [HealthMonitor]) and
    the first version of the push of [sync-dms] ([LegacySync]). *)

From Stdlib Require Import ZArith List String Ascii Bool Lia Sorted Permutation.
From Stdlib Require OrderedTypeEx.
Import ListNotations.

(* ===================================================================== *)
(** * Part I. The application status workflow (PostgreSQL)               *)
(* ===================================================================== *)

Module Workflow.

Local Open Scope string_scope.
Local Open Scope Z_scope.

(** ** SQL values *)

(** [CREATE TYPE application_status_enum AS ENUM (...)]. *)
Inductive application_status_enum : Set :=
  | draft
  | submitted
  | under_review
  | additional_info_required
  | interview_scheduled
  | decision_pending
  | approved
  | rejected
  | withdrawn
  | on_hold
  | appealed
  | expired.

Definition status_eq_dec (a b : application_status_enum) : {a = b} + {a <> b}.
Proof. decide equality. Defined.

Definition status_eqb (a b : application_status_enum) : bool :=
  if status_eq_dec a b then true else false.

(** TIMESTAMPTZ, as microseconds since the epoch. *)
Definition timestamptz := Z.

(** JSONB values, as PostgreSQL stores them.  A number is a decimal,
    [digits] scaled down by [scale] decimal places, so that [1] and [1.0]
    are two stored forms of one value; the members of an object are kept
    in the order of storage, which the keys fix. *)
#[local] Unset Elimination Schemes.
Inductive jsonb : Set :=
  | jb_null
  | jb_bool (b : bool)
  | jb_numeric (digits : Z) (scale : nat)
  | jb_string (s : string)
  | jb_array (items : list jsonb)
  | jb_object (members : list (string * jsonb)).
#[local] Set Elimination Schemes.

(** [a = b] on JSONB: numbers by value, booleans and strings as they are,
    arrays and objects member by member. *)
Fixpoint jsonb_eqb (a b : jsonb) {struct a} : bool :=
  match a, b with
  | jb_null, jb_null => true
  | jb_bool x, jb_bool y => Bool.eqb x y
  | jb_numeric m s, jb_numeric m' s' =>
      m * 10 ^ Z.of_nat s' =? m' * 10 ^ Z.of_nat s
  | jb_string x, jb_string y => String.eqb x y
  | jb_array xs, jb_array ys =>
      (fix items_eqb (xs ys : list jsonb) {struct xs} : bool :=
         match xs, ys with
         | [], [] => true
         | x :: xs', y :: ys' => jsonb_eqb x y && items_eqb xs' ys'
         | _, _ => false
         end) xs ys
  | jb_object xs, jb_object ys =>
      (fix members_eqb (xs ys : list (string * jsonb)) {struct xs} : bool :=
         match xs, ys with
         | [], [] => true
         | (k, x) :: xs', (k', y) :: ys' =>
             String.eqb k k' && jsonb_eqb x y && members_eqb xs' ys'
         | _, _ => false
         end) xs ys
  | _, _ => false
  end.

(** A SQL boolean: [None] is NULL (unknown). *)
Definition sqlbool := option bool.



(** A binary comparison is NULL as soon as one operand is. *)
Definition sql_cmp {A : Type} (cmp : A -> A -> bool) (a b : option A) : sqlbool :=
  match a, b with
  | Some x, Some y => Some (cmp x y)
  | _, _ => None
  end.

Definition sql_eq_status := sql_cmp status_eqb.

(** [x IS NULL] and [x IS NOT NULL] are never unknown. *)
Definition is_null {A : Type} (a : option A) : sqlbool :=
  match a with None => Some true | Some _ => Some false end.


(** [a IS DISTINCT FROM b]: NULL-safe inequality, never unknown. *)
Definition is_distinct_from {A : Type} (eqb : A -> A -> bool) (a b : option A) : bool :=
  match a, b with
  | None, None => false
  | Some x, Some y => negb (eqb x y)
  | _, _ => true
  end.

(** A PL/pgSQL [IF c THEN] takes its branch only when [c] is true. *)
Definition if_holds (c : sqlbool) : bool :=
  match c with Some true => true | _ => false end.


(** ** The [public.applications] row *)

(** The columns the update path reads or writes, with the nullability the
    table declares: only [id] and [form_data] are NOT NULL. *)
Record applications : Set := mk_applications {
  id : string;
  status : option application_status_enum;
  submitted_at : option timestamptz;
  review_started_at : option timestamptz;
  decision_date : option timestamptz;
  expiry_date : option timestamptz;
  form_data : jsonb;
  metadata : option jsonb;
  created_at : option timestamptz;
  updated_at : option timestamptz;
  version : option Z
}.


Definition with_submitted_at (r : applications) (v : option timestamptz) :=
  mk_applications (id r) (status r) v (review_started_at r) (decision_date r)
    (expiry_date r) (form_data r) (metadata r) (created_at r) (updated_at r) (version r).

Definition with_review_started_at (r : applications) (v : option timestamptz) :=
  mk_applications (id r) (status r) (submitted_at r) v (decision_date r)
    (expiry_date r) (form_data r) (metadata r) (created_at r) (updated_at r) (version r).

Definition with_decision_date (r : applications) (v : option timestamptz) :=
  mk_applications (id r) (status r) (submitted_at r) (review_started_at r) v
    (expiry_date r) (form_data r) (metadata r) (created_at r) (updated_at r) (version r).




Definition with_version (r : applications) (v : option Z) :=
  mk_applications (id r) (status r) (submitted_at r) (review_started_at r) (decision_date r)
    (expiry_date r) (form_data r) (metadata r) (created_at r) (updated_at r) v.


(** ** Errors PostgreSQL raises on this path *)

(** 22003, 23514 with the name of the constraint, and 42702 with the name
    of the column. *)
Inductive pg_error : Set :=
  | integer_out_of_range
  | check_violation (constraint : string)
  | ambiguous_column (column : string).

(** INTEGER is a 32-bit signed type whose arithmetic raises on overflow
    and yields NULL on a NULL operand. *)
Definition int4_max : Z := 2147483647.
Definition int4_min : Z := -2147483648.

Definition int4_add (a b : option Z) : pg_error + option Z :=
  match a, b with
  | Some x, Some y =>
      if (int4_min <=? x + y) && (x + y <=? int4_max)
      then inr (Some (x + y)) else inl integer_out_of_range
  | _, _ => inr None
  end.

(** ** The triggers *)

(** [OLD.form_data IS DISTINCT FROM NEW.form_data OR
     OLD.status IS DISTINCT FROM NEW.status]. *)
Definition significant_change (OLD NEW : applications) : bool :=
  is_distinct_from jsonb_eqb (Some (form_data OLD)) (Some (form_data NEW))
  || is_distinct_from status_eqb (status OLD) (status NEW).

(** The [CASE NEW.status ... END CASE] of the trigger: a NULL status matches
    no WHEN and falls to ELSE. *)
Definition update_timestamps (OLD NEW : applications) (NOW : timestamptz) : applications :=
  match status NEW with
  | Some submitted =>
      if if_holds (sql_eq_status (status OLD) (Some draft))
      then with_submitted_at NEW (Some NOW) else NEW
  | Some under_review =>
      if if_holds (is_null (review_started_at NEW))
      then with_review_started_at NEW (Some NOW) else NEW
  | Some approved | Some rejected =>
      if if_holds (is_null (decision_date NEW))
      then with_decision_date NEW (Some NOW) else NEW
  | _ => NEW
  end.

(** [public.handle_application_status_change()], BEFORE UPDATE FOR EACH ROW. *)
Definition handle_application_status_change
    (OLD NEW : applications) (NOW : timestamptz) : pg_error + applications :=
  let NEW1 := update_timestamps OLD NEW NOW in
  if significant_change OLD NEW1 then
    match int4_add (version OLD) (Some 1) with
    | inl e => inl e
    | inr v => inr (with_version NEW1 v)
    end
  else inr NEW1.


(** ** The CHECK constraints *)




(** ** The audit trigger *)





(** ** One UPDATE of one row *)



(** ** One INSERT of one row *)


(** ** Example rows *)




End Workflow.

(* ===================================================================== *)
(** * Part II. The [sync-dms] edge function (TypeScript)                 *)
(* ===================================================================== *)

Module DMSSync.

Local Open Scope string_scope.

(** ** JavaScript values *)

(** JSON as [JSON.stringify] emits it.  Object members are kept as a list;
    a member whose value is [undefined] is not emitted at all. *)
#[local] Unset Elimination Schemes.
Inductive json : Set :=
  | JNull
  | JBool (b : bool)
  | JNum (n : Z)
  | JStr (s : string)
  | JArr (items : list json)
  | JObj (members : list (string * json)).
#[local] Set Elimination Schemes.

(** [results.push(x)]. *)
Definition push {A : Type} (l : list A) (x : A) : list A := List.app l (x :: nil).

(** An object literal under [JSON.stringify]: [None] is [undefined]. *)
Fixpoint stringify_members (ms : list (string * option json)) : list (string * json) :=
  match ms with
  | nil => nil
  | (k, Some v) :: rest => (k, v) :: stringify_members rest
  | (_, None) :: rest => stringify_members rest
  end.

Definition object (ms : list (string * option json)) : json :=
  JObj (stringify_members ms).

Definition keys (j : json) : list string :=
  match j with
  | JObj ms => List.map fst ms
  | _ => nil
  end.

Fixpoint member (k : string) (ms : list (string * json)) : option json :=
  match ms with
  | nil => None
  | (k', v) :: rest => if String.eqb k k' then Some v else member k rest
  end.

Definition get (k : string) (j : json) : option json :=
  match j with
  | JObj ms => member k ms
  | _ => None
  end.

(** A template literal's rendering of an optional string. *)
Definition template (s : option string) : string :=
  match s with Some x => x | None => "undefined" end.

(** Truthiness of an optional string and of an optional boolean. *)
Definition truthy_string (s : option string) : bool :=
  match s with Some x => negb (String.eqb x "") | None => false end.

Definition truthy_bool (b : option bool) : bool :=
  match b with Some true => true | _ => false end.

(** A thrown [Error]: the handlers only ever read [message]. *)
Record JsError : Set := mk_JsError { name : string; message : string }.

Definition Error (m : string) : JsError := mk_JsError "Error" m.
Definition TypeError (m : string) : JsError := mk_JsError "TypeError" m.
Definition SyntaxError (m : string) : JsError := mk_JsError "SyntaxError" m.

(** ** Configuration and request types *)

Inductive DMSType : Set := sharepoint | filenet | documentum | custom.

Definition DMSType_name (t : DMSType) : string :=
  match t with
  | sharepoint => "sharepoint"
  | filenet => "filenet"
  | documentum => "documentum"
  | custom => "custom"
  end.

Inductive ConflictResolution : Set := local_wins | remote_wins | manual.

(** The fields of [DMSAuthConfig] are those the configuration literal of
    [getDMSConfigurations] gives and [getSharePointAccessToken] reads. *)
Record DMSAuthConfig : Set := mk_DMSAuthConfig {
  auth_type : string;
  clientId : string;
  clientSecret : string;
  tenantId : string
}.

Record DMSSyncSettings : Set := mk_DMSSyncSettings {
  syncInterval : nat;
  batchSize : nat;
  retryAttempts : nat;
  conflictResolution : ConflictResolution;
  enableRealTimeSync : bool
}.

Record DMSConfig : Set := mk_DMSConfig {
  systemId : string;
  config_name : string;
  type : DMSType;
  endpoint : string;
  authentication : DMSAuthConfig;
  syncSettings : DMSSyncSettings
}.

Record DMSSyncOptions : Set := mk_DMSSyncOptions {
  options_dryRun : option bool;
  options_forceSync : option bool;
  options_conflictResolution : option ConflictResolution
}.

(** [options = {}]. *)
Definition no_options : DMSSyncOptions := mk_DMSSyncOptions None None None.

Record DMSSyncRequest : Set := mk_DMSSyncRequest {
  action : option string;
  dmsSystemId : option string;
  documentIds : option (list string);
  since : option string;
  options : option DMSSyncOptions
}.

(** ** Tables *)

Definition Blob := string.

(** A row of [documents], with the columns the function reads or writes. *)
Record Document : Set := mk_Document {
  id : string;
  file_name : string;
  file_size : Z;
  file_type : string;
  storage_path : option string;
  metadata : json;
  updated_at : option string;
  external_dms_id : option string;
  external_dms_url : option string;
  synced_at : option string;
  needs_sync : option bool;
  sync_metadata : option json
}.

(** A descriptor [fetchDocumentsFromDMS] yields, with the members
    [mapExternalDocumentToLocal] and the pull loop read. *)
Record ExternalDocument : Set := mk_ExternalDocument {
  ext_id : string;
  ext_name : string;
  ext_size : Z;
  ext_type : string;
  ext_metadata : json
}.

(** A row of [dms_sync_logs]. *)
Record SyncLog : Set := mk_SyncLog {
  log_action : string;
  log_dms_system_id : option string;
  log_success : nat;
  log_failed : nat;
  log_total : nat;
  log_details : json;
  log_created_at : string
}.

(** ** Results *)

Record SyncResult : Set := mk_SyncResult {
  documentId : option string;
  externalId : option string;
  status : string;
  result_action : option string;
  error : option string
}.

Record SyncReport : Set := mk_SyncReport {
  totalDocuments : nat;
  successful : nat;
  failed : nat;
  dryRun : nat;
  results : list SyncResult
}.

Record DMSSyncStatus : Set := mk_DMSSyncStatus {
  status_dmsSystemId : option string;
  lastSync : option string;
  recentSyncs : list SyncLog;
  sync_status : string
}.

(** [let result: any] of [serve]. *)
Inductive ActionResult : Set :=
  | report_result (r : SyncReport)
  | full_sync_result (pushResult pullResult : SyncReport)
  | status_result (s : DMSSyncStatus).

(** ** HTTP *)

Inductive Payload : Set :=
  | form_payload (params : list (string * string))
  | blob_payload (data : Blob).

Record Request : Set := mk_Request {
  url : string;
  method : string;
  headers : list (string * string);
  payload : Payload
}.

(** What [response.json()] resolves to, as far as the code reads it:
    - the token reply, an object with a string [access_token];
    - a verbose OData reply whose [d] is neither absent nor null, with the
      members of [d] the code reads ([None]: the member is absent, and the
      expression is [undefined]; [UniqueId] and [ServerRelativeUrl] are
      strings when present);
    - a reply whose [d] is null;
    - some other JSON value that is not null (it has neither
      [access_token] nor [d]);
    - the JSON text [null];
    - a body that is not JSON: the promise rejects with a [SyntaxError]
      whose message the runtime makes from the body. *)
Inductive ResponseBody : Set :=
  | token_body (access_token : string)
  | file_body (UniqueId ServerRelativeUrl : option string)
              (ListId ListItemAllFields_Id UIVersion : option json)
  | null_entity
  | other_json
  | null_json
  | not_json (message : string).

Record HttpResponse : Set := mk_HttpResponse {
  http_status : Z;
  statusText : string;
  body : ResponseBody
}.

(** [response.ok]. *)
Definition ok (r : HttpResponse) : bool :=
  (200 <=? http_status r)%Z && (http_status r <=? 299)%Z.

Inductive FetchOutcome : Set :=
  | network_failure (reason : string)
  | responded (r : HttpResponse).

Record Response : Set := mk_Response {
  response_status : Z;
  response_headers : list (string * string);
  response_body : option json
}.

(** [request_json] is what [await req.json()] and the destructuring of
    its value give: the error thrown (a [SyntaxError] for a body that is
    not JSON, a [TypeError] for the JSON text [null]), or the request. *)
Record HttpRequest : Set := mk_HttpRequest {
  request_method : string;
  request_json : JsError + DMSSyncRequest
}.

(** ** The world the function runs in *)

(** What the function cannot decide itself: the clock, the environment
    variables, the answers of remote servers and of object storage, and
    whether the database refuses a statement.  [remote r n] is the answer
    to request [r] when [n] identical requests were issued before it (so a
    server may answer the same request differently over time).
    [createClient_throws url key] is what the constructor of the database
    client throws for a URL that is not empty, on grounds other than an
    empty key, if it does. *)
Record Env : Type := mk_Env {
  toISOString : string;
  Date_now : string;
  Deno_env : string -> option string;
  createClient_throws : string -> string -> option JsError;
  remote : Request -> nat -> FetchOutcome;
  download : option string -> string + Blob;
  select_documents_error : option string;
  update_documents_error : string -> option string;
  find_document_error : string -> option (string * string);
  insert_document_error : string -> option string;
  gen_random_uuid : nat -> string;
  select_sync_logs_error : option string;
  insert_sync_log_error : bool
}.

(** The state the function changes: the two tables, and the trace of the
    HTTP requests issued so far. *)
Record World : Type := mk_World {
  documents : list Document;
  dms_sync_logs : list SyncLog;
  requests : list Request
}.

Definition with_documents (w : World) (d : list Document) : World :=
  mk_World d (dms_sync_logs w) (requests w).

Definition with_dms_sync_logs (w : World) (l : list SyncLog) : World :=
  mk_World (documents w) l (requests w).

Definition with_requests (w : World) (r : list Request) : World :=
  mk_World (documents w) (dms_sync_logs w) r.

(** ** A monad for [async] code: state, and exceptions that keep the state *)

Definition M (A : Type) : Type := World -> (JsError + A) * World.

Definition ret {A : Type} (a : A) : M A := fun w => (inr a, w).

Definition bind {A B : Type} (m : M A) (f : A -> M B) : M B :=
  fun w =>
    match m w with
    | (inl e, w') => (inl e, w')
    | (inr a, w') => f a w'
    end.

Definition throw {A : Type} (e : JsError) : M A := fun w => (inl e, w).

(** [try { body } catch (error) { handler }]. *)
Definition try_catch {A : Type} (body : M A) (handler : JsError -> M A) : M A :=
  fun w =>
    match body w with
    | (inl e, w') => handler e w'
    | (inr a, w') => (inr a, w')
    end.

Definition read : M World := fun w => (inr w, w).

Definition write (f : World -> World) : M unit := fun w => (inr tt, f w).

Declare Scope js_scope.
Delimit Scope js_scope with js.
Notation "'let*' x ':=' m 'in' k" := (bind m (fun x => k))
  (at level 10, x name, m at level 100, k at level 200) : js_scope.
Local Open Scope js_scope.

(** [for (const x of xs) { results = body(x) }] with the [results] array
    threaded through. *)
Fixpoint for_of {A R : Type} (xs : list A) (body : A -> R -> M R) (acc : R) : M R :=
  match xs with
  | nil => ret acc
  | x :: rest => let* acc' := body x acc in for_of rest body acc'
  end.

(** ** The function, relative to its environment *)

Section Functions.

Variable E : Env.

(** [Deno.env.get(k) ?? '']. *)
Definition Deno_env_get (k : string) : string :=
  match Deno_env E k with Some v => v | None => "" end.

Definition getDMSConfigurations : list DMSConfig :=
  [ mk_DMSConfig "sharepoint-main" "Primary SharePoint" sharepoint
      (Deno_env_get "SHAREPOINT_ENDPOINT")
      (mk_DMSAuthConfig "oauth2"
         (Deno_env_get "SHAREPOINT_CLIENT_ID")
         (Deno_env_get "SHAREPOINT_CLIENT_SECRET")
         (Deno_env_get "SHAREPOINT_TENANT_ID"))
      (mk_DMSSyncSettings 15 50 3 manual true) ].

(** [dmsSystemId ? dmsConfigs.find(c => c.systemId === dmsSystemId)
                 : dmsConfigs[0]]. *)
Definition find_config (dmsSystemId : option string) : option DMSConfig :=
  if truthy_string dmsSystemId
  then List.find (fun c => String.eqb (systemId c) (template dmsSystemId))
         getDMSConfigurations
  else List.hd_error getDMSConfigurations.

(** *** [fetch] *)

Fixpoint pairs_eqb (a b : list (string * string)) : bool :=
  match a, b with
  | nil, nil => true
  | (k, v) :: a', (k', v') :: b' => String.eqb k k' && String.eqb v v' && pairs_eqb a' b'
  | _, _ => false
  end.

Definition Payload_eqb (a b : Payload) : bool :=
  match a, b with
  | form_payload x, form_payload y => pairs_eqb x y
  | blob_payload x, blob_payload y => String.eqb x y
  | _, _ => false
  end.

Definition Request_eqb (a b : Request) : bool :=
  String.eqb (url a) (url b) && String.eqb (method a) (method b)
  && pairs_eqb (headers a) (headers b) && Payload_eqb (payload a) (payload b).

(** How often [r] has been issued in a trace. *)
Definition issued (r : Request) (trace : list Request) : nat :=
  List.length (List.filter (Request_eqb r) trace).

(** [await fetch(url, init)]: rejects with a [TypeError] when the server
    cannot be reached. *)
Definition fetch (r : Request) : M HttpResponse :=
  fun w =>
    let w' := with_requests w (push (requests w) r) in
    match remote E r (issued r (requests w)) with
    | network_failure reason => (inl (TypeError reason), w')
    | responded resp => (inr resp, w')
    end.

(** [await response.json()]. *)
Definition response_json (r : HttpResponse) : M ResponseBody :=
  match body r with
  | not_json m => throw (SyntaxError m)
  | b => ret b
  end.

(** *** Upload to an external DMS *)

(** What the three uploads return; [None] is [undefined]. *)
Record DMSUploadResult : Set := mk_DMSUploadResult {
  upload_externalId : option string;
  upload_url : option string;
  upload_metadata : json
}.

Definition token_request (auth : DMSAuthConfig) : Request :=
  mk_Request
    ("https://accounts.accesscontrol.windows.net/" ++ tenantId auth ++ "/tokens/OAuth/2")
    "POST"
    [("Content-Type", "application/x-www-form-urlencoded")]
    (form_payload
       [("grant_type", "client_credentials");
        ("client_id", clientId auth ++ "@" ++ tenantId auth);
        ("client_secret", clientSecret auth);
        ("resource",
         "00000003-0000-0ff1-ce00-000000000000/government.sharepoint.com@"
           ++ tenantId auth)]).

Definition getSharePointAccessToken (auth : DMSAuthConfig) : M (option string) :=
  let* response := fetch (token_request auth) in
  if negb (ok response)
  then throw (Error ("Failed to get SharePoint access token: " ++ statusText response))
  else
    let* result := response_json response in
    match result with
    | token_body t => ret (Some t)
    | null_json =>
        throw (TypeError "Cannot read properties of null (reading 'access_token')")
    | _ => ret None
    end.

Definition upload_request (config : DMSConfig) (accessToken : option string)
    (document : Document) (fileData : Blob) : Request :=
  mk_Request
    (endpoint config
       ++ "/_api/web/GetFolderByServerRelativeUrl('/Shared Documents')/Files/add(url='"
       ++ file_name document ++ "',overwrite=true)")
    "POST"
    [("Authorization", "Bearer " ++ template accessToken);
     ("Accept", "application/json;odata=verbose");
     ("Content-Type", "application/octet-stream")]
    (blob_payload fileData).

Definition uploadToSharePoint (config : DMSConfig) (document : Document) (fileData : Blob)
    : M DMSUploadResult :=
  let* accessToken := getSharePointAccessToken (authentication config) in
  let* response := fetch (upload_request config accessToken document fileData) in
  if negb (ok response)
  then throw (Error ("SharePoint upload failed: " ++ statusText response))
  else
    let* result := response_json response in
    match result with
    | file_body uid rel lid item ver =>
        ret (mk_DMSUploadResult uid rel
               (object
                  [("sharepoint",
                    Some (object [("listId", lid);
                                  ("itemId", item);
                                  ("version", ver)]))]))
    | null_json => throw (TypeError "Cannot read properties of null (reading 'd')")
    | null_entity =>
        throw (TypeError "Cannot read properties of null (reading 'UniqueId')")
    | _ => throw (TypeError "Cannot read properties of undefined (reading 'UniqueId')")
    end.

Definition uploadToFileNet (config : DMSConfig) (document : Document) (fileData : Blob)
    : M DMSUploadResult :=
  ret (mk_DMSUploadResult
         (Some ("filenet_" ++ Date_now E))
         (Some (endpoint config ++ "/documents/" ++ id document))
         (object
            [("filenet",
              Some (object [("objectId", Some (JStr ("filenet_" ++ Date_now E)))]))])).

Definition uploadToDocumentum (config : DMSConfig) (document : Document) (fileData : Blob)
    : M DMSUploadResult :=
  ret (mk_DMSUploadResult
         (Some ("documentum_" ++ Date_now E))
         (Some (endpoint config ++ "/documents/" ++ id document))
         (object
            [("documentum",
              Some (object [("objectId", Some (JStr ("documentum_" ++ Date_now E)))]))])).

Definition uploadToExternalDMS (config : DMSConfig) (document : Document) (fileData : Blob)
    : M DMSUploadResult :=
  match type config with
  | sharepoint => uploadToSharePoint config document fileData
  | filenet => uploadToFileNet config document fileData
  | documentum => uploadToDocumentum config document fileData
  | custom => throw (Error ("Unsupported DMS type: " ++ DMSType_name (type config)))
  end.

(** *** Database statements *)

Definition id_in (ids : list string) (d : Document) : bool :=
  List.existsb (String.eqb (id d)) ids.

(** [external_dms_id.is.null,needs_sync.eq.true]. *)
Definition needs_push (d : Document) : bool :=
  match external_dms_id d with
  | None => true
  | Some _ => match needs_sync d with Some true => true | _ => false end
  end.

(** [documentIds?.length], as a condition. *)
Definition lists_ids (documentIds : option (list string)) : bool :=
  match documentIds with
  | Some (_ :: _) => true
  | _ => false
  end.

(** The rows the push query asks for: the listed rows when a list is
    given, else the rows that need a push. *)
Definition push_candidates (documentIds : option (list string)) (docs : list Document)
    : list Document :=
  if lists_ids documentIds
  then List.filter (id_in (match documentIds with Some ids => ids | None => [] end)) docs
  else List.filter needs_push docs.

(** [const { data: documents, error } = await query], then the
    [if (error) throw]. *)
Definition select_documents (documentIds : option (list string)) : M (list Document) :=
  let* w := read in
  match select_documents_error E with
  | Some m => throw (Error ("Failed to fetch documents: " ++ m))
  | None => ret (push_candidates documentIds (documents w))
  end.

(** [supabase.from('documents').update(patch).eq('id', key)], returning
    the [error] member of the reply. *)
Definition update_documents (patch : Document -> Document) (key : string)
    : M (option string) :=
  fun w =>
    match update_documents_error E key with
    | Some m => (inr (Some m), w)
    | None =>
        (inr None,
         with_documents w
           (List.map (fun d => if String.eqb (id d) key then patch d else d)
              (documents w)))
    end.

(** [.single()]: exactly one row, or the PGRST116 error. *)
Definition single (rows : list Document) : option Document * option (string * string) :=
  match rows with
  | [d] => (Some d, None)
  | _ => (None, Some ("PGRST116", "JSON object requested, multiple (or no) rows returned"))
  end.

Definition has_external_id (x : string) (d : Document) : bool :=
  match external_dms_id d with Some y => String.eqb y x | None => false end.

(** [.select('*').eq('external_dms_id', x).single()]. *)
Definition find_by_external_id (x : string)
    : M (option Document * option (string * string)) :=
  fun w =>
    match find_document_error E x with
    | Some err => (inr (None, Some err), w)
    | None => (inr (single (List.filter (has_external_id x) (documents w))), w)
    end.

(** [.insert(row).select().single()]; the database generates the key. *)
Definition insert_document (row : string -> Document) (x : string)
    : M (option Document * option string) :=
  fun w =>
    match insert_document_error E x with
    | Some m => (inr (None, Some m), w)
    | None =>
        let d := row (gen_random_uuid E (List.length (documents w))) in
        (inr (Some d, None), with_documents w (push (documents w) d))
    end.

(** *** Push *)

(** The object given to [update]; a member that is [undefined] is not
    sent, and its column keeps its value. *)
Definition push_patch (dmsResult : DMSUploadResult) (d : Document) : Document :=
  mk_Document (id d) (file_name d) (file_size d) (file_type d) (storage_path d)
    (metadata d) (updated_at d)
    (match upload_externalId dmsResult with
     | Some x => Some x
     | None => external_dms_id d
     end)
    (match upload_url dmsResult with
     | Some u => Some u
     | None => external_dms_url d
     end)
    (Some (toISOString E))
    (Some false)
    (Some (upload_metadata dmsResult)).

(** The [try] block of the push loop for one document: every path ends by
    pushing one entry. *)
Definition push_try (dmsConfig : DMSConfig) (options : DMSSyncOptions)
    (doc : Document) (results : list SyncResult) : M (list SyncResult) :=
  if truthy_bool (options_dryRun options) then
    ret (push results
           (mk_SyncResult (Some (id doc)) None "dry_run" (Some "would_sync") None))
  else
    match download E (storage_path doc) with
    | inl m => throw (Error ("Failed to download document: " ++ m))
    | inr fileData =>
        let* dmsResult := uploadToExternalDMS dmsConfig doc fileData in
        let* updateError := update_documents (push_patch dmsResult) (id doc) in
        match updateError with
        | Some m => throw (Error ("Failed to update document: " ++ m))
        | None =>
            ret (push results
                   (mk_SyncResult (Some (id doc)) (upload_externalId dmsResult)
                      "success" (Some "synced") None))
        end
    end.

(** The entry the [catch] block of the push loop records. *)
Definition push_failure (doc : Document) (error : JsError) : SyncResult :=
  mk_SyncResult (Some (id doc)) None "error" None (Some (message error)).

Definition push_item (dmsConfig : DMSConfig) (options : DMSSyncOptions)
    (doc : Document) (results : list SyncResult) : M (list SyncResult) :=
  try_catch (push_try dmsConfig options doc results)
    (fun error => ret (push results (push_failure doc error))).

Definition has_status (s : string) (r : SyncResult) : bool := String.eqb (status r) s.

(** The object both loops return. *)
Definition make_report (total : nat) (results : list SyncResult) : SyncReport :=
  mk_SyncReport total
    (List.length (List.filter (has_status "success") results))
    (List.length (List.filter (has_status "error") results))
    (List.length (List.filter (has_status "dry_run") results))
    results.

Definition pushDocumentsToDMS (dmsSystemId : option string)
    (documentIds : option (list string)) (options : DMSSyncOptions) : M SyncReport :=
  let* documents := select_documents documentIds in
  match find_config dmsSystemId with
  | None => throw (Error ("DMS configuration not found: " ++ template dmsSystemId))
  | Some dmsConfig =>
      let* results := for_of documents (push_item dmsConfig options) [] in
      ret (make_report (List.length documents) results)
  end.

(** *** Pull *)

(** The source's body is a placeholder: it logs and returns [[]]. *)
Definition fetchDocumentsFromDMS (config : DMSConfig) (since : option string)
    : list ExternalDocument := [].

Record LocalDocumentData : Set := mk_LocalDocumentData {
  local_file_name : string;
  local_file_size : Z;
  local_file_type : string;
  local_metadata : json;
  local_updated_at : string
}.

Definition mapExternalDocumentToLocal (extDoc : ExternalDocument) : LocalDocumentData :=
  mk_LocalDocumentData (ext_name extDoc) (ext_size extDoc) (ext_type extDoc)
    (ext_metadata extDoc) (toISOString E).

(** [{ ...updateData, synced_at, sync_metadata: extDoc.metadata }]. *)
Definition pull_patch (updateData : LocalDocumentData) (extDoc : ExternalDocument)
    (d : Document) : Document :=
  mk_Document (id d)
    (local_file_name updateData) (local_file_size updateData) (local_file_type updateData)
    (storage_path d)
    (local_metadata updateData) (Some (local_updated_at updateData))
    (external_dms_id d) (external_dms_url d)
    (Some (toISOString E))
    (needs_sync d)
    (Some (ext_metadata extDoc)).

(** [{ ...newDocData, external_dms_id: extDoc.id, synced_at, sync_metadata }];
    the columns the statement does not name are NULL. *)
Definition pull_row (newDocData : LocalDocumentData) (extDoc : ExternalDocument)
    (key : string) : Document :=
  mk_Document key
    (local_file_name newDocData) (local_file_size newDocData) (local_file_type newDocData)
    None
    (local_metadata newDocData) (Some (local_updated_at newDocData))
    (Some (ext_id extDoc)) None
    (Some (toISOString E))
    None
    (Some (ext_metadata extDoc)).

(** [findError && findError.code !== 'PGRST116']. *)
Definition is_database_error (findError : option (string * string)) : option string :=
  match findError with
  | Some (code, m) => if String.eqb code "PGRST116" then None else Some m
  | None => None
  end.

(** The [try] block of the pull loop for one descriptor.  Neither
    [options.conflictResolution] nor the configuration's
    [syncSettings.conflictResolution] is read. *)
Definition pull_try (options : DMSSyncOptions) (extDoc : ExternalDocument)
    (results : list SyncResult) : M (list SyncResult) :=
  if truthy_bool (options_dryRun options) then
    ret (push results
           (mk_SyncResult None (Some (ext_id extDoc)) "dry_run" (Some "would_update") None))
  else
    let* found := find_by_external_id (ext_id extDoc) in
    match is_database_error (snd found) with
    | Some m => throw (Error ("Database error: " ++ m))
    | None =>
        match fst found with
        | Some existingDoc =>
            let updateData := mapExternalDocumentToLocal extDoc in
            let* updateError :=
              update_documents (pull_patch updateData extDoc) (id existingDoc) in
            match updateError with
            | Some m => throw (Error ("Failed to update document: " ++ m))
            | None =>
                ret (push results
                       (mk_SyncResult (Some (id existingDoc)) (Some (ext_id extDoc))
                          "success" (Some "updated") None))
            end
        | None =>
            let newDocData := mapExternalDocumentToLocal extDoc in
            let* created := insert_document (pull_row newDocData extDoc) (ext_id extDoc) in
            match created with
            | (_, Some m) => throw (Error ("Failed to create document: " ++ m))
            | (Some newDoc, None) =>
                ret (push results
                       (mk_SyncResult (Some (id newDoc)) (Some (ext_id extDoc))
                          "success" (Some "created") None))
            | (None, None) =>
                throw (TypeError "Cannot read properties of null (reading 'id')")
            end
        end
    end.

(** The entry the [catch] block of the pull loop records. *)
Definition pull_failure (extDoc : ExternalDocument) (error : JsError) : SyncResult :=
  mk_SyncResult None (Some (ext_id extDoc)) "error" None (Some (message error)).

Definition pull_item (options : DMSSyncOptions) (extDoc : ExternalDocument)
    (results : list SyncResult) : M (list SyncResult) :=
  try_catch (pull_try options extDoc results)
    (fun error => ret (push results (pull_failure extDoc error))).

(** The pull loop and its report, for the descriptors the DMS listed. *)
Definition pull_documents (externalDocuments : list ExternalDocument)
    (options : DMSSyncOptions) : M SyncReport :=
  let* results := for_of externalDocuments (pull_item options) [] in
  ret (make_report (List.length externalDocuments) results).

Definition pullDocumentsFromDMS (dmsSystemId : option string) (since : option string)
    (options : DMSSyncOptions) : M SyncReport :=
  match find_config dmsSystemId with
  | None => throw (Error ("DMS configuration not found: " ++ template dmsSystemId))
  | Some dmsConfig => pull_documents (fetchDocumentsFromDMS dmsConfig since) options
  end.

(** *** Status and logging *)

Definition json_of_nat (n : nat) : json := JNum (Z.of_nat n).

Definition json_of_SyncResult (r : SyncResult) : json :=
  object [("documentId", option_map JStr (documentId r));
          ("externalId", option_map JStr (externalId r));
          ("status", Some (JStr (status r)));
          ("action", option_map JStr (result_action r));
          ("error", option_map JStr (error r))].

Definition json_of_SyncReport (r : SyncReport) : json :=
  object [("totalDocuments", Some (json_of_nat (totalDocuments r)));
          ("successful", Some (json_of_nat (successful r)));
          ("failed", Some (json_of_nat (failed r)));
          ("dryRun", Some (json_of_nat (dryRun r)));
          ("results", Some (JArr (List.map json_of_SyncResult (results r))))].

Definition json_of_SyncLog (l : SyncLog) : json :=
  object [("action", Some (JStr (log_action l)));
          ("dms_system_id",
           Some (match log_dms_system_id l with Some x => JStr x | None => JNull end));
          ("success", Some (json_of_nat (log_success l)));
          ("failed", Some (json_of_nat (log_failed l)));
          ("total", Some (json_of_nat (log_total l)));
          ("details", Some (log_details l));
          ("created_at", Some (JStr (log_created_at l)))].

Definition json_of_DMSSyncStatus (s : DMSSyncStatus) : json :=
  object [("dmsSystemId", option_map JStr (status_dmsSystemId s));
          ("lastSync", option_map JStr (lastSync s));
          ("recentSyncs", Some (JArr (List.map json_of_SyncLog (recentSyncs s))));
          ("status", Some (JStr (sync_status s)))].

Definition json_of_ActionResult (r : ActionResult) : json :=
  match r with
  | report_result rep => json_of_SyncReport rep
  | full_sync_result pushResult pullResult =>
      object [("push", Some (json_of_SyncReport pushResult));
              ("pull", Some (json_of_SyncReport pullResult))]
  | status_result st => json_of_DMSSyncStatus st
  end.

(** [.order('created_at', { ascending: false })]: a stable insertion sort
    on the timestamp text. *)
Fixpoint insert_by_created_at (l : SyncLog) (sorted : list SyncLog) : list SyncLog :=
  match sorted with
  | nil => [l]
  | x :: rest =>
      if String.ltb (log_created_at x) (log_created_at l)
      then l :: x :: rest
      else x :: insert_by_created_at l rest
  end.

Definition order_by_created_at_desc (ls : list SyncLog) : list SyncLog :=
  List.fold_right insert_by_created_at nil ls.

(** [.eq('dms_system_id', dmsSystemId)]: the filter compares the column
    with the text the argument renders to; a NULL column matches nothing. *)
Definition log_of_system (dmsSystemId : option string) (l : SyncLog) : bool :=
  match log_dms_system_id l with
  | Some x => String.eqb x (template dmsSystemId)
  | None => false
  end.

Definition getDMSSyncStatus (dmsSystemId : option string) : M DMSSyncStatus :=
  let* w := read in
  match select_sync_logs_error E with
  | Some m => throw (Error ("Failed to get sync status: " ++ m))
  | None =>
      let syncLogs :=
        List.firstn 10
          (order_by_created_at_desc
             (List.filter (log_of_system dmsSystemId) (dms_sync_logs w))) in
      ret (mk_DMSSyncStatus dmsSystemId
             (option_map log_created_at (List.hd_error syncLogs))
             syncLogs "active")
  end.

(** [result.successful || 0] and its two siblings: only a report carries
    these members. *)
Definition member_or_0 (f : SyncReport -> nat) (result : ActionResult) : nat :=
  match result with
  | report_result r => f r
  | _ => 0
  end.

(** The insert's reply is not inspected: a refused insert is silent. *)
Definition logSyncOperation (action : string) (dmsSystemId : option string)
    (result : ActionResult) : M unit :=
  if insert_sync_log_error E then ret tt
  else
    write (fun w =>
      with_dms_sync_logs w
        (push (dms_sync_logs w)
           (mk_SyncLog action dmsSystemId
              (member_or_0 successful result)
              (member_or_0 failed result)
              (member_or_0 totalDocuments result)
              (json_of_ActionResult result)
              (toISOString E)))).

(** *** The request handler *)

Definition corsHeaders : list (string * string) :=
  [("Access-Control-Allow-Origin", "*");
   ("Access-Control-Allow-Headers", "authorization, x-client-info, apikey, content-type")].

Definition json_headers : list (string * string) :=
  List.app corsHeaders [("Content-Type", "application/json")].

(** The [switch (action)]. *)
Definition dispatch (action : option string) (dmsSystemId : option string)
    (documentIds : option (list string)) (since : option string)
    (options : DMSSyncOptions) : M ActionResult :=
  match action with
  | Some a =>
      if String.eqb a "push" then
        let* r := pushDocumentsToDMS dmsSystemId documentIds options in
        ret (report_result r)
      else if String.eqb a "pull" then
        let* r := pullDocumentsFromDMS dmsSystemId since options in
        ret (report_result r)
      else if String.eqb a "full_sync" then
        let* pushResult := pushDocumentsToDMS dmsSystemId documentIds options in
        let* pullResult := pullDocumentsFromDMS dmsSystemId since options in
        ret (full_sync_result pushResult pullResult)
      else if String.eqb a "status" then
        let* st := getDMSSyncStatus dmsSystemId in
        ret (status_result st)
      else throw (Error ("Invalid sync action: " ++ a))
  | None => throw (Error ("Invalid sync action: " ++ template None))
  end.

(** [createClient(supabaseUrl, supabaseKey)] of supabase-js: the
    constructor of the client refuses an empty URL, may refuse one that is
    not empty (a URL that does not parse), and refuses an empty key. *)
Definition createClient (supabaseUrl supabaseKey : string) : M unit :=
  if String.eqb supabaseUrl "" then throw (Error "supabaseUrl is required.")
  else match createClient_throws E supabaseUrl supabaseKey with
       | Some e => throw e
       | None =>
           if String.eqb supabaseKey "" then throw (Error "supabaseKey is required.")
           else ret tt
       end.

(** [Deno.env.get(key) ?? '']. *)
Definition env_or_empty (key : string) : string :=
  match Deno_env E key with Some v => v | None => "" end.

(** The [try] block of [serve]. *)
Definition serve_try (req : HttpRequest) : M Response :=
  let* _ := createClient (env_or_empty "SUPABASE_URL")
              (env_or_empty "SUPABASE_SERVICE_ROLE_KEY") in
  match request_json req with
  | inl e => throw e
  | inr requestBody =>
      let options :=
        match options requestBody with Some o => o | None => no_options end in
      let* result :=
        dispatch (action requestBody) (dmsSystemId requestBody)
          (documentIds requestBody) (since requestBody) options in
      let* _ := logSyncOperation (template (action requestBody))
                  (dmsSystemId requestBody) result in
      ret (mk_Response 200 json_headers
             (Some (object
                      [("success", Some (JBool true));
                       ("action", option_map JStr (action requestBody));
                       ("dmsSystemId", option_map JStr (dmsSystemId requestBody));
                       ("result", Some (json_of_ActionResult result));
                       ("timestamp", Some (JStr (toISOString E)))])))
  end.

(** The [catch] block of [serve]. *)
Definition serve_catch (error : JsError) : M Response :=
  ret (mk_Response 400 json_headers
         (Some (object
                  [("success", Some (JBool false));
                   ("error", Some (JStr (message error)));
                   ("timestamp", Some (JStr (toISOString E)))]))).

Definition serve (req : HttpRequest) : M Response :=
  if String.eqb (request_method req) "OPTIONS"
  then ret (mk_Response 200 corsHeaders None)
  else try_catch (serve_try req) serve_catch.

End Functions.

(** The three values of an entry's [status]. *)
Definition recorded (s : string) : Prop :=
  s = "success" \/ s = "error" \/ s = "dry_run".

(** ** The shapes the trigger-surface contract names *)

Fixpoint strings_eqb (a b : list string) : bool :=
  match a, b with
  | nil, nil => true
  | x :: a', y :: b' => String.eqb x y && strings_eqb a' b'
  | _, _ => false
  end.

Definition is_SyncReport (j : json) : bool :=
  strings_eqb (keys j) ["totalDocuments"; "successful"; "failed"; "dryRun"; "results"].

(** [{success, action, result: SyncReport, timestamp}]. *)
Definition contract_success_shape (j : json) : bool :=
  strings_eqb (keys j) ["success"; "action"; "result"; "timestamp"]
  && match get "result" j with Some r => is_SyncReport r | None => false end.

(** [{success: false, error, message, timestamp}]. *)
Definition contract_error_shape (j : json) : bool :=
  strings_eqb (keys j) ["success"; "error"; "message"; "timestamp"]
  && match get "success" j with Some (JBool false) => true | _ => false end.

(** Requests to the function. *)
Definition post (a : string) (sys : option string) : HttpRequest :=
  mk_HttpRequest "POST" (inr (mk_DMSSyncRequest (Some a) sys None None None)).

(** ** Example worlds *)

Definition token_ok : HttpResponse :=
  mk_HttpResponse 200 "OK" (token_body "token-1").

Definition file_created (data : Blob) : HttpResponse :=
  mk_HttpResponse 200 "OK"
    (file_body (Some ("sp-" ++ data)) (Some ("/Shared Documents/" ++ data))
       (Some (JStr "list-1")) (Some (JNum 7)) (Some (JNum 1))).

(** An upload reply whose file entity has no [UniqueId] member. *)
Definition file_without_id : HttpResponse :=
  mk_HttpResponse 200 "OK" (file_body None None None None None).

Definition service_unavailable : HttpResponse :=
  mk_HttpResponse 503 "Service Unavailable"
    (not_json "Unexpected token 'S', Service Unavailable is not valid JSON").

(** A SharePoint that grants every token request and accepts every upload
    except that of the content [applications/b.pdf], which it answers with
    503 the first [n] times. *)
Definition flaky_sharepoint (n : nat) (r : Request) (k : nat) : FetchOutcome :=
  match payload r with
  | form_payload _ => responded token_ok
  | blob_payload data =>
      if String.eqb data "applications/b.pdf" && Nat.ltb k n
      then responded service_unavailable
      else responded (file_created data)
  end.

Definition example_variables (k : string) : option string :=
  if String.eqb k "SHAREPOINT_ENDPOINT"
  then Some "https://government.sharepoint.com/sites/immigration"
  else if String.eqb k "SHAREPOINT_TENANT_ID" then Some "tenant-1"
  else if String.eqb k "SHAREPOINT_CLIENT_ID" then Some "client-1"
  else if String.eqb k "SHAREPOINT_CLIENT_SECRET" then Some "secret-1"
  else if String.eqb k "SUPABASE_URL" then Some "https://project.supabase.co"
  else if String.eqb k "SUPABASE_SERVICE_ROLE_KEY" then Some "service-role-key"
  else None.

(** Object storage that returns the path as the content of the object. *)
Definition example_storage (path : option string) : string + Blob :=
  match path with
  | Some x => inr x
  | None => inl "Object not found"
  end.

(** An environment in which only the first [n] uploads of [b.pdf] fail. *)
Definition example_env (n : nat) : Env :=
  mk_Env "2025-01-01T00:00:00.000Z" "1735689600000" example_variables
    (fun _ _ => None) (flaky_sharepoint n) example_storage
    None (fun _ => None) (fun _ => None) (fun _ => None)
    (fun _ => "generated-id") None false.

(** An environment in which no variable is set. *)
Definition unconfigured_env : Env :=
  mk_Env "2025-01-01T00:00:00.000Z" "1735689600000" (fun _ => None)
    (fun _ _ => None) (flaky_sharepoint 0) example_storage
    None (fun _ => None) (fun _ => None) (fun _ => None)
    (fun _ => "generated-id") None false.

Definition local_document (key fname : string) : Document :=
  mk_Document key fname 1024 "application/pdf" (Some ("applications/" ++ fname))
    (JObj []) None None None None None None.

Definition three_documents : list Document :=
  [local_document "doc-1" "a.pdf";
   local_document "doc-2" "b.pdf";
   local_document "doc-3" "c.pdf"].

Definition example_world : World := mk_World three_documents [] [].

(** The configuration [getDMSConfigurations] yields under
    [example_variables]. *)
Definition example_config : DMSConfig :=
  mk_DMSConfig "sharepoint-main" "Primary SharePoint" sharepoint
    "https://government.sharepoint.com/sites/immigration"
    (mk_DMSAuthConfig "oauth2" "client-1" "secret-1" "tenant-1")
    (mk_DMSSyncSettings 15 50 3 manual true).

(** The upload request the push issues for [b.pdf]. *)
Definition upload_of_b : Request :=
  upload_request example_config (Some "token-1")
    (local_document "doc-2" "b.pdf") "applications/b.pdf".

(** A document that was synced before, and the descriptor the DMS now
    lists for it. *)
Definition synced_document : Document :=
  mk_Document "doc-9" "local.pdf" 1024 "application/pdf"
    (Some "applications/local.pdf") (JObj []) None
    (Some "ext-1") (Some "/Shared Documents/local.pdf")
    (Some "2024-12-01T00:00:00.000Z") (Some false) None.

Definition remote_descriptor : ExternalDocument :=
  mk_ExternalDocument "ext-1" "remote.pdf" 2048 "application/pdf"
    (JObj [("source", JStr "dms")]).

Definition synced_world : World := mk_World [synced_document] [] [].

(** An environment in which the database refuses every lookup by external
    id (a statement timeout, SQLSTATE 57014). *)
Definition refusing_lookups : Env :=
  mk_Env "2025-01-01T00:00:00.000Z" "1735689600000" example_variables
    (fun _ _ => None) (flaky_sharepoint 0) example_storage
    None (fun _ => None)
    (fun _ => Some ("57014", "canceling statement due to statement timeout"))
    (fun _ => None) (fun _ => "generated-id") None false.

(** A SharePoint that grants every token request and answers every upload
    with a file entity that has no [UniqueId]. *)
Definition sharepoint_without_id (r : Request) (k : nat) : FetchOutcome :=
  match payload r with
  | form_payload _ => responded token_ok
  | blob_payload _ => responded file_without_id
  end.

Definition example_env_without_id : Env :=
  mk_Env "2025-01-01T00:00:00.000Z" "1735689600000" example_variables
    (fun _ _ => None) sharepoint_without_id example_storage
    None (fun _ => None) (fun _ => None) (fun _ => None)
    (fun _ => "generated-id") None false.

End DMSSync.

(* ===================================================================== *)
(** * Part II-b. The notification trigger of [public.applications]        *)
(* ===================================================================== *)

Module StatusNotification.

Import Workflow.

Local Open Scope string_scope.
Local Open Scope Z_scope.

(** ** The notification trigger *)
















End StatusNotification.

(* ===================================================================== *)
(** * Part II-c. The clients of the external APIs (TypeScript)            *)
(* ===================================================================== *)

(** ** What the three classes share *)

Module Js.

Local Open Scope string_scope.
Local Open Scope Z_scope.

(** *** A JavaScript [Map] with string keys *)

(** Entries in insertion order; [set] on a present key replaces the value
    in place, on an absent key appends an entry. *)
Definition Map (V : Type) : Type := list (string * V).

Fixpoint Map_get {V : Type} (key : string) (m : Map V) : option V :=
  match m with
  | [] => None
  | (k, v) :: rest => if String.eqb k key then Some v else Map_get key rest
  end.

Fixpoint Map_set {V : Type} (key : string) (v : V) (m : Map V) : Map V :=
  match m with
  | [] => [(key, v)]
  | (k, x) :: rest =>
      if String.eqb k key then (k, v) :: rest else (k, x) :: Map_set key v rest
  end.

(** *** Values *)

(** What a field that the code treats as a number can hold: a number, or
    something that converts to NaN: NaN itself ([undefined * 1000]), a
    member inherited from [Object.prototype] (a function or an object), or
    the string that [now + member] is.  Every comparison with the latter
    is false, and arithmetic on them gives one of them again. *)
Inductive value : Set :=
  | number (n : Z)
  | not_a_number.

(** The truth value of a member read from a table of numbers: a number,
    or an inherited function or object. *)
Definition truthy (v : value) : bool :=
  match v with
  | number n => negb (n =? 0)
  | not_a_number => true
  end.

(** [now + v]. *)
Definition plus (now : Z) (v : value) : value :=
  match v with
  | number n => number (now + n)
  | not_a_number => not_a_number
  end.

(** [now > v]. *)
Definition gt (now : Z) (v : value) : bool :=
  match v with
  | number n => now >? n
  | not_a_number => false
  end.

(** [count >= v]. *)
Definition ge (count : Z) (v : value) : bool :=
  match v with
  | number n => count >=? n
  | not_a_number => false
  end.

(** [v * k]. *)
Definition times (v : value) (k : Z) : value :=
  match v with
  | number n => number (n * k)
  | not_a_number => not_a_number
  end.

End Js.

(** ** [APIRateLimiter] *)

Module RateLimiter.

Export Js.

Local Open Scope string_scope.
Local Open Scope Z_scope.

Record RateLimitInfo : Set := mk_RateLimitInfo {
  count : Z;
  resetTime : value;
  maxRequests : value
}.

(** One call of [checkRateLimit]: the reading of [Date.now()] and the two
    arguments. *)
Record Call : Set := mk_Call {
  call_now : Z;
  call_service : string;
  call_endpoint : string
}.

Section Limiter.

(** The names of the members of [Object.prototype] in the runtime the
    class is loaded in. *)
Variable Object_prototype : string -> bool.

(** [table[key]] on an object literal whose own members are numbers: an
    own member, else an inherited one, else [undefined]. *)
Definition member_of (table : list (string * Z)) (key : string) : option value :=
  match List.find (fun entry => String.eqb (fst entry) key) table with
  | Some (_, n) => Some (number n)
  | None => if Object_prototype key then Some not_a_number else None
  end.

(** [a || b]. *)
Definition or_else (a : option value) (b : value) : value :=
  match a with
  | Some v => if truthy v then v else b
  | None => b
  end.

Definition windows : list (string * Z) :=
  [("sharepoint", 60000); ("brp", 60000); ("kvk", 60000); ("sendgrid", 60000);
   ("default", 60000)].

Definition limits : list (string * Z) :=
  [("sharepoint", 100); ("brp", 50); ("kvk", 200); ("sendgrid", 1000);
   ("default", 100)].

Definition getRateLimitWindow (service : string) : value :=
  or_else (member_of windows service) (number 60000).

Definition getMaxRequests (service : string) : value :=
  or_else (member_of limits service) (number 100).

Definition checkRateLimit (now : Z) (service endpoint : string)
    (rateLimits : Map RateLimitInfo) : bool * Map RateLimitInfo :=
  let key := service ++ ":" ++ endpoint in
  match Map_get key rateLimits with
  | None =>
      (true,
       Map_set key
         (mk_RateLimitInfo 1 (plus now (getRateLimitWindow service))
            (getMaxRequests service))
         rateLimits)
  | Some limit =>
      if gt now (resetTime limit) then
        (true,
         Map_set key
           (mk_RateLimitInfo 1 (plus now (getRateLimitWindow service))
              (maxRequests limit))
           rateLimits)
      else if ge (count limit) (maxRequests limit) then (false, rateLimits)
      else
        (true,
         Map_set key
           (mk_RateLimitInfo (count limit + 1) (resetTime limit) (maxRequests limit))
           rateLimits)
  end.

(** A sequence of calls on one limiter, with the answer of each. *)
Fixpoint calls (cs : list Call) (rateLimits : Map RateLimitInfo)
    : list bool * Map RateLimitInfo :=
  match cs with
  | [] => ([], rateLimits)
  | c :: rest =>
      let (allowed, m1) :=
        checkRateLimit (call_now c) (call_service c) (call_endpoint c) rateLimits in
      let (answers, m2) := calls rest m1 in
      (allowed :: answers, m2)
  end.

(** A service whose name is not in the two tables but names a member of
    [Object.prototype]. *)
Definition inherited (service : string) : bool :=
  negb (List.existsb (fun entry => String.eqb (fst entry) service) limits)
  && Object_prototype service.

End Limiter.

(** The limit of a service whose name is not inherited. *)
Definition limit_of (service : string) : Z :=
  match List.find (fun entry => String.eqb (fst entry) service) limits with
  | Some (_, n) => n
  | None => 100
  end.

(** The members of [Object.prototype] of ECMAScript. *)
Definition ecmascript_prototype (name : string) : bool :=
  List.existsb (String.eqb name)
    ["constructor"; "hasOwnProperty"; "isPrototypeOf"; "propertyIsEnumerable";
     "toLocaleString"; "toString"; "valueOf"; "__defineGetter__"; "__defineSetter__";
     "__lookupGetter__"; "__lookupSetter__"; "__proto__"].

End RateLimiter.

(** ** [ExternalAPITokenManager] *)

Module TokenManager.

Export Js.

Local Open Scope string_scope.
Local Open Scope Z_scope.

Definition JsError := DMSSync.JsError.

Record TokenInfo : Set := mk_TokenInfo {
  token : option string;
  expiresAt : value;
  type : string
}.

(** The request of [refreshOAuth2Token]: the URL, the method, the headers
    and the members of the form. *)
Record Request : Set := mk_Request {
  url : string;
  method : string;
  headers : list (string * string);
  body : list (string * string)
}.

(** What [await response.json()] gives, with the three members the code
    reads: [access_token] ([None] is [undefined]), the number that
    [expires_in] converts to, and [token_type].  A value without members
    (an error reply, an array, a number) has all three absent; [null] and
    a body that is not JSON are apart, because the code fails on them
    (on the latter with the [SyntaxError] the runtime makes from the
    body). *)
Inductive Reply : Set :=
  | reply (access_token : option string) (expires_in : value) (token_type : option string)
  | reply_null
  | reply_not_json (message : string).

(** The status of the response is not part of the outcome: the code does
    not read it. *)
Inductive FetchOutcome : Set :=
  | network_failure (reason : string)
  | responded (r : Reply).

(** What the class cannot decide itself.  [Date_now n] is the [n]-th
    reading of the clock, [remote r n] the answer to request [r] when [n]
    requests were issued before it. *)
Record Env : Type := mk_Env {
  Date_now : nat -> Z;
  Deno_env : string -> option string;
  remote : Request -> nat -> FetchOutcome;
  Object_prototype : string -> bool
}.

(** The state: the [tokens] map, the requests issued so far, and the
    number of readings of the clock so far. *)
Record Manager : Type := mk_Manager {
  tokens : Map TokenInfo;
  requests : list Request;
  clock : nat
}.

Definition M (A : Type) : Type := Manager -> (JsError + A) * Manager.

Definition ret {A : Type} (a : A) : M A := fun s => (inr a, s).

Definition bind {A B : Type} (m : M A) (f : A -> M B) : M B :=
  fun s =>
    match m s with
    | (inl e, s') => (inl e, s')
    | (inr a, s') => f a s'
    end.

Definition throw {A : Type} (e : JsError) : M A := fun s => (inl e, s).

Declare Scope token_scope.
Delimit Scope token_scope with token.
Notation "'let*' x ':=' m 'in' k" := (bind m (fun x => k))
  (at level 10, x name, m at level 100, k at level 200) : token_scope.
Local Open Scope token_scope.

(** The entry of [configs] for a service. *)
Inductive ServiceConfig : Set :=
  | oauth2 (clientId clientSecret : option string) (tokenEndpoint scope : string)
  | jwt (privateKey certificate : option string)
  | api_key (apiKey : option string)
  | inherited_member.

Section Manager.

Variable E : Env.

(** [Date.now()]. *)
Definition now : M Z :=
  fun s => (inr (Date_now E (clock s)),
            mk_Manager (tokens s) (requests s) (S (clock s))).

(** [configs[service]]: an own member, else a member inherited from
    [Object.prototype] (which has no [type]), else [undefined]. *)
Definition getServiceConfig (service : string) : option ServiceConfig :=
  if String.eqb service "sharepoint" then
    Some (oauth2 (Deno_env E "SHAREPOINT_CLIENT_ID") (Deno_env E "SHAREPOINT_CLIENT_SECRET")
            "https://login.microsoftonline.com/tenant/oauth2/token"
            "https://graph.microsoft.com/.default")
  else if String.eqb service "brp" then
    Some (jwt (Deno_env E "BRP_PRIVATE_KEY") (Deno_env E "BRP_CERTIFICATE"))
  else if String.eqb service "kvk" then
    Some (api_key (Deno_env E "KVK_API_KEY"))
  else if Object_prototype E service then Some inherited_member
  else None.

(** [String(v)] of a member of the form. *)
Definition String_of (v : option string) : string :=
  match v with
  | Some s => s
  | None => "undefined"
  end.

Definition token_request (clientId clientSecret : option string)
    (tokenEndpoint scope : string) : Request :=
  mk_Request tokenEndpoint "POST"
    [("Content-Type", "application/x-www-form-urlencoded")]
    [("grant_type", "client_credentials");
     ("client_id", String_of clientId);
     ("client_secret", String_of clientSecret);
     ("scope", scope)].

(** [await fetch(url, init)]: rejects with a [TypeError] when the server
    cannot be reached. *)
Definition fetch (r : Request) : M Reply :=
  fun s =>
    let s' := mk_Manager (tokens s) (DMSSync.push (requests s) r) (clock s) in
    match remote E r (List.length (requests s)) with
    | network_failure reason => (inl (DMSSync.TypeError reason), s')
    | responded body => (inr body, s')
    end.

(** [result.token_type || 'Bearer']. *)
Definition token_type_or_Bearer (t : option string) : string :=
  match t with
  | Some "" | None => "Bearer"
  | Some s => s
  end.

Definition refreshOAuth2Token (service : string)
    (clientId clientSecret : option string) (tokenEndpoint scope : string)
    : M (option string) :=
  let* response := fetch (token_request clientId clientSecret tokenEndpoint scope) in
  match response with
  | reply_not_json m => throw (DMSSync.SyntaxError m)
  | reply_null =>
      throw (DMSSync.TypeError "Cannot read properties of null (reading 'access_token')")
  | reply access_token expires_in token_type =>
      let* t := now in
      let tokenInfo :=
        mk_TokenInfo access_token (plus t (times expires_in 1000))
          (token_type_or_Bearer token_type) in
      fun s =>
        (inr (token tokenInfo),
         mk_Manager (Map_set service tokenInfo (tokens s)) (requests s) (clock s))
  end.

Definition generateJWTToken (service : string) : M (option string) :=
  ret (Some "jwt-token-placeholder").

Definition refreshToken (service : string) : M (option string) :=
  match getServiceConfig service with
  | None =>
      throw (DMSSync.TypeError "Cannot read properties of undefined (reading 'type')")
  | Some (oauth2 clientId clientSecret tokenEndpoint scope) =>
      refreshOAuth2Token service clientId clientSecret tokenEndpoint scope
  | Some (jwt _ _) => generateJWTToken service
  | Some (api_key apiKey) => ret apiKey
  | Some inherited_member => throw (DMSSync.Error "Unsupported auth type: undefined")
  end.

(** [Date.now() >= tokenInfo.expiresAt]. *)
Definition isTokenExpired (tokenInfo : TokenInfo) : M bool :=
  let* t := now in ret (ge t (expiresAt tokenInfo)).

Definition getToken (service : string) : M (option string) :=
  fun s =>
    match Map_get service (tokens s) with
    | None => refreshToken service s
    | Some tokenInfo =>
        (let* expired := isTokenExpired tokenInfo in
         if expired then refreshToken service else ret (token tokenInfo)) s
    end.

(** A sequence of calls of [getToken], each awaited by its caller: the
    outcome of each, and the state after the last. *)
Fixpoint getTokens (services : list string) (s : Manager)
    : list (JsError + option string) * Manager :=
  match services with
  | [] => ([], s)
  | service :: rest =>
      let (outcome, s1) := getToken service s in
      let (outcomes, s2) := getTokens rest s1 in
      (outcome :: outcomes, s2)
  end.

End Manager.

(** The manager as constructed: no token, no request, no reading. *)
Definition new_manager : Manager := mk_Manager [] [] 0.

(** Example: a clock that advances one second per reading from 1000000, a
    server that issues a token valid for 3600 seconds, and one that
    answers with an error body. *)
Definition example_clock (n : nat) : Z := 1000000 + 1000 * Z.of_nat n.

Definition issuing_env : Env :=
  mk_Env example_clock (fun _ => Some "secret")
    (fun _ n => responded (reply (Some ("token-" ++ String (Ascii.ascii_of_nat (48 + n)) ""))
                             (number 3600) None))
    (fun _ => false).

Definition refusing_env : Env :=
  mk_Env example_clock (fun _ => None)
    (fun _ _ => responded (reply None not_a_number None))
    (fun _ => false).

End TokenManager.

(** ** [IntegrationHealthMonitor] *)

Module HealthMonitor.

Local Open Scope string_scope.
Local Open Scope Z_scope.

Definition JsError := DMSSync.JsError.

Record HealthStatus : Set := mk_HealthStatus {
  status : string;
  responseTime : Z;
  lastCheck : string;
  message : string;
  error : option string
}.

Record HealthReport : Set := mk_HealthReport {
  timestamp : string;
  overallStatus : string;
  integrations : list (string * HealthStatus)
}.

(** A probe: the URL and the headers; the method is GET in each. *)
Record Request : Set := mk_Request {
  url : string;
  headers : list (string * string)
}.

(** What a probe meets: a rejection of [fetch], or a response, of which
    the code reads [ok] and [statusText]. *)
Inductive FetchOutcome : Set :=
  | network_failure (reason : string)
  | responded (ok : bool) (statusText : string).

(** What the class cannot decide itself.  The six checks of a run are
    started together and complete in the order their probes are answered,
    so the readings of the clock belong to the check that makes them:
    [startTime] and [endTime] are the two readings of [Date.now()] of the
    check of a service, [checkTime] is its [new Date().toISOString()], and
    [reportTime] that of the report.  [createClient_throws] is the error
    the construction of the database client raises, if it does;
    [insert_refused] tells whether the database refuses the log row. *)
Record Env : Type := mk_Env {
  startTime : string -> Z;
  endTime : string -> Z;
  checkTime : string -> string;
  reportTime : string;
  Deno_env : string -> option string;
  remote : Request -> FetchOutcome;
  createClient_throws : option JsError;
  insert_refused : bool
}.

(** The state: the [healthStatus] map (by key: the order of its entries
    is the order in which the checks complete), the probes issued so far,
    and the table [integration_health_logs]. *)
Record Monitor : Type := mk_Monitor {
  healthStatus : string -> option HealthStatus;
  requests : list Request;
  integration_health_logs : list HealthReport
}.

(** [healthStatus.set(service, status)]. *)
Definition set_status (service : string) (st : HealthStatus) (s : Monitor) : Monitor :=
  mk_Monitor
    (fun key => if String.eqb key service then Some st else healthStatus s key)
    (requests s) (integration_health_logs s).

Section Monitor.

Variable E : Env.

(** [Deno.env.get(k) ?? '']. *)
Definition env_or_empty (k : string) : string :=
  match Deno_env E k with Some v => v | None => "" end.

(** [`${Deno.env.get(k)}`]. *)
Definition env_in_template (k : string) : string :=
  match Deno_env E k with Some v => v | None => "undefined" end.

(** A probe and the check of its response: [fetch] rejects with a
    [TypeError]; a response that is not [ok] makes the ping throw. *)
Definition ping (r : Request) (label : string) (s : Monitor) : option JsError * Monitor :=
  let s' := mk_Monitor (healthStatus s) (DMSSync.push (requests s) r)
              (integration_health_logs s) in
  match remote E r with
  | network_failure reason => (Some (DMSSync.TypeError reason), s')
  | responded true _ => (None, s')
  | responded false statusText =>
      (Some (DMSSync.Error (label ++ " health check failed: " ++ statusText)), s')
  end.

Definition sharepoint_probe : Request :=
  mk_Request "https://government.sharepoint.com/_api/web"
    [("Accept", "application/json")].

Definition kvk_probe : Request :=
  mk_Request "https://api.kvk.nl/api/v1/zoeken?kvkNummer=90004760"
    [("apikey", env_or_empty "KVK_API_KEY")].

Definition sendgrid_probe : Request :=
  mk_Request "https://api.sendgrid.com/v3/user/profile"
    [("Authorization", "Bearer " ++ env_in_template "SENDGRID_API_KEY")].

Definition pingSharePoint : Monitor -> option JsError * Monitor :=
  ping sharepoint_probe "SharePoint".

(** The body only writes to the console. *)
Definition pingBRP (s : Monitor) : option JsError * Monitor := (None, s).

Definition pingKVK : Monitor -> option JsError * Monitor :=
  ping kvk_probe "KVK".

Definition pingSendGrid : Monitor -> option JsError * Monitor :=
  ping sendgrid_probe "SendGrid".

(** The [switch] of [checkIntegrationHealth]: what the [try] block
    throws, if it does. *)
Definition ping_service (service : string) (s : Monitor) : option JsError * Monitor :=
  if String.eqb service "sharepoint" then pingSharePoint s
  else if String.eqb service "brp" then pingBRP s
  else if String.eqb service "kvk" then pingKVK s
  else if String.eqb service "sendgrid" then pingSendGrid s
  else (Some (DMSSync.Error ("Unknown service: " ++ service)), s).

Definition checkIntegrationHealth (service : string) (s : Monitor)
    : HealthStatus * Monitor :=
  let (thrown, s1) := ping_service service s in
  let st :=
    match thrown with
    | None =>
        mk_HealthStatus "healthy" (endTime E service - startTime E service)
          (checkTime E service) "Service is responding normally" None
    | Some e =>
        mk_HealthStatus "unhealthy" (-1) (checkTime E service)
          (DMSSync.message e) (Some (DMSSync.name e))
    end in
  (st, set_status service st s1).

(** [integrations.map(service => this.checkIntegrationHealth(service))]. *)
Fixpoint check_each (services : list string) (s : Monitor)
    : list HealthStatus * Monitor :=
  match services with
  | [] => ([], s)
  | service :: rest =>
      let (st, s1) := checkIntegrationHealth service s in
      let (sts, s2) := check_each rest s1 in
      (st :: sts, s2)
  end.

(** The insert's reply is not inspected. *)
Definition logHealthReport (report : HealthReport) (s : Monitor)
    : option JsError * Monitor :=
  match createClient_throws E with
  | Some e => (Some e, s)
  | None =>
      (None,
       if insert_refused E then s
       else mk_Monitor (healthStatus s) (requests s)
              (DMSSync.push (integration_health_logs s) report))
  end.

Definition integrations_checked : list string :=
  ["sharepoint"; "brp"; "kvk"; "sendgrid"; "messagebird"; "mollie"].

Definition checkAllIntegrations (s : Monitor) : (JsError + HealthReport) * Monitor :=
  let (results, s1) := check_each integrations_checked s in
  let report :=
    mk_HealthReport (reportTime E)
      (if List.forallb (fun r => String.eqb (status r) "healthy") results
       then "healthy" else "degraded")
      (List.combine integrations_checked results) in
  match logHealthReport report s1 with
  | (Some e, s2) => (inl e, s2)
  | (None, s2) => (inr report, s2)
  end.

End Monitor.

(** Example: every probe is answered with 200 OK. *)
Definition all_up : Env :=
  mk_Env (fun _ => 5000) (fun _ => 5040) (fun _ => "2024-01-01T00:00:05.040Z")
    "2024-01-01T00:00:05.100Z" (fun _ => Some "key")
    (fun _ => responded true "OK") None false.

Definition new_monitor : Monitor := mk_Monitor (fun _ => None) [] [].

End HealthMonitor.

(* ===================================================================== *)
(** * Part II-d. The first [sync-dms] function (TypeScript)               *)
(* ===================================================================== *)

Module LegacySync.

Import DMSSync.

Local Open Scope string_scope.
Local Open Scope js_scope.

(** An entry of [syncResults] of the push. *)
Record PushResult : Set := mk_PushResult {
  push_documentId : string;
  push_externalId : option string;
  push_status : string;
  push_error : option string
}.

Record PushReport : Set := mk_PushReport {
  processed : nat;
  push_successful : nat;
  push_failed : nat;
  push_results : list PushResult
}.

Section Functions.

Variable E : Env.

(** [.is('external_dms_id', null)]. *)
Definition unsynced (d : Document) : bool :=
  match external_dms_id d with
  | None => true
  | Some _ => false
  end.

(** The rows the query asks for: the listed rows when a list is given,
    else the rows without an external id. *)
Definition candidates (documentIds : option (list string)) (docs : list Document)
    : list Document :=
  if lists_ids documentIds
  then List.filter (id_in (match documentIds with Some ids => ids | None => [] end)) docs
  else List.filter unsynced docs.

(** [`ext_${Date.now()}_${document.id.substring(0, 8)}`]. *)
Definition uploadToExternalDMS (key : string) : string :=
  "ext_" ++ Date_now E ++ "_" ++ String.substring 0 8 key.

(** [{ external_dms_id: externalId, synced_at: new Date().toISOString() }]. *)
Definition patch (externalId : string) (d : Document) : Document :=
  mk_Document (id d) (file_name d) (file_size d) (file_type d) (storage_path d)
    (metadata d) (updated_at d)
    (Some externalId) (external_dms_url d) (Some (toISOString E))
    (needs_sync d) (sync_metadata d).

(** The body of the loop for one document.  The reply of the update is
    not read. *)
Definition push_item (doc : Document) (syncResults : list PushResult)
    : M (list PushResult) :=
  try_catch
    (let externalId := uploadToExternalDMS (id doc) in
     let* _ := update_documents E (patch externalId) (id doc) in
     ret (push syncResults
            (mk_PushResult (id doc) (Some externalId) "success" None)))
    (fun error =>
       ret (push syncResults (mk_PushResult (id doc) None "error" (Some (message error))))).

Definition pushToExternalDMS (documentIds : option (list string)) : M PushReport :=
  let* w := read in
  match select_documents_error E with
  | Some m => throw (Error ("Failed to fetch documents: " ++ m))
  | None =>
      let documents := candidates documentIds (documents w) in
      let* syncResults := for_of documents push_item [] in
      ret (mk_PushReport (List.length documents)
             (List.length
                (List.filter (fun r => String.eqb (push_status r) "success") syncResults))
             (List.length
                (List.filter (fun r => String.eqb (push_status r) "error") syncResults))
             syncResults)
  end.

(** Whether a row bears the id of a document of [docs] whose update the
    database carries out. *)
Definition updated_by (docs : list Document) (d : Document) : bool :=
  List.existsb
    (fun doc =>
       String.eqb (id d) (id doc)
       && match update_documents_error E (id doc) with None => true | Some _ => false end)
    docs.

End Functions.

(** Example: the database refuses every update of document [doc-2]. *)
Definition refusing_doc_2 : Env :=
  mk_Env "2024-01-01T00:00:00.000Z" "1704067200000" (fun _ => None)
    (fun _ _ => None) (fun _ _ => network_failure "unreachable") (fun _ => inl "no storage")
    None (fun key => if String.eqb key "doc-2" then Some "row is locked" else None)
    (fun _ => None) (fun _ => None) (fun _ => "uuid") None false.

End LegacySync.

(* ===================================================================== *)
(** * Part III. Properties of the status workflow                        *)
(* ===================================================================== *)

Module WorkflowFacts.

Import Workflow.
Local Open Scope string_scope.
Local Open Scope Z_scope.

(** ** The triggers and the constraints, column by column *)

Lemma status_eqb_eq (a b : application_status_enum) : status_eqb a b = true <-> a = b.
Proof.
  unfold status_eqb. destruct (status_eq_dec a b); split; congruence.
Qed.

Lemma status_eqb_refl (a : application_status_enum) : status_eqb a a = true.
Proof. apply status_eqb_eq. reflexivity. Qed.

(** The timestamp CASE touches neither [status] nor [form_data] nor
    [version], [created_at] or [expiry_date]. *)
Lemma update_timestamps_keeps (OLD NEW : applications) (NOW : timestamptz) :
  let N := update_timestamps OLD NEW NOW in
  status N = status NEW /\ form_data N = form_data NEW /\ version N = version NEW
  /\ created_at N = created_at NEW /\ expiry_date N = expiry_date NEW.
Proof.
  unfold update_timestamps.
  destruct NEW as [i [[]|] sa ra dd ed fd md ca ua ve]; cbn;
    repeat match goal with |- context [if ?c then _ else _] => destruct c end;
    cbn; repeat split; reflexivity.
Qed.

Lemma significant_change_timestamps (OLD NEW : applications) (NOW : timestamptz) :
  significant_change OLD (update_timestamps OLD NEW NOW) = significant_change OLD NEW.
Proof.
  unfold significant_change.
  destruct (update_timestamps_keeps OLD NEW NOW) as (Hs & Hf & _).
  cbv zeta in Hs, Hf. rewrite Hs, Hf. reflexivity.
Qed.














(** ** C3 *)




(** ** C4 *)


(** ** C5 *)




(** ** C6 *)



(** ** What the trigger hands on *)

Lemma is_distinct_from_status (a b : option application_status_enum) :
  is_distinct_from status_eqb a b = true <-> a <> b.
Proof.
  destruct a as [x|], b as [y|]; cbn; try (split; intros; congruence).
  unfold status_eqb. destruct (status_eq_dec x y); cbn; split; intros; congruence.
Qed.

Lemma significant_change_spec (OLD NEW : applications) :
  significant_change OLD NEW = true
  <-> status OLD <> status NEW \/ jsonb_eqb (form_data OLD) (form_data NEW) = false.
Proof.
  unfold significant_change. rewrite orb_true_iff, is_distinct_from_status.
  cbn [is_distinct_from]. rewrite negb_true_iff. tauto.
Qed.

(** X9.  What [handle_application_status_change] does with any stored
    row, any row a statement proposes and any time.  It raises
    [integer_out_of_range] exactly when [form_data] (compared as JSONB
    values) or [status] is distinct from the old one and [OLD.version + 1]
    is no INTEGER.  Otherwise it hands on the statement's row with
    [submitted_at] set to the current time on a change from [draft] to
    [submitted], [review_started_at] set to the current time when the new
    status is [under_review] and the statement leaves the column NULL,
    [decision_date] likewise for [approved] and [rejected], [version] set
    to [OLD.version + 1] (NULL when [OLD.version] is NULL) when [form_data]
    or [status] is distinct and left as the statement gave it when not, and
    every other column as the statement gave it. *)
Theorem trigger_hands_on_timestamps_and_version
    (OLD NEW : applications) (NOW : timestamptz) :
  let changed :=
    status OLD <> status NEW \/ jsonb_eqb (form_data OLD) (form_data NEW) = false in
  let overflow :=
    exists v, version OLD = Some v /\ ~ (int4_min <= v + 1 <= int4_max) in
  (changed /\ overflow ->
   handle_application_status_change OLD NEW NOW = inl integer_out_of_range)
  /\ (~ (changed /\ overflow) ->
      exists N,
        handle_application_status_change OLD NEW NOW = inr N
        /\ id N = id NEW /\ status N = status NEW /\ form_data N = form_data NEW
        /\ metadata N = metadata NEW /\ expiry_date N = expiry_date NEW
        /\ created_at N = created_at NEW /\ updated_at N = updated_at NEW
        /\ submitted_at N
           = match status NEW, status OLD with
             | Some submitted, Some draft => Some NOW
             | _, _ => submitted_at NEW
             end
        /\ review_started_at N
           = match status NEW, review_started_at NEW with
             | Some under_review, None => Some NOW
             | _, given => given
             end
        /\ decision_date N
           = match status NEW, decision_date NEW with
             | Some approved, None | Some rejected, None => Some NOW
             | _, given => given
             end
        /\ (changed -> version N = option_map (fun v => v + 1) (version OLD))
        /\ (~ changed -> version N = version NEW)).
Proof.
  intros changed overflow.
  pose proof (significant_change_spec OLD NEW) as Hspec. fold changed in Hspec.
  assert (Hrow : let T := update_timestamps OLD NEW NOW in
            id T = id NEW /\ status T = status NEW /\ form_data T = form_data NEW
            /\ metadata T = metadata NEW /\ expiry_date T = expiry_date NEW
            /\ created_at T = created_at NEW /\ updated_at T = updated_at NEW
            /\ version T = version NEW
            /\ submitted_at T
               = match status NEW, status OLD with
                 | Some submitted, Some draft => Some NOW
                 | _, _ => submitted_at NEW
                 end
            /\ review_started_at T
               = match status NEW, review_started_at NEW with
                 | Some under_review, None => Some NOW
                 | _, given => given
                 end
            /\ decision_date T
               = match status NEW, decision_date NEW with
                 | Some approved, None | Some rejected, None => Some NOW
                 | _, given => given
                 end).
  { unfold update_timestamps.
    destruct NEW as [i [[]|] sa ra dd ed fd md ca ua ve]; cbn;
      try (destruct ra); try (destruct dd);
      try (destruct (status OLD) as [[]|]); cbn; repeat split; reflexivity. }
  cbv zeta in Hrow.
  destruct Hrow as (Hid & Hst & Hfd & Hmd & Hed & Hca & Hua & Hve & Hsa & Hra & Hdd).
  unfold handle_application_status_change.
  rewrite significant_change_timestamps.
  destruct (significant_change OLD NEW) eqn:Hsig.
  - assert (Hch : changed) by (apply Hspec; reflexivity).
    unfold int4_add. destruct (version OLD) as [v|] eqn:Hv.
    + destruct ((int4_min <=? v + 1) && (v + 1 <=? int4_max)) eqn:Hrange.
      * apply andb_true_iff in Hrange. destruct Hrange as [H1 H2].
        apply Z.leb_le in H1, H2.
        split.
        { intros (_ & v' & [= <-] & Hno). exfalso. apply Hno. lia. }
        intros _. eexists. split; [reflexivity|].
        cbn [id status form_data metadata expiry_date created_at updated_at
             submitted_at review_started_at decision_date version with_version].
        repeat (split; [assumption|]).
        split; [intros _; reflexivity|]. intros Hno. contradiction.
      * split; [reflexivity|]. intros Hno. exfalso. apply Hno.
        split; [exact Hch|]. exists v. split; [reflexivity|].
        intros [H1 H2]. apply Z.leb_le in H1, H2. rewrite H1, H2 in Hrange.
        discriminate Hrange.
    + split.
      { intros (_ & v' & Hv' & _). discriminate Hv'. }
      intros _. eexists. split; [reflexivity|].
      cbn [id status form_data metadata expiry_date created_at updated_at
           submitted_at review_started_at decision_date version with_version].
      repeat (split; [assumption|]).
      split; [intros _; reflexivity|]. intros Hno. contradiction.
  - assert (Hch : ~ changed).
    { intros H. apply Hspec in H. congruence. }
    split.
    { intros (H & _). contradiction. }
    intros _. eexists. split; [reflexivity|].
    repeat (split; [assumption|]).
    split; [intros H; contradiction|]. intros _. exact Hve.
Qed.

End WorkflowFacts.
(* ===================================================================== *)
(** * Part IV. Properties of the synchronisation                         *)
(* ===================================================================== *)

Module SyncFacts.

Import DMSSync.
Local Open Scope string_scope.
Local Open Scope js_scope.

(** ** The monad *)

Lemma bind_inr {A B : Type} (m : M A) (f : A -> M B) (w w' : World) (v : B) :
  bind m f w = (inr v, w') ->
  exists a w1, m w = (inr a, w1) /\ f a w1 = (inr v, w').
Proof.
  unfold bind. destruct (m w) as [[e|a] w1]; [discriminate|].
  intros H. exists a, w1. auto.
Qed.

Lemma bind_inl {A B : Type} (m : M A) (f : A -> M B) (w w' : World) (e : JsError) :
  bind m f w = (inl e, w') ->
  m w = (inl e, w') \/ exists a w1, m w = (inr a, w1) /\ f a w1 = (inl e, w').
Proof.
  unfold bind. destruct (m w) as [[e0|a] w1].
  - intros [= <- <-]. left. reflexivity.
  - intros H. right. exists a, w1. auto.
Qed.

(** A loop whose body always returns, having pushed one entry, returns
    with one entry per element, in order. *)
Lemma for_of_pushes {A : Type} (body : A -> list SyncResult -> M (list SyncResult))
    (P : A -> SyncResult -> Prop) :
  (forall x acc w, exists item w',
      body x acc w = (inr (push acc item), w') /\ P x item) ->
  forall xs acc w, exists items w',
      for_of xs body acc w = (inr (List.app acc items), w') /\ List.Forall2 P xs items.
Proof.
  intros Hbody xs. induction xs as [|x rest IH]; intros acc w; cbn.
  - exists nil, w. rewrite List.app_nil_r. split; [reflexivity|constructor].
  - destruct (Hbody x acc w) as (item & w1 & Hx & HP).
    destruct (IH (push acc item) w1) as (items & w2 & Hrest & HF).
    exists (item :: items), w2. unfold bind. rewrite Hx, Hrest.
    unfold push. rewrite <- List.app_assoc. cbn.
    split; [reflexivity|constructor; assumption].
Qed.

(** ** One entry per item, whatever happens to the item *)

Section Items.

Variable E : Env.

(** The entry of one item of the push loop, case by case. *)
Lemma push_item_entry (cfg : DMSConfig) (opts : DMSSyncOptions) (doc : Document)
    (results : list SyncResult) (w : World) :
  exists item w',
    push_item E cfg opts doc results w = (inr (push results item), w')
    /\ documentId item = Some (id doc)
    /\ (status item = "success" \/ status item = "error" \/ status item = "dry_run")
    /\ (truthy_bool (options_dryRun opts) = true ->
        item = mk_SyncResult (Some (id doc)) None "dry_run" (Some "would_sync") None
        /\ w' = w)
    /\ (truthy_bool (options_dryRun opts) = false ->
        (forall m, download E (storage_path doc) = inl m ->
           item = mk_SyncResult (Some (id doc)) None "error" None
                    (Some ("Failed to download document: " ++ m))
           /\ w' = w)
        /\ (forall blob, download E (storage_path doc) = inr blob ->
              (forall e w1, uploadToExternalDMS E cfg doc blob w = (inl e, w1) ->
                 item = mk_SyncResult (Some (id doc)) None "error" None (Some (message e))
                 /\ w' = w1)
              /\ (forall res w1, uploadToExternalDMS E cfg doc blob w = (inr res, w1) ->
                    (forall m, update_documents_error E (id doc) = Some m ->
                       item = mk_SyncResult (Some (id doc)) None "error" None
                                (Some ("Failed to update document: " ++ m))
                       /\ w' = w1)
                    /\ (update_documents_error E (id doc) = None ->
                        item = mk_SyncResult (Some (id doc)) (upload_externalId res)
                                 "success" (Some "synced") None
                        /\ w' = with_documents w1
                                  (List.map
                                     (fun d => if String.eqb (id d) (id doc)
                                               then push_patch E res d else d)
                                     (documents w1)))))).
Proof.
  unfold push_item, try_catch, push_try.
  destruct (truthy_bool (options_dryRun opts)).
  { eexists. eexists. split; [reflexivity|]. cbn.
    split; [reflexivity|]. split; [auto|]. split; [auto|]. discriminate. }
  destruct (download E (storage_path doc)) as [m|blob].
  { eexists. eexists. split; [reflexivity|]. cbn.
    split; [reflexivity|]. split; [auto|]. split; [discriminate|]. intros _.
    split; [intros m0 [= <-]; auto|]. intros blob H. discriminate H. }
  unfold bind.
  destruct (uploadToExternalDMS E cfg doc blob w) as [[e|res] w1] eqn:Hup.
  { eexists. eexists. split; [reflexivity|]. cbn.
    split; [reflexivity|]. split; [auto|]. split; [discriminate|]. intros _.
    split; [intros m H; discriminate H|]. intros blob0 [= <-]. rewrite Hup.
    split; [intros e0 w2 [= <- <-]; auto|]. intros res w2 H. discriminate H. }
  unfold update_documents.
  destruct (update_documents_error E (id doc)) as [m|].
  { eexists. eexists. split; [reflexivity|]. cbn.
    split; [reflexivity|]. split; [auto|]. split; [discriminate|]. intros _.
    split; [intros m0 H; discriminate H|]. intros blob0 [= <-]. rewrite Hup.
    split; [intros e0 w2 H; discriminate H|]. intros res0 w2 [= <- <-].
    split; [intros m0 [= <-]; auto|]. intros H. discriminate H. }
  eexists. eexists. split; [reflexivity|]. cbn.
  split; [reflexivity|]. split; [auto|]. split; [discriminate|]. intros _.
  split; [intros m0 H; discriminate H|]. intros blob0 [= <-]. rewrite Hup.
  split; [intros e0 w2 H; discriminate H|]. intros res0 w2 [= <- <-].
  split; [intros m0 H; discriminate H|]. auto.
Qed.

(** The entry of one item of the pull loop, case by case. *)
Lemma pull_item_entry (opts : DMSSyncOptions) (ext : ExternalDocument)
    (results : list SyncResult) (w : World) :
  exists item w',
    pull_item E opts ext results w = (inr (push results item), w')
    /\ externalId item = Some (ext_id ext)
    /\ (status item = "success" \/ status item = "error" \/ status item = "dry_run")
    /\ (truthy_bool (options_dryRun opts) = true ->
        item = mk_SyncResult None (Some (ext_id ext)) "dry_run" (Some "would_update") None
        /\ w' = w)
    /\ (truthy_bool (options_dryRun opts) = false ->
        (forall code m,
           find_document_error E (ext_id ext) = Some (code, m) -> code <> "PGRST116" ->
           item = mk_SyncResult None (Some (ext_id ext)) "error" None
                    (Some ("Database error: " ++ m))
           /\ w' = w)
        /\ (forall existing,
              find_document_error E (ext_id ext) = None ->
              List.filter (has_external_id (ext_id ext)) (documents w) = [existing] ->
              (forall m, update_documents_error E (id existing) = Some m ->
                 item = mk_SyncResult None (Some (ext_id ext)) "error" None
                          (Some ("Failed to update document: " ++ m))
                 /\ w' = w)
              /\ (update_documents_error E (id existing) = None ->
                  item = mk_SyncResult (Some (id existing)) (Some (ext_id ext))
                           "success" (Some "updated") None))
        /\ ((exists m, find_document_error E (ext_id ext) = Some ("PGRST116", m))
            \/ (find_document_error E (ext_id ext) = None
                /\ forall existing,
                     List.filter (has_external_id (ext_id ext)) (documents w)
                     <> [existing]) ->
            (forall m, insert_document_error E (ext_id ext) = Some m ->
               item = mk_SyncResult None (Some (ext_id ext)) "error" None
                        (Some ("Failed to create document: " ++ m))
               /\ w' = w)
            /\ (insert_document_error E (ext_id ext) = None ->
                item = mk_SyncResult
                         (Some (gen_random_uuid E (List.length (documents w))))
                         (Some (ext_id ext)) "success" (Some "created") None))).
Proof.
  unfold pull_item, try_catch, pull_try.
  destruct (truthy_bool (options_dryRun opts)).
  { eexists. eexists. split; [reflexivity|]. cbn.
    split; [reflexivity|]. split; [auto|]. split; [auto|]. discriminate. }
  unfold bind, find_by_external_id.
  destruct (find_document_error E (ext_id ext)) as [[code m]|] eqn:Hfind.
  - cbn [snd fst is_database_error].
    destruct (String.eqb_spec code "PGRST116") as [->|Hcode].
    + (* no row: insert *)
      unfold insert_document.
      destruct (insert_document_error E (ext_id ext)) as [mi|].
      * eexists. eexists. split; [reflexivity|]. cbn.
        split; [reflexivity|]. split; [auto|]. split; [discriminate|]. intros _.
        split; [intros c m0 [= <- <-] Hc; contradiction|].
        split; [intros existing H; discriminate H|]. intros _.
        split; [intros m0 [= <-]; auto|]. intros H. discriminate H.
      * eexists. eexists. split; [reflexivity|]. cbn.
        split; [reflexivity|]. split; [auto|]. split; [discriminate|]. intros _.
        split; [intros c m0 [= <- <-] Hc; contradiction|].
        split; [intros existing H; discriminate H|]. intros _.
        split; [intros m0 H; discriminate H|]. auto.
    + eexists. eexists. split; [reflexivity|]. cbn.
      split; [reflexivity|]. split; [auto|]. split; [discriminate|]. intros _.
      split; [intros c m0 [= <- <-] _; auto|].
      split; [intros existing H; discriminate H|].
      intros [(m0 & [= -> _])|(H & _)]; [contradiction|discriminate H].
  - cbn [snd fst is_database_error].
    destruct (List.filter (has_external_id (ext_id ext)) (documents w))
      as [|existing [|second rest]] eqn:Hrows; cbn [single fst snd is_database_error].
    + (* no row *)
      cbn [String.eqb Ascii.eqb Bool.eqb]. unfold insert_document.
      destruct (insert_document_error E (ext_id ext)) as [mi|].
      * eexists. eexists. split; [reflexivity|]. cbn.
        split; [reflexivity|]. split; [auto|]. split; [discriminate|]. intros _.
        split; [intros c m0 H; discriminate H|].
        split; [intros existing _ H; discriminate H|]. intros _.
        split; [intros m0 [= <-]; auto|]. intros H. discriminate H.
      * eexists. eexists. split; [reflexivity|]. cbn.
        split; [reflexivity|]. split; [auto|]. split; [discriminate|]. intros _.
        split; [intros c m0 H; discriminate H|].
        split; [intros existing _ H; discriminate H|]. intros _.
        split; [intros m0 H; discriminate H|]. auto.
    + (* one row *)
      unfold update_documents.
      destruct (update_documents_error E (id existing)) as [mu|] eqn:Hupd.
      * eexists. eexists. split; [reflexivity|]. cbn.
        split; [reflexivity|]. split; [auto|]. split; [discriminate|]. intros _.
        split; [intros c m0 H; discriminate H|].
        split.
        { intros existing0 _ [= <-]. rewrite Hupd.
          split; [intros m0 [= <-]; auto|]. intros H. discriminate H. }
        intros [(m0 & H)|(_ & H)]; [discriminate H|]. exfalso. exact (H _ eq_refl).
      * eexists. eexists. split; [reflexivity|]. cbn.
        split; [reflexivity|]. split; [auto|]. split; [discriminate|]. intros _.
        split; [intros c m0 H; discriminate H|].
        split.
        { intros existing0 _ [= <-]. rewrite Hupd.
          split; [intros m0 H; discriminate H|]. auto. }
        intros [(m0 & H)|(_ & H)]; [discriminate H|]. exfalso. exact (H _ eq_refl).
    + (* several rows *)
      cbn [String.eqb Ascii.eqb Bool.eqb]. unfold insert_document.
      destruct (insert_document_error E (ext_id ext)) as [mi|].
      * eexists. eexists. split; [reflexivity|]. cbn.
        split; [reflexivity|]. split; [auto|]. split; [discriminate|]. intros _.
        split; [intros c m0 H; discriminate H|].
        split; [intros existing0 _ H; discriminate H|]. intros _.
        split; [intros m0 [= <-]; auto|]. intros H. discriminate H.
      * eexists. eexists. split; [reflexivity|]. cbn.
        split; [reflexivity|]. split; [auto|]. split; [discriminate|]. intros _.
        split; [intros c m0 H; discriminate H|].
        split; [intros existing0 _ H; discriminate H|]. intros _.
        split; [intros m0 H; discriminate H|]. auto.
Qed.

Lemma push_item_records (cfg : DMSConfig) (opts : DMSSyncOptions) (doc : Document)
    (results : list SyncResult) (w : World) :
  exists item w',
    push_item E cfg opts doc results w = (inr (push results item), w')
    /\ (documentId item = Some (id doc) /\ recorded (status item)).
Proof.
  destruct (push_item_entry cfg opts doc results w) as (item & w' & H & Hid & Hst & _).
  exists item, w'. unfold recorded. auto.
Qed.

Lemma pull_item_records (opts : DMSSyncOptions) (ext : ExternalDocument)
    (results : list SyncResult) (w : World) :
  exists item w',
    pull_item E opts ext results w = (inr (push results item), w')
    /\ (externalId item = Some (ext_id ext) /\ recorded (status item)).
Proof.
  destruct (pull_item_entry opts ext results w) as (item & w' & H & Hid & Hst & _).
  exists item, w'. unfold recorded. auto.
Qed.

(** The two loops: one entry per element, in order, each the entry its
    item records in the state the items before it left. *)
Lemma push_loop_records (cfg : DMSConfig) (opts : DMSSyncOptions)
    (docs : list Document) (w : World) :
  exists items w',
    for_of docs (push_item E cfg opts) [] w = (inr items, w')
    /\ List.Forall2
         (fun doc item =>
            (documentId item = Some (id doc) /\ recorded (status item))
            /\ exists acc wa wb,
                 push_item E cfg opts doc acc wa = (inr (push acc item), wb))
         docs items.
Proof.
  destruct (for_of_pushes (push_item E cfg opts)
              (fun doc item =>
                 (documentId item = Some (id doc) /\ recorded (status item))
                 /\ exists acc wa wb,
                      push_item E cfg opts doc acc wa = (inr (push acc item), wb)))
    with (xs := docs) (acc := @nil SyncResult) (w := w) as (items & w' & H & HF).
  - intros x acc w0.
    destruct (push_item_records cfg opts x acc w0) as (item & w1 & H & HP).
    exists item, w1. eauto 7.
  - exists items, w'. auto.
Qed.

Lemma pull_loop_records (opts : DMSSyncOptions)
    (exts : list ExternalDocument) (w : World) :
  exists items w',
    for_of exts (pull_item E opts) [] w = (inr items, w')
    /\ List.Forall2
         (fun ext item =>
            (externalId item = Some (ext_id ext) /\ recorded (status item))
            /\ exists acc wa wb,
                 pull_item E opts ext acc wa = (inr (push acc item), wb))
         exts items.
Proof.
  destruct (for_of_pushes (pull_item E opts)
              (fun ext item =>
                 (externalId item = Some (ext_id ext) /\ recorded (status item))
                 /\ exists acc wa wb,
                      pull_item E opts ext acc wa = (inr (push acc item), wb)))
    with (xs := exts) (acc := @nil SyncResult) (w := w) as (items & w' & H & HF).
  - intros x acc w0.
    destruct (pull_item_records opts x acc w0) as (item & w1 & H & HP).
    exists item, w1. eauto 7.
  - exists items, w'. auto.
Qed.

End Items.

(** ** The runs *)

Lemma select_documents_inr (E : Env) (ids : option (list string)) (w w1 : World)
    (docs : list Document) :
  select_documents E ids w = (inr docs, w1) ->
  docs = push_candidates ids (documents w) /\ w1 = w /\ select_documents_error E = None.
Proof.
  unfold select_documents, bind, read, throw, ret.
  destruct (select_documents_error E); [discriminate|].
  intros [= <- <-]. auto.
Qed.

Lemma select_documents_inl (E : Env) (ids : option (list string)) (w w1 : World)
    (e : JsError) :
  select_documents E ids w = (inl e, w1) ->
  w1 = w /\ exists m, select_documents_error E = Some m
                      /\ e = Error ("Failed to fetch documents: " ++ m).
Proof.
  unfold select_documents, bind, read, throw, ret.
  destruct (select_documents_error E) as [m|]; [|discriminate].
  intros [= <- <-]. eauto.
Qed.

(** What a push run that returns has done. *)
Lemma push_run_inr (E : Env) (sys : option string) (ids : option (list string))
    (opts : DMSSyncOptions) (w w' : World) (rep : SyncReport) :
  pushDocumentsToDMS E sys ids opts w = (inr rep, w') ->
  exists cfg items,
    select_documents_error E = None
    /\ find_config E sys = Some cfg
    /\ for_of (push_candidates ids (documents w)) (push_item E cfg opts) [] w
       = (inr items, w')
    /\ rep = make_report (List.length (push_candidates ids (documents w))) items.
Proof.
  unfold pushDocumentsToDMS. intros H.
  apply bind_inr in H. destruct H as (docs & w1 & Hsel & H).
  apply select_documents_inr in Hsel. destruct Hsel as (-> & -> & Hnone).
  destruct (find_config E sys) as [cfg|]; [|discriminate].
  apply bind_inr in H. destruct H as (items & w2 & Hloop & H).
  injection H as <- <-. exists cfg, items. auto.
Qed.

Lemma pull_run (E : Env) (exts : list ExternalDocument) (opts : DMSSyncOptions)
    (w : World) :
  exists items w',
    pull_documents E exts opts w = (inr (make_report (List.length exts) items), w')
    /\ for_of exts (pull_item E opts) [] w = (inr items, w')
    /\ List.Forall2
         (fun ext item =>
            (externalId item = Some (ext_id ext) /\ recorded (status item))
            /\ exists acc wa wb,
                 pull_item E opts ext acc wa = (inr (push acc item), wb))
         exts items.
Proof.
  destruct (pull_loop_records E opts exts w) as (items & w' & Hloop & HF).
  exists items, w'. unfold pull_documents, bind. rewrite Hloop. auto.
Qed.

(** [fetchDocumentsFromDMS] lists nothing, so a pull run that finds its
    configuration returns the empty report and leaves the state alone. *)
Lemma pull_run_is_empty (E : Env) (sys since : option string) (opts : DMSSyncOptions)
    (w : World) :
  match find_config E sys with
  | Some _ =>
      pullDocumentsFromDMS E sys since opts w = (inr (mk_SyncReport 0 0 0 0 []), w)
  | None =>
      pullDocumentsFromDMS E sys since opts w
      = (inl (Error ("DMS configuration not found: " ++ template sys)), w)
  end.
Proof.
  unfold pullDocumentsFromDMS. destruct (find_config E sys); reflexivity.
Qed.

Lemma Forall2_impl {A B : Type} (P Q : A -> B -> Prop) (xs : list A) (ys : list B) :
  (forall x y, P x y -> Q x y) ->
  List.Forall2 P xs ys -> List.Forall2 Q xs ys.
Proof.
  intros HPQ HF. induction HF; constructor; auto.
Qed.

Lemma Forall2_Forall_r {A B : Type} (P : A -> B -> Prop) (Q : B -> Prop)
    (xs : list A) (ys : list B) :
  (forall x y, P x y -> Q y) ->
  List.Forall2 P xs ys -> List.Forall Q ys.
Proof.
  intros HP HF. induction HF as [|x y xs ys Hxy _ IH]; constructor; eauto.
Qed.

(** Each entry counts under exactly one of the three statuses. *)
Lemma status_counts (items : list SyncResult) :
  List.Forall (fun r => recorded (status r)) items ->
  (List.length (List.filter (fun r => String.eqb (status r) "success") items)
   + List.length (List.filter (fun r => String.eqb (status r) "error") items)
   + List.length (List.filter (fun r => String.eqb (status r) "dry_run") items)
   = List.length items)%nat.
Proof.
  induction 1 as [|r rest Hr _ IH]; [reflexivity|].
  cbn [List.filter].
  destruct Hr as [Hr | [Hr | Hr]]; rewrite Hr; cbn; lia.
Qed.

(** C10.  The report of a push run that completes has one entry per
    candidate, in the order of the candidates, each bearing the id of its
    candidate and one of the statuses [success], [error] and [dry_run];
    [totalDocuments] is the number of candidates; [successful], [failed]
    and [dryRun] are the numbers of entries whose status is [success],
    [error] and [dry_run]; and they add up to [totalDocuments].  The same
    holds of the report the pull loop makes of a list of descriptors, and a
    pull run that completes reports no entry and four zeros. *)
Theorem sync_report_is_consistent :
  (forall (E : Env) (sys : option string) (ids : option (list string))
          (opts : DMSSyncOptions) (w w' : World) (rep : SyncReport),
      pushDocumentsToDMS E sys ids opts w = (inr rep, w') ->
      List.Forall2
        (fun doc r =>
           documentId r = Some (id doc)
           /\ (status r = "success" \/ status r = "error" \/ status r = "dry_run"))
        (push_candidates ids (documents w)) (results rep)
      /\ totalDocuments rep = List.length (push_candidates ids (documents w))
      /\ successful rep
         = List.length
             (List.filter (fun r => String.eqb (status r) "success") (results rep))
      /\ failed rep
         = List.length
             (List.filter (fun r => String.eqb (status r) "error") (results rep))
      /\ dryRun rep
         = List.length
             (List.filter (fun r => String.eqb (status r) "dry_run") (results rep))
      /\ (successful rep + failed rep + dryRun rep = totalDocuments rep)%nat)
  /\ (forall (E : Env) (exts : list ExternalDocument) (opts : DMSSyncOptions)
            (w w' : World) (rep : SyncReport),
      pull_documents E exts opts w = (inr rep, w') ->
      List.Forall2
        (fun ext r =>
           externalId r = Some (ext_id ext)
           /\ (status r = "success" \/ status r = "error" \/ status r = "dry_run"))
        exts (results rep)
      /\ totalDocuments rep = List.length exts
      /\ successful rep
         = List.length
             (List.filter (fun r => String.eqb (status r) "success") (results rep))
      /\ failed rep
         = List.length
             (List.filter (fun r => String.eqb (status r) "error") (results rep))
      /\ dryRun rep
         = List.length
             (List.filter (fun r => String.eqb (status r) "dry_run") (results rep))
      /\ (successful rep + failed rep + dryRun rep = totalDocuments rep)%nat)
  /\ (forall (E : Env) (sys since : option string) (opts : DMSSyncOptions)
            (w w' : World) (rep : SyncReport),
      pullDocumentsFromDMS E sys since opts w = (inr rep, w') ->
      results rep = [] /\ totalDocuments rep = 0%nat /\ successful rep = 0%nat
      /\ failed rep = 0%nat /\ dryRun rep = 0%nat).
Proof.
  split; [|split].
  - intros E sys ids opts w w' rep H.
    apply push_run_inr in H. destruct H as (cfg & items & _ & _ & Hloop & ->).
    destruct (push_loop_records E cfg opts (push_candidates ids (documents w)) w)
      as (items' & w2 & Hloop' & HF).
    rewrite Hloop in Hloop'. injection Hloop' as <- <-.
    cbn [results totalDocuments successful failed dryRun make_report].
    split; [exact (Forall2_impl _ _ _ _ (fun _ _ H => proj1 H) HF)|].
    split; [reflexivity|]. split; [reflexivity|]. split; [reflexivity|].
    split; [reflexivity|].
    unfold has_status. rewrite status_counts.
    + symmetry. apply (List.Forall2_length HF).
    + apply (Forall2_Forall_r _ _ _ _ (fun _ _ H => proj2 (proj1 H)) HF).
  - intros E exts opts w w' rep H.
    destruct (pull_run E exts opts w) as (items & w2 & Hrun & _ & HF).
    rewrite Hrun in H. injection H as <- <-.
    cbn [results totalDocuments successful failed dryRun make_report].
    split; [exact (Forall2_impl _ _ _ _ (fun _ _ H => proj1 H) HF)|].
    split; [reflexivity|]. split; [reflexivity|]. split; [reflexivity|].
    split; [reflexivity|].
    unfold has_status. rewrite status_counts.
    + symmetry. apply (List.Forall2_length HF).
    + apply (Forall2_Forall_r _ _ _ _ (fun _ _ H => proj2 (proj1 H)) HF).
  - intros E sys since opts w w' rep H.
    pose proof (pull_run_is_empty E sys since opts w) as Hrun.
    destruct (find_config E sys); rewrite Hrun in H; [|discriminate H].
    injection H as <- _. cbn. auto.
Qed.

(** Three documents of which the second fails: three entries, two of them
    successes and one an error. *)
Lemma sync_report_is_consistent_witness :
  exists rep w',
    pushDocumentsToDMS (example_env 3) None None no_options example_world = (inr rep, w')
    /\ List.map documentId (results rep) = [Some "doc-1"; Some "doc-2"; Some "doc-3"]
    /\ List.map status (results rep) = ["success"; "error"; "success"]
    /\ totalDocuments rep = 3%nat
    /\ successful rep = 2%nat /\ failed rep = 1%nat /\ dryRun rep = 0%nat
    /\ (successful rep + failed rep + dryRun rep = totalDocuments rep)%nat.
Proof.
  destruct (pushDocumentsToDMS (example_env 3) None None no_options example_world)
    as [[e|rep] w'] eqn:Hrun.
  { vm_compute in Hrun. discriminate Hrun. }
  destruct (proj1 sync_report_is_consistent (example_env 3) None None no_options
              example_world w' rep Hrun) as (_ & Htotal & _ & _ & _ & Hsum).
  exists rep, w'. split; [reflexivity|].
  vm_compute in Hrun. injection Hrun as <- _.
  split; [reflexivity|]. split; [reflexivity|]. split; [exact Htotal|].
  split; [reflexivity|]. split; [reflexivity|]. split; [reflexivity|]. exact Hsum.
Defined.

(** C7.  In both loops a failure of an item is caught inside the item and
    recorded as an entry with status [error] and the message of the
    failure, the item returning normally to the loop: for a push item a
    failed download, a failed upload and a refused update; for a pull item
    a refused lookup, a refused update and a refused insert.  A push run
    therefore either fails before its loop (the candidate query failed or
    no configuration matched, with nothing attempted) or returns a report
    with one entry per candidate, in order, each the entry the item
    recorded; the pull loop always returns a report with one entry per
    descriptor; and a pull run fails only when no configuration
    matched. *)
Theorem item_failures_are_recorded_not_thrown :
  (forall (E : Env) (cfg : DMSConfig) (opts : DMSSyncOptions) (doc : Document)
          (results : list SyncResult) (w : World),
      exists item w',
        push_item E cfg opts doc results w = (inr (results ++ [item])%list, w')
        /\ documentId item = Some (id doc)
        /\ (status item = "success" \/ status item = "error" \/ status item = "dry_run")
        /\ (truthy_bool (options_dryRun opts) = true ->
            item = mk_SyncResult (Some (id doc)) None "dry_run" (Some "would_sync") None
            /\ w' = w)
        /\ (truthy_bool (options_dryRun opts) = false ->
            (forall m, download E (storage_path doc) = inl m ->
               item = mk_SyncResult (Some (id doc)) None "error" None
                        (Some ("Failed to download document: " ++ m))
               /\ w' = w)
            /\ (forall blob, download E (storage_path doc) = inr blob ->
                  (forall e w1, uploadToExternalDMS E cfg doc blob w = (inl e, w1) ->
                     item = mk_SyncResult (Some (id doc)) None "error" None
                              (Some (message e))
                     /\ w' = w1)
                  /\ (forall res w1,
                        uploadToExternalDMS E cfg doc blob w = (inr res, w1) ->
                        (forall m, update_documents_error E (id doc) = Some m ->
                           item = mk_SyncResult (Some (id doc)) None "error" None
                                    (Some ("Failed to update document: " ++ m))
                           /\ w' = w1)
                        /\ (update_documents_error E (id doc) = None ->
                            item = mk_SyncResult (Some (id doc)) (upload_externalId res)
                                     "success" (Some "synced") None
                            /\ w' = with_documents w1
                                      (List.map
                                         (fun d => if String.eqb (id d) (id doc)
                                                   then push_patch E res d else d)
                                         (documents w1)))))))
  /\ (forall (E : Env) (opts : DMSSyncOptions) (ext : ExternalDocument)
            (results : list SyncResult) (w : World),
      exists item w',
        pull_item E opts ext results w = (inr (results ++ [item])%list, w')
        /\ externalId item = Some (ext_id ext)
        /\ (status item = "success" \/ status item = "error" \/ status item = "dry_run")
        /\ (truthy_bool (options_dryRun opts) = true ->
            item = mk_SyncResult None (Some (ext_id ext)) "dry_run" (Some "would_update")
                     None
            /\ w' = w)
        /\ (truthy_bool (options_dryRun opts) = false ->
            (forall code m,
               find_document_error E (ext_id ext) = Some (code, m) ->
               code <> "PGRST116" ->
               item = mk_SyncResult None (Some (ext_id ext)) "error" None
                        (Some ("Database error: " ++ m))
               /\ w' = w)
            /\ (forall existing,
                  find_document_error E (ext_id ext) = None ->
                  List.filter (has_external_id (ext_id ext)) (documents w) = [existing] ->
                  (forall m, update_documents_error E (id existing) = Some m ->
                     item = mk_SyncResult None (Some (ext_id ext)) "error" None
                              (Some ("Failed to update document: " ++ m))
                     /\ w' = w)
                  /\ (update_documents_error E (id existing) = None ->
                      item = mk_SyncResult (Some (id existing)) (Some (ext_id ext))
                               "success" (Some "updated") None))
            /\ ((exists m, find_document_error E (ext_id ext) = Some ("PGRST116", m))
                \/ (find_document_error E (ext_id ext) = None
                    /\ forall existing,
                         List.filter (has_external_id (ext_id ext)) (documents w)
                         <> [existing]) ->
                (forall m, insert_document_error E (ext_id ext) = Some m ->
                   item = mk_SyncResult None (Some (ext_id ext)) "error" None
                            (Some ("Failed to create document: " ++ m))
                   /\ w' = w)
                /\ (insert_document_error E (ext_id ext) = None ->
                    item = mk_SyncResult
                             (Some (gen_random_uuid E (List.length (documents w))))
                             (Some (ext_id ext)) "success" (Some "created") None))))
  /\ (forall (E : Env) (sys : option string) (ids : option (list string))
            (opts : DMSSyncOptions) (w : World),
      match pushDocumentsToDMS E sys ids opts w with
      | (inr rep, _) =>
          exists cfg,
            find_config E sys = Some cfg
            /\ List.Forall2
                 (fun doc r =>
                    documentId r = Some (id doc)
                    /\ exists acc wa wb,
                         push_item E cfg opts doc acc wa = (inr (acc ++ [r])%list, wb))
                 (push_candidates ids (documents w)) (results rep)
      | (inl e, w') =>
          w' = w
          /\ ((exists m, select_documents_error E = Some m
                         /\ e = Error ("Failed to fetch documents: " ++ m))
              \/ (select_documents_error E = None /\ find_config E sys = None
                  /\ e = Error ("DMS configuration not found: " ++ template sys)))
      end)
  /\ (forall (E : Env) (exts : list ExternalDocument) (opts : DMSSyncOptions) (w : World),
      exists rep w',
        pull_documents E exts opts w = (inr rep, w')
        /\ List.Forall2
             (fun ext r =>
                externalId r = Some (ext_id ext)
                /\ exists acc wa wb,
                     pull_item E opts ext acc wa = (inr (acc ++ [r])%list, wb))
             exts (results rep))
  /\ (forall (E : Env) (sys since : option string) (opts : DMSSyncOptions) (w : World),
      match pullDocumentsFromDMS E sys since opts w with
      | (inr rep, w') => w' = w /\ results rep = []
      | (inl e, w') =>
          w' = w /\ find_config E sys = None
          /\ e = Error ("DMS configuration not found: " ++ template sys)
      end).
Proof.
  split; [|split; [|split; [|split]]].
  - intros E cfg opts doc results w. apply push_item_entry.
  - intros E opts ext results w. apply pull_item_entry.
  - intros E sys ids opts w.
    unfold pushDocumentsToDMS, bind.
    destruct (select_documents E ids w) as [[e|docs] w1] eqn:Hsel.
    + apply select_documents_inl in Hsel. destruct Hsel as [-> Herr]. auto.
    + apply select_documents_inr in Hsel. destruct Hsel as (-> & -> & Hnone).
      destruct (find_config E sys) as [cfg|]; [|cbn; auto].
      destruct (push_loop_records E cfg opts (push_candidates ids (documents w)) w)
        as (items & w' & -> & HF).
      cbn. exists cfg. split; [reflexivity|].
      apply (Forall2_impl _ _ _ _ (fun _ _ H => conj (proj1 (proj1 H)) (proj2 H)) HF).
  - intros E exts opts w.
    destruct (pull_run E exts opts w) as (items & w' & Hrun & _ & HF).
    eexists. exists w'. split; [exact Hrun|].
    cbn. apply (Forall2_impl _ _ _ _ (fun _ _ H => conj (proj1 (proj1 H)) (proj2 H)) HF).
  - intros E sys since opts w.
    pose proof (pull_run_is_empty E sys since opts w) as Hrun.
    destruct (find_config E sys); rewrite Hrun; auto.
Qed.

(** The upload of the second of three documents is answered 503: the item
    records an [error] entry, the third document is still synced, and the
    run returns its report.  And a lookup the database refuses is an
    [error] entry of the pull item. *)
Lemma item_failures_are_recorded_not_thrown_witness :
  (exists rep w',
     pushDocumentsToDMS (example_env 3) None None no_options example_world = (inr rep, w')
     /\ results rep
        = [mk_SyncResult (Some "doc-1") (Some "sp-applications/a.pdf") "success"
             (Some "synced") None;
           mk_SyncResult (Some "doc-2") None "error" None
             (Some "SharePoint upload failed: Service Unavailable");
           mk_SyncResult (Some "doc-3") (Some "sp-applications/c.pdf") "success"
             (Some "synced") None]
     /\ List.length (results rep)
        = List.length (push_candidates None (documents example_world)))
  /\ pull_item refusing_lookups no_options remote_descriptor [] synced_world
     = (inr [mk_SyncResult None (Some "ext-1") "error" None
               (Some "Database error: canceling statement due to statement timeout")],
        synced_world).
Proof.
  destruct item_failures_are_recorded_not_thrown as (_ & Hpull & Hrun & _).
  split.
  - specialize (Hrun (example_env 3) None None no_options example_world).
    destruct (pushDocumentsToDMS (example_env 3) None None no_options example_world)
      as [[e|rep] w'] eqn:Hpush.
    { vm_compute in Hpush. discriminate Hpush. }
    destruct Hrun as (cfg & _ & HF).
    exists rep, w'. split; [reflexivity|].
    split; [vm_compute in Hpush; injection Hpush as <- _; reflexivity|].
    symmetry. exact (List.Forall2_length HF).
  - destruct (Hpull refusing_lookups no_options remote_descriptor [] synced_world)
      as (item & w' & Hitem & _ & _ & _ & Hfail).
    destruct (Hfail eq_refl) as (Hlookup & _).
    destruct (Hlookup "57014" "canceling statement due to statement timeout" eq_refl)
      as (-> & ->); [discriminate|].
    exact Hitem.
Defined.

(** ** Uploads are attempted once *)

Section Uploads.

Variable E : Env.

Lemma fetch_world (r : Request) (w : World) :
  snd (fetch E r w) = with_requests w (push (requests w) r).
Proof. unfold fetch. destruct (remote E r _); reflexivity. Qed.

Lemma fetch_responded (r : Request) (w : World) (resp : HttpResponse) :
  remote E r (issued r (requests w)) = responded resp ->
  fetch E r w = (inr resp, with_requests w (push (requests w) r)).
Proof. unfold fetch. intros ->. reflexivity. Qed.

Lemma token_world (auth : DMSAuthConfig) (w : World) :
  snd (getSharePointAccessToken E auth w)
  = with_requests w (push (requests w) (token_request auth)).
Proof.
  unfold getSharePointAccessToken, bind.
  pose proof (fetch_world (token_request auth) w) as Hw.
  destruct (fetch E (token_request auth) w) as [[e|resp] w1]; cbn in Hw; subst w1.
  - reflexivity.
  - destruct (negb (ok resp)); [reflexivity|].
    unfold response_json. destruct (body resp); reflexivity.
Qed.

(** What an upload leaves in the trace: nothing (FileNet, Documentum, an
    unsupported type), the token request alone, or the token request
    followed by one upload request. *)
Lemma upload_trace (cfg : DMSConfig) (doc : Document) (blob : Blob) (w : World) :
  let w' := snd (uploadToExternalDMS E cfg doc blob w) in
  documents w' = documents w
  /\ (requests w' = requests w
      \/ requests w' = push (requests w) (token_request (authentication cfg))
      \/ exists tok,
           requests w'
           = push (push (requests w) (token_request (authentication cfg)))
               (upload_request cfg tok doc blob)).
Proof.
  unfold uploadToExternalDMS.
  destruct (type cfg); cbn; auto.
  unfold uploadToSharePoint, bind.
  pose proof (token_world (authentication cfg) w) as Hw.
  destruct (getSharePointAccessToken E (authentication cfg) w) as [[e|tok] w1];
    cbn in Hw; subst w1.
  - split; [reflexivity|]. right; left. reflexivity.
  - pose proof (fetch_world (upload_request cfg tok doc blob)
                  (with_requests w (push (requests w) (token_request (authentication cfg)))))
      as Hw.
    destruct (fetch E (upload_request cfg tok doc blob) _) as [[e|resp] w2];
      cbn in Hw; subst w2.
    + split; [reflexivity|]. right; right. exists tok. reflexivity.
    + destruct (negb (ok resp));
        [split; [reflexivity|]; right; right; exists tok; reflexivity|].
      unfold response_json.
      destruct (body resp); (split; [reflexivity|]); right; right; exists tok; reflexivity.
Qed.

Lemma update_documents_requests (patch : Document -> Document) (key : string) (w : World) :
  requests (snd (update_documents E patch key w)) = requests w.
Proof. unfold update_documents. destruct (update_documents_error E key); reflexivity. Qed.

Lemma push_item_trace (cfg : DMSConfig) (opts : DMSSyncOptions) (doc : Document)
    (results : list SyncResult) (w : World) :
  let w' := snd (push_item E cfg opts doc results w) in
  requests w' = requests w
  \/ requests w' = push (requests w) (token_request (authentication cfg))
  \/ exists tok blob,
       requests w'
       = push (push (requests w) (token_request (authentication cfg)))
           (upload_request cfg tok doc blob).
Proof.
  unfold push_item, try_catch, push_try.
  destruct (truthy_bool (options_dryRun opts)); [left; reflexivity|].
  destruct (download E (storage_path doc)) as [m|blob]; [left; reflexivity|].
  unfold bind.
  destruct (upload_trace cfg doc blob w) as [_ Hup]. cbv zeta in Hup.
  destruct (uploadToExternalDMS E cfg doc blob w) as [[e|res] w1]; cbn [snd] in Hup.
  - cbn [snd ret]. destruct Hup as [H|[H|[tok H]]]; rewrite H; eauto.
  - pose proof (update_documents_requests (push_patch E res) (id doc) w1) as Hreq.
    destruct (update_documents E (push_patch E res) (id doc) w1) as [[e|[m|]] w2];
      cbn [snd] in Hreq; cbn [snd ret throw]; rewrite Hreq;
      destruct Hup as [H|[H|[tok H]]]; rewrite H; eauto.
Qed.

End Uploads.

(** C1, as stated, fails.  The configuration carries [retryAttempts: 3] and
    SharePoint would accept the second upload of [b.pdf], yet after the
    first 503 the document is recorded as failed: its upload was issued
    once.  The failed entry has the members [documentId], [status] and
    [error] (a message) and no error kind. *)
Lemma transient_failure_is_not_retried :
  List.map (fun c => retryAttempts (syncSettings c)) (getDMSConfigurations (example_env 1))
  = [3]
  /\ remote (example_env 1) upload_of_b 0 = responded service_unavailable
  /\ remote (example_env 1) upload_of_b 1 = responded (file_created "applications/b.pdf")
  /\ exists rep w',
       pushDocumentsToDMS (example_env 1) None None no_options example_world
       = (inr rep, w')
       /\ List.map status (results rep) = ["success"; "error"; "success"]
       /\ failed rep = 1
       /\ issued upload_of_b (requests w') = 1
       /\ List.map (fun r => keys (json_of_SyncResult r))
            (List.filter (has_status "error") (results rep))
          = [["documentId"; "status"; "error"]].
Proof.
  repeat split.
  eexists. eexists. split; [vm_compute; reflexivity|]. repeat split.
Qed.

(** C1, amended.  An item issues its upload request at most once, whatever
    [retryAttempts] the configuration carries.  When SharePoint answers the
    upload with any status outside 200..299 (a 503 as much as a 401 or a
    404), the item is recorded at once as an [error] entry with the message
    [SharePoint upload failed: <statusText>], after that one request; when
    the token request is refused, it is recorded at once with no upload
    request at all, and so it is when the 2xx reply to the token request is
    the JSON text [null] or is not JSON.  Pushing three documents of which
    the second is answered 503 reports [successful: 2], [failed: 1], the
    failed entry carrying that message. *)
Theorem failed_upload_is_recorded_without_retry :
  (forall (E : Env) (cfg : DMSConfig) (opts : DMSSyncOptions) (doc : Document)
          (results : list SyncResult) (w : World),
      let w' := snd (push_item E cfg opts doc results w) in
      requests w' = requests w
      \/ requests w' = push (requests w) (token_request (authentication cfg))
      \/ exists tok blob,
           requests w'
           = push (push (requests w) (token_request (authentication cfg)))
               (upload_request cfg tok doc blob))
  /\ (forall (E : Env) (cfg : DMSConfig) (opts : DMSSyncOptions) (doc : Document)
            (results : list SyncResult) (w : World) (blob : Blob) (tr r : HttpResponse),
      type cfg = sharepoint ->
      truthy_bool (options_dryRun opts) = false ->
      download E (storage_path doc) = inr blob ->
      remote E (token_request (authentication cfg))
        (issued (token_request (authentication cfg)) (requests w)) = responded tr ->
      ok tr = true ->
      (forall m, body tr <> not_json m) ->
      body tr <> null_json ->
      let tok := match body tr with token_body t => Some t | _ => None end in
      let w1 := with_requests w (push (requests w) (token_request (authentication cfg))) in
      remote E (upload_request cfg tok doc blob)
        (issued (upload_request cfg tok doc blob) (requests w1)) = responded r ->
      ok r = false ->
      push_item E cfg opts doc results w
      = (inr (push results
                (push_failure doc (Error ("SharePoint upload failed: " ++ statusText r)))),
         with_requests w1 (push (requests w1) (upload_request cfg tok doc blob))))
  /\ (forall (E : Env) (cfg : DMSConfig) (opts : DMSSyncOptions) (doc : Document)
            (results : list SyncResult) (w : World) (blob : Blob) (tr : HttpResponse),
      type cfg = sharepoint ->
      truthy_bool (options_dryRun opts) = false ->
      download E (storage_path doc) = inr blob ->
      remote E (token_request (authentication cfg))
        (issued (token_request (authentication cfg)) (requests w)) = responded tr ->
      ok tr = false ->
      push_item E cfg opts doc results w
      = (inr (push results
                (push_failure doc
                   (Error ("Failed to get SharePoint access token: " ++ statusText tr)))),
         with_requests w (push (requests w) (token_request (authentication cfg)))))
  /\ (exists rep w',
        pushDocumentsToDMS (example_env 3) None None no_options example_world
        = (inr rep, w')
        /\ successful rep = 2 /\ failed rep = 1
        /\ List.map error (List.filter (has_status "error") (results rep))
           = [Some "SharePoint upload failed: Service Unavailable"]
        /\ issued upload_of_b (requests w') = 1)
  /\ (forall (E : Env) (cfg : DMSConfig) (opts : DMSSyncOptions) (doc : Document)
            (results : list SyncResult) (w : World) (blob : Blob) (tr : HttpResponse),
      type cfg = sharepoint ->
      truthy_bool (options_dryRun opts) = false ->
      download E (storage_path doc) = inr blob ->
      remote E (token_request (authentication cfg))
        (issued (token_request (authentication cfg)) (requests w)) = responded tr ->
      ok tr = true ->
      (body tr = null_json ->
       push_item E cfg opts doc results w
       = (inr (push results
                 (push_failure doc
                    (TypeError "Cannot read properties of null (reading 'access_token')"))),
          with_requests w (push (requests w) (token_request (authentication cfg)))))
      /\ (forall m, body tr = not_json m ->
           push_item E cfg opts doc results w
           = (inr (push results (push_failure doc (SyntaxError m))),
              with_requests w (push (requests w) (token_request (authentication cfg)))))).
Proof.
  split; [|split; [|split; [|split]]].
  5:{ intros E cfg opts doc results w blob tr Hty Hdry Hdl Htok Hok.
      split; [intros Hb|intros m Hb];
        unfold push_item, try_catch, push_try; rewrite Hdry, Hdl;
        unfold uploadToExternalDMS; rewrite Hty;
        unfold uploadToSharePoint, getSharePointAccessToken, bind;
        rewrite (fetch_responded E _ _ _ Htok), Hok; cbn [negb];
        unfold response_json; rewrite Hb; reflexivity. }
  - intros E cfg opts doc results w. apply push_item_trace.
  - intros E cfg opts doc results w blob tr r Hty Hdry Hdl Htok Hok Hjson Hnull tok w1
      Hup Hbad.
    unfold push_item, try_catch, push_try. rewrite Hdry, Hdl.
    unfold uploadToExternalDMS. rewrite Hty.
    unfold uploadToSharePoint, getSharePointAccessToken, bind.
    rewrite (fetch_responded E _ _ _ Htok), Hok. cbn [negb].
    unfold response_json.
    destruct (body tr) eqn:Hb;
      try (exfalso; apply Hnull; reflexivity);
      try (exfalso; eapply Hjson; reflexivity);
      unfold ret; fold w1; subst tok;
      rewrite (fetch_responded E _ _ _ Hup), Hbad; reflexivity.
  - intros E cfg opts doc results w blob tr Hty Hdry Hdl Htok Hbad.
    unfold push_item, try_catch, push_try. rewrite Hdry, Hdl.
    unfold uploadToExternalDMS. rewrite Hty.
    unfold uploadToSharePoint, getSharePointAccessToken, bind.
    rewrite (fetch_responded E _ _ _ Htok), Hbad. reflexivity.
  - eexists. eexists. split; [vm_compute; reflexivity|]. repeat split.
Qed.

Lemma failed_upload_is_recorded_without_retry_witness :
  push_item (example_env 3) example_config no_options (local_document "doc-2" "b.pdf")
    [] example_world
  = (inr [push_failure (local_document "doc-2" "b.pdf")
            (Error "SharePoint upload failed: Service Unavailable")],
     mk_World three_documents []
       [token_request (authentication example_config); upload_of_b]).
Proof.
  refine (proj1 (proj2 failed_upload_is_recorded_without_retry)
            (example_env 3) example_config no_options (local_document "doc-2" "b.pdf") []
            example_world "applications/b.pdf" token_ok service_unavailable
            eq_refl eq_refl eq_refl eq_refl eq_refl _ _ eq_refl eq_refl).
  - intros m. discriminate.
  - discriminate.
Defined.

(** ** Pushing twice *)

(** C8, as stated, fails.  A document named in [documentIds] is selected
    although its external id is set and it is not marked as needing a
    sync: pushing the same id list twice uploads the document twice. *)
Lemma listed_documents_are_pushed_again :
  exists rep1 w1 rep2 w2,
    pushDocumentsToDMS (example_env 0) None (Some ["doc-1"]) no_options example_world
    = (inr rep1, w1)
    /\ successful rep1 = 1
    /\ List.map (fun d => (external_dms_id d, needs_sync d))
         (push_candidates (Some ["doc-1"]) (documents w1))
       = [(Some "sp-applications/a.pdf", Some false)]
    /\ pushDocumentsToDMS (example_env 0) None (Some ["doc-1"]) no_options w1
       = (inr rep2, w2)
    /\ successful rep2 = 1
    /\ List.length (requests w1) = 2
    /\ List.length (requests w2) = 4.
Proof.
  do 4 eexists.
  split; [vm_compute; reflexivity|].
  split; [reflexivity|]. split; [reflexivity|].
  split; [vm_compute; reflexivity|].
  repeat split.
Qed.

Section Idempotence.

Variable E : Env.

Lemma synced_does_not_need_push (d : Document) :
  external_dms_id d <> None -> needs_sync d = Some false -> needs_push d = false.
Proof.
  unfold needs_push. intros Hid ->. destruct (external_dms_id d); congruence.
Qed.

(** What one item of the push loop does to the table. *)
Lemma push_item_effect (cfg : DMSConfig) (opts : DMSSyncOptions) (doc : Document)
    (acc : list SyncResult) (w : World) :
  exists item w',
    push_item E cfg opts doc acc w = (inr (push acc item), w')
    /\ documentId item = Some (id doc)
    /\ ((status item <> "success" /\ documents w' = documents w)
        \/ (exists res,
              status item = "success"
              /\ externalId item = upload_externalId res
              /\ documents w'
                 = List.map (fun d => if String.eqb (id d) (id doc)
                                      then push_patch E res d else d)
                     (documents w))).
Proof.
  unfold push_item, try_catch, push_try.
  destruct (truthy_bool (options_dryRun opts)).
  { eexists. eexists. split; [reflexivity|]. split; [reflexivity|].
    left. split; [discriminate|reflexivity]. }
  destruct (download E (storage_path doc)) as [m|blob].
  { eexists. eexists. split; [reflexivity|]. split; [reflexivity|].
    left. split; [discriminate|reflexivity]. }
  unfold bind.
  destruct (upload_trace E cfg doc blob w) as [Hdocs _]. cbv zeta in Hdocs.
  destruct (uploadToExternalDMS E cfg doc blob w) as [[e|res] w1]; cbn [snd] in Hdocs.
  { eexists. eexists. split; [reflexivity|]. split; [reflexivity|].
    left. split; [discriminate|exact Hdocs]. }
  unfold update_documents.
  destruct (update_documents_error E (id doc)) as [m|].
  { eexists. eexists. split; [reflexivity|]. split; [reflexivity|].
    left. split; [discriminate|exact Hdocs]. }
  eexists. eexists. split; [reflexivity|]. split; [reflexivity|].
  right. exists res. cbn [documents with_documents status externalId].
  rewrite Hdocs. auto.
Qed.

(** The invariant of the push loop: a row that has no [success] entry is a
    row of the table the run started from, and every row bearing the id of
    a [success] entry that carries an external id has its external id set
    and [needs_sync] false. *)
Lemma push_loop_invariant (cfg : DMSConfig) (opts : DMSSyncOptions) (w0 : World)
    (docs : list Document) :
  forall (acc : list SyncResult) (w : World),
    (forall d, List.In d (documents w) ->
               (forall r, List.In r acc -> documentId r = Some (id d) ->
                          status r <> "success") ->
               List.In d (documents w0)) ->
    (forall r d, List.In r acc -> status r = "success" -> externalId r <> None ->
                 List.In d (documents w) ->
                 documentId r = Some (id d) ->
                 external_dms_id d <> None /\ needs_sync d = Some false) ->
    exists items w',
      for_of docs (push_item E cfg opts) acc w = (inr items, w')
      /\ (forall d, List.In d (documents w') ->
                    (forall r, List.In r items -> documentId r = Some (id d) ->
                               status r <> "success") ->
                    List.In d (documents w0))
      /\ (forall r d, List.In r items -> status r = "success" -> externalId r <> None ->
                      List.In d (documents w') ->
                      documentId r = Some (id d) ->
                      external_dms_id d <> None /\ needs_sync d = Some false).
Proof.
  induction docs as [|doc rest IH]; intros acc w Horig Hsynced.
  - exists acc, w. cbn. auto.
  - destruct (push_item_effect cfg opts doc acc w) as (item & w1 & Hitem & Hid & Heff).
    cbn [for_of]. unfold bind. rewrite Hitem.
    apply IH; clear IH.
    + intros d Hin Hnone.
      assert (Hold : forall r, List.In r acc -> documentId r = Some (id d) ->
                               status r <> "success").
      { intros r Hr. apply Hnone. unfold push. apply List.in_or_app. auto. }
      destruct Heff as [[_ Hsame]|(res & Hst & _ & Hmap)].
      * rewrite Hsame in Hin. auto.
      * rewrite Hmap in Hin. apply List.in_map_iff in Hin.
        destruct Hin as (d0 & Hd0 & Hin0).
        destruct (String.eqb_spec (id d0) (id doc)) as [Heq|Hne].
        -- exfalso. apply (Hnone item).
           ++ unfold push. apply List.in_or_app. right. left. reflexivity.
           ++ rewrite Hid. subst d. cbn. congruence.
           ++ exact Hst.
        -- subst d0. auto.
    + intros r d Hr Hst Hext Hd Hrid. unfold push in Hr. apply List.in_app_or in Hr.
      destruct Heff as [[Hns Hsame]|(res & Hsucc & Hres & Hmap)].
      * rewrite Hsame in Hd.
        destruct Hr as [Hr|[<-|[]]]; [eauto|contradiction].
      * rewrite Hmap in Hd. apply List.in_map_iff in Hd.
        destruct Hd as (d0 & <- & Hin0).
        destruct (String.eqb_spec (id d0) (id doc)) as [Heq|Hne].
        -- cbn [push_patch external_dms_id needs_sync]. split; [|reflexivity].
           destruct Hr as [Hr|[<-|[]]].
           ++ assert (documentId r = Some (id d0)) as Hrid0 by exact Hrid.
              destruct (Hsynced r d0 Hr Hst Hext Hin0 Hrid0) as [Hset _].
              destruct (upload_externalId res); [discriminate|exact Hset].
           ++ rewrite Hres in Hext.
              destruct (upload_externalId res); [discriminate|contradiction].
        -- destruct Hr as [Hr|[<-|[]]]; [eauto|].
           rewrite Hid in Hrid. injection Hrid as Hrid. congruence.
Qed.

End Idempotence.

Lemma no_entries_of_status (s : string) (items : list SyncResult) :
  List.length (List.filter (has_status s) items) = 0 ->
  forall r, List.In r items -> status r <> s.
Proof.
  intros Hlen r Hin Hs.
  assert (List.In r (List.filter (has_status s) items)) as Hf.
  { apply List.filter_In. split; [exact Hin|]. unfold has_status.
    apply String.eqb_eq. exact Hs. }
  destruct (List.filter (has_status s) items); [contradiction|discriminate].
Qed.

(** C8, amended.  A successful push item whose entry carries an external
    id leaves the rows of its document with a non-null external id and
    [needs_sync] false.  When no id list is given, every candidate of the
    next run is therefore a row without a [success] entry that carries an
    external id, and it is an unchanged candidate of this run when it has no
    [success] entry at all; so after a run that reported no failure and no
    dry run, and whose [success] entries all carry an external id, the next
    run (under any environment and options) finds no candidate, issues no
    request, changes no row, and reports [totalDocuments: 0],
    [successful: 0].  A SharePoint reply without [UniqueId] gives a
    [success] entry without external id and leaves the external id NULL:
    the three documents of the example are candidates again.  Without an
    id list (or with an empty one) the candidates are exactly the rows
    whose external id is NULL or whose [needs_sync] is true; a non-empty
    id list selects exactly the listed rows, whatever their sync state. *)
Theorem push_is_idempotent_without_id_list :
  (forall (E : Env) (sys : option string) (ids : option (list string))
          (opts : DMSSyncOptions) (w w' : World) (rep : SyncReport),
     pushDocumentsToDMS E sys ids opts w = (inr rep, w') ->
     (forall r d, List.In r (results rep) -> status r = "success" ->
                  externalId r <> None ->
                  List.In d (documents w') -> documentId r = Some (id d) ->
                  external_dms_id d <> None /\ needs_sync d = Some false)
     /\ (lists_ids ids = false ->
         (forall d, List.In d (push_candidates ids (documents w')) ->
              (forall r, List.In r (results rep) -> documentId r = Some (id d) ->
                         status r = "success" -> externalId r = None)
              /\ ((forall r, List.In r (results rep) -> documentId r = Some (id d) ->
                             status r <> "success") ->
                  List.In d (push_candidates ids (documents w))))
         /\ (failed rep = 0 -> dryRun rep = 0 ->
             (forall r, List.In r (results rep) -> status r = "success" ->
                        externalId r <> None) ->
             forall (E2 : Env) (sys2 : option string) (ids2 : option (list string))
                    (opts2 : DMSSyncOptions),
               lists_ids ids2 = false ->
               push_candidates ids2 (documents w') = []
               /\ snd (pushDocumentsToDMS E2 sys2 ids2 opts2 w') = w'
               /\ forall rep2,
                    fst (pushDocumentsToDMS E2 sys2 ids2 opts2 w') = inr rep2 ->
                    totalDocuments rep2 = 0 /\ successful rep2 = 0
                    /\ results rep2 = [])))
  /\ (exists rep1 w1,
        pushDocumentsToDMS example_env_without_id None None no_options example_world
        = (inr rep1, w1)
        /\ List.map (fun r => (status r, externalId r)) (results rep1)
           = [("success", None); ("success", None); ("success", None)]
        /\ List.map (fun d => (id d, external_dms_id d, needs_sync d))
             (push_candidates None (documents w1))
           = [("doc-1", None, Some false); ("doc-2", None, Some false);
              ("doc-3", None, Some false)])
  /\ (forall (docs : list Document) (d : Document),
        (forall ids, ids = None \/ ids = Some [] ->
           (List.In d (push_candidates ids docs)
            <-> List.In d docs
                /\ (external_dms_id d = None \/ needs_sync d = Some true)))
        /\ (forall x rest,
              List.In d (push_candidates (Some (x :: rest)) docs)
              <-> List.In d docs /\ List.In (id d) (x :: rest))).
Proof.
  split; [|split].
  2:{ eexists. eexists. split; [vm_compute; reflexivity|]. split; reflexivity. }
  2:{ intros docs d. split.
      - intros ids Hids.
        assert (push_candidates ids docs = List.filter needs_push docs) as ->.
        { destruct Hids as [-> | ->]; reflexivity. }
        rewrite List.filter_In. unfold needs_push.
        destruct (external_dms_id d) as [x|].
        + destruct (needs_sync d) as [[]|]; split; intros [Hin H]; split; auto;
            try discriminate; destruct H as [H|H]; discriminate H.
        + split; intros [Hin _]; auto.
      - intros x rest. unfold push_candidates. cbn [lists_ids].
        rewrite List.filter_In. unfold id_in. rewrite List.existsb_exists.
        split; intros [Hin H]; (split; [exact Hin|]).
        + destruct H as (y & Hy & Heq). apply String.eqb_eq in Heq. congruence.
        + exists (id d). split; [exact H|apply String.eqb_refl]. }
  intros E sys ids opts w w' rep Hrun.
  apply push_run_inr in Hrun. destruct Hrun as (cfg & items & _ & _ & Hloop & ->).
  destruct (push_loop_invariant E cfg opts w (push_candidates ids (documents w)) [] w)
    as (items' & w2 & Hloop' & Horig & Hsynced); [auto|intros r d []|].
  rewrite Hloop in Hloop'. injection Hloop' as <- <-.
  destruct (push_loop_records E cfg opts (push_candidates ids (documents w)) w)
    as (items' & w2 & Hloop' & HF).
  rewrite Hloop in Hloop'. injection Hloop' as <- <-.
  cbn [results make_report].
  split; [exact Hsynced|].
  intros Hids.
  assert (Hcand : forall i docs, lists_ids i = false ->
                    push_candidates i docs = List.filter needs_push docs).
  { intros i docs Hi. unfold push_candidates. rewrite Hi. reflexivity. }
  assert (Hfirst : forall d, List.In d (push_candidates ids (documents w')) ->
            (forall r, List.In r items -> documentId r = Some (id d) ->
                       status r = "success" -> externalId r = None)
            /\ ((forall r, List.In r items -> documentId r = Some (id d) ->
                           status r <> "success") ->
                List.In d (push_candidates ids (documents w)))).
  { intros d Hd. rewrite Hcand in Hd by exact Hids.
    apply List.filter_In in Hd. destruct Hd as [Hin Hneeds]. split.
    - intros r Hr Hrid Hst.
      destruct (externalId r) as [x|] eqn:Hx; [|reflexivity].
      exfalso.
      destruct (Hsynced r d Hr Hst) as [Hext Hflag];
        [rewrite Hx; discriminate|exact Hin|exact Hrid|].
      rewrite (synced_does_not_need_push d Hext Hflag) in Hneeds. discriminate.
    - intros Hnone. rewrite Hcand by exact Hids. apply List.filter_In.
      split; [|exact Hneeds]. exact (Horig d Hin Hnone). }
  split; [exact Hfirst|].
  intros Hfailed Hdry Hall E2 sys2 ids2 opts2 Hids2.
  cbn [failed dryRun make_report] in Hfailed, Hdry.
  assert (Hnone : push_candidates ids2 (documents w') = []).
  { rewrite (Hcand ids2 (documents w') Hids2), <- (Hcand ids (documents w') Hids).
    destruct (push_candidates ids (documents w')) as [|d rest] eqn:Hc; [reflexivity|].
    exfalso.
    destruct (Hfirst d) as [Hwithout Hunchanged]; [left; reflexivity|].
    assert (Hnot : forall r, List.In r items -> documentId r = Some (id d) ->
                             status r <> "success").
    { intros r Hr Hrid Hst.
      apply (Hall r Hr Hst). exact (Hwithout r Hr Hrid Hst). }
    specialize (Hunchanged Hnot).
    apply List.In_nth_error in Hunchanged. destruct Hunchanged as [n Hn].
    assert (exists r, List.nth_error items n = Some r
                      /\ documentId r = Some (id d) /\ recorded (status r))
      as (r & Hr & Hrid & Hrec).
    { clear - HF Hn. revert n Hn.
      induction HF as [|x y xs ys Hxy _ IH]; intros [|n] Hn; cbn in *;
        try discriminate.
      - injection Hn as ->. exists y. split; [reflexivity|]. exact (proj1 Hxy).
      - eauto. }
    apply List.nth_error_In in Hr.
    destruct Hrec as [Hs|[Hs|Hs]].
    - exact (Hnot r Hr Hrid Hs).
    - exact (no_entries_of_status "error" items Hfailed r Hr Hs).
    - exact (no_entries_of_status "dry_run" items Hdry r Hr Hs). }
  split; [exact Hnone|].
  unfold pushDocumentsToDMS, select_documents, read, bind.
  destruct (select_documents_error E2).
  - cbn. split; [reflexivity|]. intros rep2 H. discriminate H.
  - unfold ret at 1. rewrite Hnone.
    destruct (find_config E2 sys2); cbn.
    + split; [reflexivity|]. intros rep2 [= <-]. auto.
    + split; [reflexivity|]. intros rep2 H. discriminate H.
Qed.

(** After the run that synced the three documents of the example, a
    second run finds nothing to push. *)
Lemma push_is_idempotent_without_id_list_witness :
  exists rep1 w1,
    pushDocumentsToDMS (example_env 0) None None no_options example_world = (inr rep1, w1)
    /\ List.map (fun r => (status r, externalId r)) (results rep1)
       = [("success", Some "sp-applications/a.pdf");
          ("success", Some "sp-applications/b.pdf");
          ("success", Some "sp-applications/c.pdf")]
    /\ push_candidates None (documents w1) = []
    /\ snd (pushDocumentsToDMS (example_env 0) None None no_options w1) = w1.
Proof.
  destruct (pushDocumentsToDMS (example_env 0) None None no_options example_world)
    as [[e|rep1] w1] eqn:Hrun1.
  - vm_compute in Hrun1. discriminate Hrun1.
  - exists rep1, w1.
    assert (List.map (fun r => (status r, externalId r)) (results rep1)
            = [("success", Some "sp-applications/a.pdf");
               ("success", Some "sp-applications/b.pdf");
               ("success", Some "sp-applications/c.pdf")]
            /\ failed rep1 = 0 /\ dryRun rep1 = 0) as (Hs & Hf & Hd).
    { vm_compute in Hrun1. injection Hrun1 as <- _. repeat split. }
    assert (Hall : forall r, List.In r (results rep1) -> status r = "success" ->
                             externalId r <> None).
    { intros r Hr _ Hx.
      apply (List.in_map (fun r => (status r, externalId r))) in Hr.
      rewrite Hs, Hx in Hr. cbn in Hr.
      destruct Hr as [H|[H|[H|[]]]]; discriminate H. }
    destruct (proj1 push_is_idempotent_without_id_list (example_env 0) None None
                no_options example_world w1 rep1 Hrun1) as (_ & Hnext).
    destruct (Hnext eq_refl) as [_ Hnext2].
    destruct (Hnext2 Hf Hd Hall (example_env 0) None None no_options eq_refl)
      as (Hnone & Hsame & _).
    auto.
Defined.

(** ** The responses of [serve] *)

(** C9, as stated, fails.  A push against an unknown system is answered
    with a body whose members are [success], [error] and [timestamp]:
    there is no [message], so the body has neither contract shape.  A
    successful status request carries [dmsSystemId] beside the four
    members of the contract, and its [result] is not a SyncReport. *)
Lemma error_response_has_no_message :
  (exists b w',
      serve (example_env 0) (post "push" (Some "filenet-archive")) example_world
      = (inr (mk_Response 400 json_headers (Some b)), w')
      /\ keys b = ["success"; "error"; "timestamp"]
      /\ contract_success_shape b = false
      /\ contract_error_shape b = false)
  /\ (exists b r w',
      serve (example_env 0) (post "status" (Some "sharepoint-main")) example_world
      = (inr (mk_Response 200 json_headers (Some b)), w')
      /\ keys b = ["success"; "action"; "dmsSystemId"; "result"; "timestamp"]
      /\ get "result" b = Some r
      /\ keys r = ["dmsSystemId"; "recentSyncs"; "status"]
      /\ contract_success_shape b = false
      /\ contract_error_shape b = false).
Proof.
  split.
  - eexists. eexists. split; [vm_compute; reflexivity|]. repeat split.
  - eexists. eexists. eexists. split; [vm_compute; reflexivity|]. repeat split.
Qed.

Lemma dispatch_inr (E : Env) (act sys : option string) (ids : option (list string))
    (since : option string) (opts : DMSSyncOptions) (w w' : World)
    (result : ActionResult) :
  dispatch E act sys ids since opts w = (inr result, w') ->
  exists a,
    act = Some a
    /\ (((a = "push" \/ a = "pull") /\ exists rep, result = report_result rep)
        \/ (a = "full_sync" /\ exists p q, result = full_sync_result p q)
        \/ (a = "status" /\ exists st, result = status_result st)).
Proof.
  unfold dispatch. destruct act as [a|]; [|discriminate].
  intros H. exists a. split; [reflexivity|].
  destruct (String.eqb_spec a "push") as [->|_].
  { apply bind_inr in H. destruct H as (rep & w1 & _ & [= <- _]). eauto 6. }
  destruct (String.eqb_spec a "pull") as [->|_].
  { apply bind_inr in H. destruct H as (rep & w1 & _ & [= <- _]). eauto 6. }
  destruct (String.eqb_spec a "full_sync") as [->|_].
  { apply bind_inr in H. destruct H as (p & w1 & _ & H).
    apply bind_inr in H. destruct H as (q & w2 & _ & [= <- _]). eauto 7. }
  destruct (String.eqb_spec a "status") as [->|_]; [|discriminate].
  apply bind_inr in H. destruct H as (st & w1 & _ & [= <- _]). eauto 7.
Qed.

(** C9, amended.  Every invocation is answered, and the response is one
    of three: the empty answer to an OPTIONS preflight; the error body
    [{success: false, error, timestamp}] with HTTP status 400 (no
    [message] member); or the success body
    [{success: true, action, dmsSystemId, result, timestamp}], in which
    [dmsSystemId] is present when the request gave one and [result] is a
    SyncReport for [push] and [pull], a pair [{push, pull}] of SyncReports
    for [full_sync], and a status summary for [status]. *)
Theorem serve_answers_in_one_of_three_shapes
    (E : Env) (req : HttpRequest) (w : World) :
  exists resp w',
    serve E req w = (inr resp, w')
    /\ ((request_method req = "OPTIONS" /\ resp = mk_Response 200 corsHeaders None)
        \/ (exists m,
              resp = mk_Response 400 json_headers
                       (Some (JObj [("success", JBool false);
                                    ("error", JStr m);
                                    ("timestamp", JStr (toISOString E))])))
        \/ (exists requestBody a result,
              request_json req = inr requestBody
              /\ action requestBody = Some a
              /\ resp = mk_Response 200 json_headers
                          (Some (object
                                   [("success", Some (JBool true));
                                    ("action", Some (JStr a));
                                    ("dmsSystemId",
                                     option_map JStr (dmsSystemId requestBody));
                                    ("result", Some (json_of_ActionResult result));
                                    ("timestamp", Some (JStr (toISOString E)))]))
              /\ (((a = "push" \/ a = "pull") /\ exists rep, result = report_result rep)
                  \/ (a = "full_sync" /\ exists p q, result = full_sync_result p q)
                  \/ (a = "status" /\ exists st, result = status_result st)))).
Proof.
  unfold serve.
  destruct (String.eqb_spec (request_method req) "OPTIONS") as [Hopt|_].
  { eexists. eexists. split; [reflexivity|]. left. auto. }
  unfold try_catch.
  destruct (serve_try E req w) as [[e|resp] w1] eqn:Htry.
  { eexists. eexists. split; [reflexivity|]. right; left. exists (message e). reflexivity. }
  exists resp, w1. split; [reflexivity|]. right; right.
  unfold serve_try in Htry.
  apply bind_inr in Htry. destruct Htry as (client & w0 & _ & Htry).
  destruct (request_json req) as [e|requestBody]; [discriminate|].
  apply bind_inr in Htry. destruct Htry as (result & w2 & Hdisp & Htry).
  apply bind_inr in Htry. destruct Htry as (u & w3 & _ & Htry).
  injection Htry as <- _.
  apply dispatch_inr in Hdisp. destruct Hdisp as (a & Ha & Hshape).
  exists requestBody, a, result. rewrite Ha. auto.
Qed.

End SyncFacts.

(* ===================================================================== *)
(** * Part V. Further properties of the [sync-dms] function              *)
(* ===================================================================== *)

Module SyncExtras.

Import DMSSync.
Import SyncFacts.
Local Open Scope string_scope.
Local Open Scope js_scope.

(** ** Dry runs *)

Section DryRun.

Variable E : Env.
Variable opts : DMSSyncOptions.
Hypothesis Hdry : truthy_bool (options_dryRun opts) = true.

Lemma push_loop_dry (cfg : DMSConfig) (docs : list Document) :
  forall (acc : list SyncResult) (w : World),
    for_of docs (push_item E cfg opts) acc w
    = (inr (List.app acc
              (List.map (fun d => mk_SyncResult (Some (id d)) None "dry_run"
                                    (Some "would_sync") None) docs)), w).
Proof.
  induction docs as [|d rest IH]; intros acc w; cbn [for_of List.map].
  - rewrite List.app_nil_r. reflexivity.
  - unfold bind. unfold push_item at 1, try_catch, push_try. rewrite Hdry.
    cbn [ret]. rewrite IH. unfold push. rewrite <- List.app_assoc. reflexivity.
Qed.

Lemma pull_loop_dry (exts : list ExternalDocument) :
  forall (acc : list SyncResult) (w : World),
    for_of exts (pull_item E opts) acc w
    = (inr (List.app acc
              (List.map (fun x => mk_SyncResult None (Some (ext_id x)) "dry_run"
                                    (Some "would_update") None) exts)), w).
Proof.
  induction exts as [|x rest IH]; intros acc w; cbn [for_of List.map].
  - rewrite List.app_nil_r. reflexivity.
  - unfold bind. unfold pull_item at 1, try_catch, pull_try. rewrite Hdry.
    cbn [ret]. rewrite IH. unfold push. rewrite <- List.app_assoc. reflexivity.
Qed.

End DryRun.

Lemma count_status_map {A : Type} (f : A -> SyncResult) (s : string) (xs : list A) :
  (forall x, status (f x) = s) ->
  List.filter (has_status s) (List.map f xs) = List.map f xs.
Proof.
  intros Hf. induction xs as [|x rest IH]; cbn; [reflexivity|].
  unfold has_status at 1. rewrite Hf, String.eqb_refl, IH. reflexivity.
Qed.

Lemma count_other_status_map {A : Type} (f : A -> SyncResult) (s s' : string)
    (xs : list A) :
  (forall x, status (f x) = s) -> s <> s' ->
  List.filter (has_status s') (List.map f xs) = [].
Proof.
  intros Hf Hne. induction xs as [|x rest IH]; cbn; [reflexivity|].
  unfold has_status at 1. rewrite Hf.
  destruct (String.eqb_spec s s'); [contradiction|exact IH].
Qed.

(** X1.  With [options.dryRun] set, a push run and the pull loop touch
    nothing: the world they return is the world they got (no row changed,
    no request issued), and a run that returns reports every candidate as
    [dry_run] ([would_sync], [would_update]) with [successful] and
    [failed] zero. *)
Theorem dry_run_changes_nothing
    (E : Env) (opts : DMSSyncOptions) (sys : option string)
    (ids : option (list string)) (exts : list ExternalDocument) (w : World) :
  truthy_bool (options_dryRun opts) = true ->
  snd (pushDocumentsToDMS E sys ids opts w) = w
  /\ (forall rep, fst (pushDocumentsToDMS E sys ids opts w) = inr rep ->
        results rep
        = List.map (fun d => mk_SyncResult (Some (id d)) None "dry_run"
                               (Some "would_sync") None)
            (push_candidates ids (documents w))
        /\ dryRun rep = totalDocuments rep /\ successful rep = 0 /\ failed rep = 0)
  /\ (exists rep,
        pull_documents E exts opts w = (inr rep, w)
        /\ results rep
           = List.map (fun x => mk_SyncResult None (Some (ext_id x)) "dry_run"
                                  (Some "would_update") None) exts
        /\ dryRun rep = totalDocuments rep /\ successful rep = 0 /\ failed rep = 0).
Proof.
  intros Hdry.
  assert (Hpush : forall docs : list Document,
            let items := List.map (fun d => mk_SyncResult (Some (id d)) None "dry_run"
                                              (Some "would_sync") None) docs in
            let rep := make_report (List.length docs) items in
            dryRun rep = totalDocuments rep /\ successful rep = 0 /\ failed rep = 0).
  { intros docs. cbn.
    rewrite count_status_map by reflexivity.
    rewrite !(count_other_status_map _ "dry_run") by (reflexivity || discriminate).
    rewrite List.length_map. auto. }
  assert (Hpull :
            let items := List.map (fun x => mk_SyncResult None (Some (ext_id x)) "dry_run"
                                              (Some "would_update") None) exts in
            let rep := make_report (List.length exts) items in
            dryRun rep = totalDocuments rep /\ successful rep = 0 /\ failed rep = 0).
  { cbn.
    rewrite count_status_map by reflexivity.
    rewrite !(count_other_status_map _ "dry_run") by (reflexivity || discriminate).
    rewrite List.length_map. auto. }
  unfold pushDocumentsToDMS, pull_documents, select_documents, read, bind.
  split; [|split].
  - destruct (select_documents_error E); [reflexivity|]. unfold ret at 1.
    destruct (find_config E sys) as [cfg|]; [|reflexivity].
    rewrite (push_loop_dry E opts Hdry). reflexivity.
  - destruct (select_documents_error E); [discriminate|]. unfold ret at 1.
    destruct (find_config E sys) as [cfg|]; [|discriminate].
    rewrite (push_loop_dry E opts Hdry). cbn [fst ret List.app].
    intros rep [= <-]. split; [reflexivity|]. apply Hpush.
  - rewrite (pull_loop_dry E opts Hdry). cbn [ret List.app].
    eexists. split; [reflexivity|]. split; [reflexivity|]. exact Hpull.
Qed.

Lemma dry_run_changes_nothing_witness :
  snd (pushDocumentsToDMS (example_env 3) None None
         (mk_DMSSyncOptions (Some true) None None) example_world) = example_world.
Proof.
  apply (dry_run_changes_nothing (example_env 3) (mk_DMSSyncOptions (Some true) None None)
           None None [] example_world eq_refl).
Defined.

(** ** What a push leaves alone *)

Section Frame.

Variable E : Env.

(** An upload changes the trace of requests and nothing else. *)
Lemma upload_only_requests (cfg : DMSConfig) (doc : Document) (blob : Blob) (w : World) :
  exists trace, snd (uploadToExternalDMS E cfg doc blob w) = with_requests w trace.
Proof.
  assert (Hself : w = with_requests w (requests w)) by (destruct w; reflexivity).
  unfold uploadToExternalDMS.
  destruct (type cfg); cbn; try (exists (requests w); exact Hself).
  unfold uploadToSharePoint, bind.
  pose proof (token_world E (authentication cfg) w) as Hw.
  destruct (getSharePointAccessToken E (authentication cfg) w) as [[e|tok] w1];
    cbn in Hw; subst w1.
  - eexists. reflexivity.
  - pose proof (fetch_world E (upload_request cfg tok doc blob)
                  (with_requests w (push (requests w) (token_request (authentication cfg)))))
      as Hw.
    destruct (fetch E (upload_request cfg tok doc blob) _) as [[e|resp] w2];
      cbn in Hw; subst w2.
    + eexists. reflexivity.
    + destruct (negb (ok resp)); [eexists; reflexivity|].
      unfold response_json. destruct (body resp); eexists; reflexivity.
Qed.

(** One item of the push loop leaves the sync log alone, and changes the
    table, if at all, by patching the rows that bear the document's id. *)
Lemma push_item_frame (cfg : DMSConfig) (opts : DMSSyncOptions) (doc : Document)
    (acc : list SyncResult) (w : World) :
  exists item w',
    push_item E cfg opts doc acc w = (inr (push acc item), w')
    /\ dms_sync_logs w' = dms_sync_logs w
    /\ (documents w' = documents w
        \/ exists res,
             documents w'
             = List.map (fun d => if String.eqb (id d) (id doc)
                                  then push_patch E res d else d)
                 (documents w)).
Proof.
  unfold push_item, try_catch, push_try.
  destruct (truthy_bool (options_dryRun opts)).
  { eexists. eexists. split; [reflexivity|]. auto. }
  destruct (download E (storage_path doc)) as [m|blob].
  { eexists. eexists. split; [reflexivity|]. auto. }
  unfold bind.
  destruct (upload_only_requests cfg doc blob w) as [trace Hup].
  destruct (uploadToExternalDMS E cfg doc blob w) as [[e|res] w1]; cbn [snd] in Hup;
    subst w1.
  { eexists. eexists. split; [reflexivity|]. auto. }
  unfold update_documents.
  destruct (update_documents_error E (id doc)) as [m|].
  { eexists. eexists. split; [reflexivity|]. auto. }
  eexists. eexists. split; [reflexivity|]. split; [reflexivity|].
  right. exists res. reflexivity.
Qed.

Lemma push_loop_frame (cfg : DMSConfig) (opts : DMSSyncOptions) {B : Type}
    (f : Document -> B) :
  (forall res d, f (push_patch E res d) = f d) ->
  forall (docs : list Document) (acc : list SyncResult) (w : World),
    let w' := snd (for_of docs (push_item E cfg opts) acc w) in
    dms_sync_logs w' = dms_sync_logs w
    /\ List.map f (documents w') = List.map f (documents w).
Proof.
  intros Hf docs. induction docs as [|doc rest IH]; intros acc w; cbn [for_of].
  - cbn. auto.
  - destruct (push_item_frame cfg opts doc acc w) as (item & w1 & Hitem & Hlogs & Hdocs).
    unfold bind. rewrite Hitem.
    destruct (IH (push acc item) w1) as [IHlogs IHdocs]. cbv zeta in *.
    rewrite IHlogs, IHdocs, Hlogs. split; [reflexivity|].
    destruct Hdocs as [->|[res ->]]; [reflexivity|].
    rewrite List.map_map. apply List.map_ext. intros d.
    destruct (String.eqb (id d) (id doc)); [apply Hf|reflexivity].
Qed.

End Frame.

Lemma push_run_frame (E : Env) (sys : option string) (ids : option (list string))
    (opts : DMSSyncOptions) (w : World) {B : Type} (f : Document -> B) :
  (forall res d, f (push_patch E res d) = f d) ->
  let w' := snd (pushDocumentsToDMS E sys ids opts w) in
  dms_sync_logs w' = dms_sync_logs w
  /\ List.map f (documents w') = List.map f (documents w).
Proof.
  intros Hf. unfold pushDocumentsToDMS, select_documents, read, bind.
  destruct (select_documents_error E); [cbn; auto|]. unfold ret.
  destruct (find_config E sys) as [cfg|]; [|cbn; auto].
  pose proof (push_loop_frame E cfg opts f Hf (push_candidates ids (documents w)) [] w)
    as Hloop. cbv zeta in Hloop.
  destruct (for_of _ _ _ w) as [[e|items] w1]; exact Hloop.
Qed.

(** X2.  A push run never adds or removes a row and never assigns a
    document's identity or file: after any run (returned or thrown) the
    table has the same rows in the same order with the same [id],
    [file_name], [file_size], [file_type], [storage_path] and [metadata].
    The sync log is left alone as well. *)
Theorem push_keeps_rows_and_files
    (E : Env) (sys : option string) (ids : option (list string))
    (opts : DMSSyncOptions) (w : World) :
  let w' := snd (pushDocumentsToDMS E sys ids opts w) in
  List.map id (documents w') = List.map id (documents w)
  /\ List.map file_name (documents w') = List.map file_name (documents w)
  /\ List.map file_size (documents w') = List.map file_size (documents w)
  /\ List.map file_type (documents w') = List.map file_type (documents w)
  /\ List.map storage_path (documents w') = List.map storage_path (documents w)
  /\ List.map metadata (documents w') = List.map metadata (documents w)
  /\ dms_sync_logs w' = dms_sync_logs w.
Proof.
  pose proof (fun (B : Type) (f : Document -> B) => push_run_frame E sys ids opts w f) as H.
  cbv zeta in *.
  repeat split; try (apply H; reflexivity).
  apply (H _ id). reflexivity.
Qed.

(** ** One document against SharePoint *)

(** X3.  When object storage yields the file, SharePoint grants the token
    (a 2xx reply whose body is JSON and not [null]) and answers the upload
    with a 2xx file entity that carries [UniqueId] and [ServerRelativeUrl],
    the item ends in one of two ways, after exactly the token request and
    one upload request.  If
    the database accepts the update, the entry is [success] with the
    entity's [UniqueId] as [externalId], and the rows bearing the
    document's id get that id, the entity's [ServerRelativeUrl], the
    current time as [synced_at] and [needs_sync] false, all other rows
    being untouched.  If the database refuses the update, the entry is
    [error] with [Failed to update document: <message>] and no row
    changes, although the file has been uploaded. *)
Theorem upload_then_update
    (E : Env) (cfg : DMSConfig) (opts : DMSSyncOptions) (doc : Document)
    (results : list SyncResult) (w : World) (blob : Blob) (tr r : HttpResponse)
    (uid rel : string) (lid item ver : option json) :
  type cfg = sharepoint ->
  truthy_bool (options_dryRun opts) = false ->
  download E (storage_path doc) = inr blob ->
  remote E (token_request (authentication cfg))
    (issued (token_request (authentication cfg)) (requests w)) = responded tr ->
  ok tr = true ->
  (forall m, body tr <> not_json m) ->
  body tr <> null_json ->
  let tok := match body tr with token_body t => Some t | _ => None end in
  let trace1 := push (requests w) (token_request (authentication cfg)) in
  let trace2 := push trace1 (upload_request cfg tok doc blob) in
  remote E (upload_request cfg tok doc blob)
    (issued (upload_request cfg tok doc blob) trace1) = responded r ->
  ok r = true ->
  body r = file_body (Some uid) (Some rel) lid item ver ->
  match update_documents_error E (id doc) with
  | None =>
      push_item E cfg opts doc results w
      = (inr (push results
                (mk_SyncResult (Some (id doc)) (Some uid) "success" (Some "synced") None)),
         mk_World
           (List.map
              (fun d =>
                 if String.eqb (id d) (id doc)
                 then mk_Document (id d) (file_name d) (file_size d) (file_type d)
                        (storage_path d) (metadata d) (updated_at d)
                        (Some uid) (Some rel) (Some (toISOString E)) (Some false)
                        (sync_metadata
                           (push_patch E
                              (mk_DMSUploadResult (Some uid) (Some rel)
                                 (object
                                    [("sharepoint",
                                      Some (object [("listId", lid);
                                                    ("itemId", item);
                                                    ("version", ver)]))]))
                              d))
                 else d)
              (documents w))
           (dms_sync_logs w) trace2)
  | Some m =>
      push_item E cfg opts doc results w
      = (inr (push results
                (push_failure doc (Error ("Failed to update document: " ++ m)))),
         mk_World (documents w) (dms_sync_logs w) trace2)
  end.
Proof.
  intros Hty Hdry Hdl Htok Hok Hjson Hnull tok trace1 trace2 Hup Hgood Hbody.
  unfold push_item, try_catch, push_try. rewrite Hdry, Hdl.
  unfold uploadToExternalDMS. rewrite Hty.
  unfold uploadToSharePoint, getSharePointAccessToken, bind.
  rewrite (fetch_responded E _ _ _ Htok), Hok. cbn [negb].
  unfold response_json.
  assert (Hfetch : fetch E (upload_request cfg tok doc blob)
                     (with_requests w trace1)
                   = (inr r, with_requests (with_requests w trace1) trace2)).
  { apply (fetch_responded E). exact Hup. }
  unfold update_documents.
  destruct (body tr) eqn:Hb;
    try (exfalso; apply Hnull; reflexivity);
    try (exfalso; eapply Hjson; reflexivity);
    unfold ret; subst tok;
    fold trace1; rewrite Hfetch, Hgood, Hbody; cbn [negb];
    destruct (update_documents_error E (id doc)); reflexivity.
Qed.

Lemma upload_then_update_witness :
  exists w',
    push_item (example_env 0) example_config no_options (local_document "doc-2" "b.pdf")
      [] example_world
    = (inr [mk_SyncResult (Some "doc-2") (Some "sp-applications/b.pdf") "success"
              (Some "synced") None], w')
    /\ List.map external_dms_id (documents w')
       = [None; Some "sp-applications/b.pdf"; None].
Proof.
  eexists. split.
  - exact (upload_then_update (example_env 0) example_config no_options
             (local_document "doc-2" "b.pdf") [] example_world "applications/b.pdf"
             token_ok (file_created "applications/b.pdf")
             "sp-applications/b.pdf" "/Shared Documents/applications/b.pdf"
             (Some (JStr "list-1")) (Some (JNum 7)) (Some (JNum 1))
             eq_refl eq_refl eq_refl eq_refl eq_refl
             ltac:(intros m; discriminate) ltac:(discriminate)
             eq_refl eq_refl eq_refl).
  - reflexivity.
Defined.

(** ** Which system *)

(** The database client is constructed when both variables are set to
    strings that are not empty and the constructor accepts them. *)
Lemma createClient_returns (E : Env) (url key : string) (w : World) :
  Deno_env E "SUPABASE_URL" = Some url -> url <> "" ->
  Deno_env E "SUPABASE_SERVICE_ROLE_KEY" = Some key -> key <> "" ->
  createClient_throws E url key = None ->
  createClient E (env_or_empty E "SUPABASE_URL")
    (env_or_empty E "SUPABASE_SERVICE_ROLE_KEY") w
  = (inr tt, w).
Proof.
  intros Hurl Hu Hkey Hk Hthrows. unfold createClient, env_or_empty.
  rewrite Hurl, Hkey.
  destruct (String.eqb_spec url ""); [contradiction|].
  rewrite Hthrows.
  destruct (String.eqb_spec key ""); [contradiction|].
  reflexivity.
Qed.

Lemma createClient_frame (E : Env) (url key : string) (w : World) :
  snd (createClient E url key w) = w.
Proof.
  unfold createClient.
  destruct (String.eqb url ""); [reflexivity|].
  destruct (createClient_throws E url key); [reflexivity|].
  destruct (String.eqb key ""); reflexivity.
Qed.

(** X4.  The only configured system is [sharepoint-main]: an absent or
    empty [dmsSystemId] selects it as the default, and every other id is
    refused.  A pull for such an id, and a push whose candidate query
    succeeded, throw [DMS configuration not found: <id>] before any item
    is attempted and leave the world as it was; through [serve], when
    SUPABASE_URL and SUPABASE_SERVICE_ROLE_KEY are set to strings that are
    not empty and the constructor of the database client accepts them, the
    caller gets status 400 with that message and nothing is logged.  When
    SUPABASE_URL is unset or empty, every request other than an OPTIONS
    preflight is answered 400 with [supabaseUrl is required.]; when the
    URL is accepted and SUPABASE_SERVICE_ROLE_KEY is unset or empty, with
    [supabaseKey is required.]. *)
Theorem unknown_system_is_refused (E : Env) :
  (forall sys,
      find_config E sys = None
      <-> exists s, sys = Some s /\ s <> "" /\ s <> "sharepoint-main")
  /\ (forall (s : string) (ids : option (list string)) (sn : option string)
            (opts : DMSSyncOptions) (w : World),
      s <> "" -> s <> "sharepoint-main" ->
      let e := Error ("DMS configuration not found: " ++ s) in
      pullDocumentsFromDMS E (Some s) sn opts w = (inl e, w)
      /\ (select_documents_error E = None ->
          pushDocumentsToDMS E (Some s) ids opts w = (inl e, w))
      /\ (forall a o url key,
            (a = "pull" \/ a = "push" /\ select_documents_error E = None) ->
            Deno_env E "SUPABASE_URL" = Some url -> url <> "" ->
            Deno_env E "SUPABASE_SERVICE_ROLE_KEY" = Some key -> key <> "" ->
            createClient_throws E url key = None ->
            serve E (mk_HttpRequest "POST"
                       (inr (mk_DMSSyncRequest (Some a) (Some s) ids sn o))) w
            = (inr (mk_Response 400 json_headers
                      (Some (JObj [("success", JBool false);
                                   ("error", JStr (message e));
                                   ("timestamp", JStr (toISOString E))]))), w)))
  /\ (forall (req : HttpRequest) (w : World),
      request_method req <> "OPTIONS" ->
      Deno_env E "SUPABASE_URL" = None \/ Deno_env E "SUPABASE_URL" = Some "" ->
      serve E req w
      = (inr (mk_Response 400 json_headers
                (Some (JObj [("success", JBool false);
                             ("error", JStr "supabaseUrl is required.");
                             ("timestamp", JStr (toISOString E))]))), w))
  /\ (forall (req : HttpRequest) (w : World) (url : string),
      request_method req <> "OPTIONS" ->
      Deno_env E "SUPABASE_URL" = Some url -> url <> "" ->
      createClient_throws E url "" = None ->
      Deno_env E "SUPABASE_SERVICE_ROLE_KEY" = None
      \/ Deno_env E "SUPABASE_SERVICE_ROLE_KEY" = Some "" ->
      serve E req w
      = (inr (mk_Response 400 json_headers
                (Some (JObj [("success", JBool false);
                             ("error", JStr "supabaseKey is required.");
                             ("timestamp", JStr (toISOString E))]))), w)).
Proof.
  assert (Hfind : forall s, s <> "" -> s <> "sharepoint-main" ->
                            find_config E (Some s) = None).
  { intros s H1 H2. unfold find_config, truthy_string, getDMSConfigurations.
    destruct (String.eqb_spec s ""); [contradiction|].
    cbn [negb List.find systemId template].
    destruct (String.eqb_spec "sharepoint-main" s); [congruence|reflexivity]. }
  split; [|split; [|split]].
  - intros sys. split.
    + unfold find_config, truthy_string, getDMSConfigurations.
      destruct sys as [s|]; [|discriminate].
      destruct (String.eqb_spec s "") as [->|Hne]; [discriminate|].
      cbn [negb List.find systemId template].
      destruct (String.eqb_spec "sharepoint-main" s) as [<-|Hne2]; [discriminate|].
      intros _. exists s. auto.
    + intros (s & -> & H1 & H2). auto.
  - intros s ids sn opts w H1 H2 e.
    assert (Hpull : forall o, pullDocumentsFromDMS E (Some s) sn o w = (inl e, w)).
    { intros o. unfold pullDocumentsFromDMS. rewrite (Hfind s H1 H2). reflexivity. }
    assert (Hpush : select_documents_error E = None ->
                    forall o, pushDocumentsToDMS E (Some s) ids o w = (inl e, w)).
    { intros Hsel o. unfold pushDocumentsToDMS, select_documents, read, bind.
      rewrite Hsel. unfold ret. rewrite (Hfind s H1 H2). reflexivity. }
    split; [apply Hpull|]. split; [intros Hsel; apply (Hpush Hsel)|].
    intros a o url key Ha Hurl Hu Hkey Hk Hthrows.
    unfold serve, try_catch, serve_try.
    cbn [request_method String.eqb Ascii.eqb Bool.eqb].
    unfold bind at 1.
    rewrite (createClient_returns E url key w Hurl Hu Hkey Hk Hthrows).
    destruct Ha as [->|[-> Hsel]];
      unfold dispatch, bind;
      cbn [request_method request_json action dmsSystemId documentIds DMSSync.since
           options String.eqb Ascii.eqb Bool.eqb].
    + rewrite Hpull. reflexivity.
    + rewrite (Hpush Hsel). reflexivity.
  - intros req w Hmethod Hurl.
    unfold serve. destruct (String.eqb_spec (request_method req) "OPTIONS");
      [contradiction|].
    unfold try_catch, serve_try, bind, createClient, env_or_empty.
    destruct Hurl as [-> | ->]; reflexivity.
  - intros req w url Hmethod Hurl Hu Hthrows Hkey.
    unfold serve. destruct (String.eqb_spec (request_method req) "OPTIONS");
      [contradiction|].
    unfold try_catch, serve_try, bind, createClient, env_or_empty.
    rewrite Hurl. destruct (String.eqb_spec url ""); [contradiction|].
    destruct Hkey as [-> | ->]; rewrite Hthrows; reflexivity.
Qed.

Lemma unknown_system_is_refused_witness :
  pullDocumentsFromDMS (example_env 0) (Some "filenet-archive") None no_options example_world
  = (inl (Error "DMS configuration not found: filenet-archive"), example_world)
  /\ serve (example_env 0) (post "pull" (Some "filenet-archive")) example_world
     = (inr (mk_Response 400 json_headers
               (Some (JObj [("success", JBool false);
                            ("error", JStr "DMS configuration not found: filenet-archive");
                            ("timestamp", JStr "2025-01-01T00:00:00.000Z")]))),
        example_world)
  /\ serve unconfigured_env (post "status" None) example_world
     = (inr (mk_Response 400 json_headers
               (Some (JObj [("success", JBool false);
                            ("error", JStr "supabaseUrl is required.");
                            ("timestamp", JStr "2025-01-01T00:00:00.000Z")]))),
        example_world).
Proof.
  destruct (unknown_system_is_refused (example_env 0)) as (_ & Hrefused & _).
  destruct (Hrefused "filenet-archive" None None no_options example_world
              ltac:(discriminate) ltac:(discriminate)) as (Hpull & _ & Hserve).
  split; [exact Hpull|]. split.
  - exact (Hserve "pull" None "https://project.supabase.co" "service-role-key"
             (or_introl eq_refl) eq_refl ltac:(discriminate) eq_refl ltac:(discriminate)
             eq_refl).
  - destruct (unknown_system_is_refused unconfigured_env) as (_ & _ & Hunset & _).
    exact (Hunset (post "status" None) example_world ltac:(discriminate)
             (or_introl eq_refl)).
Defined.

(** ** What a pull leaves alone *)

Section PullFrame.

Variable E : Env.

Lemma pull_item_effect (opts : DMSSyncOptions) (ext : ExternalDocument)
    (acc : list SyncResult) (w : World) :
  exists item w',
    pull_item E opts ext acc w = (inr (push acc item), w')
    /\ requests w' = requests w
    /\ dms_sync_logs w' = dms_sync_logs w
    /\ ((result_action item <> Some "created"
         /\ (documents w' = documents w
             \/ exists key,
                  documents w'
                  = List.map (fun d => if String.eqb (id d) key
                                       then pull_patch E (mapExternalDocumentToLocal E ext)
                                              ext d
                                       else d)
                      (documents w)))
        \/ (result_action item = Some "created"
            /\ exists row, documents w' = List.app (documents w) [row])).
Proof.
  unfold pull_item, try_catch, pull_try.
  destruct (truthy_bool (options_dryRun opts)).
  { eexists. eexists. split; [reflexivity|]. repeat split.
    left. split; [discriminate|]. left. reflexivity. }
  unfold bind, find_by_external_id.
  destruct (find_document_error E (ext_id ext)) as [[code m]|].
  - cbn [snd fst is_database_error].
    destruct (String.eqb code "PGRST116").
    + unfold insert_document.
      destruct (insert_document_error E (ext_id ext)).
      * eexists. eexists. split; [reflexivity|]. repeat split.
        left. split; [discriminate|]. left. reflexivity.
      * eexists. eexists. split; [reflexivity|]. repeat split.
        right. split; [reflexivity|]. eexists. reflexivity.
    + eexists. eexists. split; [reflexivity|]. repeat split.
      left. split; [discriminate|]. left. reflexivity.
  - destruct (List.filter (has_external_id (ext_id ext)) (documents w))
      as [|existing [|other rest]]; cbn [single snd fst is_database_error].
    + unfold insert_document.
      destruct (insert_document_error E (ext_id ext)).
      * eexists. eexists. split; [reflexivity|]. repeat split.
        left. split; [discriminate|]. left. reflexivity.
      * eexists. eexists. split; [reflexivity|]. repeat split.
        right. split; [reflexivity|]. eexists. reflexivity.
    + unfold update_documents.
      destruct (update_documents_error E (id existing)).
      * eexists. eexists. split; [reflexivity|]. repeat split.
        left. split; [discriminate|]. left. reflexivity.
      * eexists. eexists. split; [reflexivity|]. repeat split.
        left. split; [discriminate|]. right. eexists. reflexivity.
    + unfold insert_document.
      destruct (insert_document_error E (ext_id ext)).
      * eexists. eexists. split; [reflexivity|]. repeat split.
        left. split; [discriminate|]. left. reflexivity.
      * eexists. eexists. split; [reflexivity|]. repeat split.
        right. split; [reflexivity|]. eexists. reflexivity.
Qed.

Lemma pull_loop_effect (opts : DMSSyncOptions) {B : Type} (f : Document -> B) :
  (forall upd x d, f (pull_patch E upd x d) = f d) ->
  forall (exts : list ExternalDocument) (acc : list SyncResult) (w : World),
  exists items w',
    for_of exts (pull_item E opts) acc w = (inr (List.app acc items), w')
    /\ requests w' = requests w
    /\ dms_sync_logs w' = dms_sync_logs w
    /\ List.length (documents w')
       = List.length (documents w)
         + List.length
             (List.filter
                (fun r => match result_action r with
                          | Some a => String.eqb a "created"
                          | None => false
                          end) items)
    /\ (forall n, n <= List.length (documents w) ->
          List.map f (List.firstn n (documents w'))
          = List.map f (List.firstn n (documents w))).
Proof.
  intros Hf exts. induction exts as [|ext rest IH]; intros acc w; cbn [for_of].
  - exists [], w. rewrite List.app_nil_r. cbn. repeat split; auto.
  - destruct (pull_item_effect opts ext acc w)
      as (item & w1 & Hitem & Hreq & Hlog & Heff).
    destruct (IH (push acc item) w1) as (items & w2 & Hrest & Hreq2 & Hlog2 & Hlen & Hpre).
    exists (item :: items), w2. unfold bind. rewrite Hitem, Hrest.
    unfold push. rewrite <- List.app_assoc. cbn [List.app].
    split; [reflexivity|]. split; [congruence|]. split; [congruence|].
    cbn [List.filter].
    destruct Heff as [[Hnot Hdocs]|[Hcr [row Hdocs]]].
    + assert (match result_action item with
              | Some a => String.eqb a "created"
              | None => false
              end = false) as ->.
      { destruct (result_action item) as [a|]; [|reflexivity].
        destruct (String.eqb_spec a "created"); [congruence|reflexivity]. }
      destruct Hdocs as [Hsame|[key Hmap]].
      * rewrite Hsame in *. split; [exact Hlen|exact Hpre].
      * rewrite Hmap in Hlen, Hpre. rewrite List.length_map in Hlen, Hpre.
        split; [exact Hlen|]. intros n Hn. rewrite (Hpre n Hn).
        rewrite List.firstn_map, List.map_map. apply List.map_ext. intros d.
        destruct (String.eqb (id d) key); [apply Hf|reflexivity].
    + rewrite Hcr. cbn [String.eqb Ascii.eqb Bool.eqb List.length].
      rewrite Hdocs in Hlen, Hpre. rewrite List.length_app in Hlen, Hpre.
      cbn [List.length] in Hlen, Hpre.
      split; [lia|]. intros n Hn. rewrite (Hpre n) by lia.
      rewrite List.firstn_app.
      replace (n - List.length (documents w)) with 0 by lia.
      cbn [List.firstn]. rewrite List.app_nil_r. reflexivity.
Qed.

End PullFrame.

(** X6.  The pull loop always returns and never issues an HTTP request,
    writes no sync log, and never removes a row: the table grows by
    exactly the number of [created] entries, and the rows that were there
    keep their place and their [id], [external_dms_id],
    [external_dms_url], [storage_path] and [needs_sync]. *)
Theorem pull_keeps_rows_and_identities
    (E : Env) (exts : list ExternalDocument) (opts : DMSSyncOptions) (w : World) :
  exists rep w',
    pull_documents E exts opts w = (inr rep, w')
    /\ requests w' = requests w
    /\ dms_sync_logs w' = dms_sync_logs w
    /\ List.length (documents w')
       = List.length (documents w)
         + List.length
             (List.filter
                (fun r => match result_action r with
                          | Some a => String.eqb a "created"
                          | None => false
                          end) (results rep))
    /\ (let old := List.firstn (List.length (documents w)) (documents w') in
        List.map id old = List.map id (documents w)
        /\ List.map external_dms_id old = List.map external_dms_id (documents w)
        /\ List.map external_dms_url old = List.map external_dms_url (documents w)
        /\ List.map storage_path old = List.map storage_path (documents w)
        /\ List.map needs_sync old = List.map needs_sync (documents w)).
Proof.
  assert (H : forall (B : Type) (f : Document -> B),
             (forall upd x d, f (pull_patch E upd x d) = f d) ->
             forall rep w', pull_documents E exts opts w = (inr rep, w') ->
               List.map f (List.firstn (List.length (documents w)) (documents w'))
               = List.map f (documents w)).
  { intros B f Hf rep w' Hrun.
    destruct (pull_loop_effect E opts f Hf exts [] w) as (items & w2 & Hloop & _ & _ & _ & Hpre).
    unfold pull_documents, bind in Hrun. rewrite Hloop in Hrun.
    injection Hrun as _ <-.
    rewrite (Hpre _ (Nat.le_refl _)), List.firstn_all. reflexivity. }
  destruct (pull_loop_effect E opts id (fun _ _ _ => eq_refl) exts [] w)
    as (items & w2 & Hloop & Hreq & Hlog & Hlen & _).
  assert (Hrun : pull_documents E exts opts w
                 = (inr (make_report (List.length exts) items), w2)).
  { unfold pull_documents, bind. rewrite Hloop. reflexivity. }
  eexists. exists w2. split; [exact Hrun|].
  split; [exact Hreq|]. split; [exact Hlog|]. split; [exact Hlen|].
  cbv zeta.
  split; [exact (H _ id (fun _ _ _ => eq_refl) _ _ Hrun)|].
  split; [exact (H _ external_dms_id (fun _ _ _ => eq_refl) _ _ Hrun)|].
  split; [exact (H _ external_dms_url (fun _ _ _ => eq_refl) _ _ Hrun)|].
  split; [exact (H _ storage_path (fun _ _ _ => eq_refl) _ _ Hrun)|].
  exact (H _ needs_sync (fun _ _ _ => eq_refl) _ _ Hrun).
Qed.

(** ** The sync log *)

Lemma pull_run_frame (E : Env) (sys sn : option string) (opts : DMSSyncOptions)
    (w : World) :
  dms_sync_logs (snd (pullDocumentsFromDMS E sys sn opts w)) = dms_sync_logs w.
Proof.
  unfold pullDocumentsFromDMS.
  destruct (find_config E sys) as [cfg|]; [|reflexivity].
  destruct (pull_loop_effect E opts id (fun _ _ _ => eq_refl)
              (fetchDocumentsFromDMS cfg sn) [] w)
    as (items & w2 & Hloop & _ & Hlog & _).
  unfold pull_documents, bind. rewrite Hloop. exact Hlog.
Qed.

Lemma status_reads_only (E : Env) (sys : option string) (w : World) :
  snd (getDMSSyncStatus E sys w) = w.
Proof.
  unfold getDMSSyncStatus, bind, read.
  destruct (select_sync_logs_error E); reflexivity.
Qed.

Lemma dispatch_frame (E : Env) (act sys : option string) (ids : option (list string))
    (sn : option string) (opts : DMSSyncOptions) (w : World) :
  dms_sync_logs (snd (dispatch E act sys ids sn opts w)) = dms_sync_logs w.
Proof.
  unfold dispatch. destruct act as [a|]; [|reflexivity].
  pose proof (proj1 (push_run_frame E sys ids opts w id (fun _ _ => eq_refl))) as Hpush.
  destruct (String.eqb a "push").
  { unfold bind. destruct (pushDocumentsToDMS E sys ids opts w) as [[e|r] w1]; exact Hpush. }
  destruct (String.eqb a "pull").
  { unfold bind. pose proof (pull_run_frame E sys sn opts w) as Hpull.
    destruct (pullDocumentsFromDMS E sys sn opts w) as [[e|r] w1]; exact Hpull. }
  destruct (String.eqb a "full_sync").
  { unfold bind.
    destruct (pushDocumentsToDMS E sys ids opts w) as [[e|r] w1]; [exact Hpush|].
    cbn [snd] in Hpush. pose proof (pull_run_frame E sys sn opts w1) as Hpull.
    destruct (pullDocumentsFromDMS E sys sn opts w1) as [[e|r2] w2];
      unfold ret; cbn [snd] in *; congruence. }
  destruct (String.eqb a "status"); [|reflexivity].
  unfold bind. pose proof (status_reads_only E sys w) as Hst.
  destruct (getDMSSyncStatus E sys w) as [[e|r] w1]; unfold ret; cbn [snd] in *;
    congruence.
Qed.

(** X7.  An OPTIONS preflight is answered 200 with no body and leaves the
    world as it was.  Each other invocation that is answered with status
    200 adds exactly one row to [dms_sync_logs] (none if the database
    refuses the insert, silently), and one answered with status 400 adds
    none.  The row carries the action, the system id, the result as
    [details], and as [success], [failed] and [total] the report's counts
    for [push] and [pull], but three zeros for [full_sync] and [status],
    whose results have no such members. *)
Theorem every_success_is_logged_once (E : Env) (req : HttpRequest) (w : World) :
  exists resp w',
    serve E req w = (inr resp, w')
    /\ ((request_method req = "OPTIONS"
         /\ resp = mk_Response 200 corsHeaders None /\ w' = w)
        \/ (request_method req <> "OPTIONS"
            /\ response_status resp = 400%Z /\ dms_sync_logs w' = dms_sync_logs w)
        \/ (request_method req <> "OPTIONS"
            /\ response_status resp = 200%Z
            /\ exists requestBody a result l,
                 request_json req = inr requestBody
                 /\ action requestBody = Some a
                 /\ dms_sync_logs w'
                    = (if insert_sync_log_error E then dms_sync_logs w
                       else List.app (dms_sync_logs w) [l])
                 /\ log_action l = a
                 /\ log_dms_system_id l = dmsSystemId requestBody
                 /\ log_created_at l = toISOString E
                 /\ log_details l = json_of_ActionResult result
                 /\ (((a = "push" \/ a = "pull")
                      /\ exists rep, result = report_result rep
                                     /\ log_success l = successful rep
                                     /\ log_failed l = failed rep
                                     /\ log_total l = totalDocuments rep)
                     \/ ((a = "full_sync" \/ a = "status")
                         /\ (forall rep, result <> report_result rep)
                         /\ log_success l = 0 /\ log_failed l = 0
                         /\ log_total l = 0)))).
Proof.
  unfold serve.
  destruct (String.eqb_spec (request_method req) "OPTIONS") as [Hopt|Hmethod].
  { eexists. eexists. split; [reflexivity|]. left. auto. }
  unfold try_catch, serve_try. unfold bind at 1.
  pose proof (createClient_frame E (env_or_empty E "SUPABASE_URL")
                (env_or_empty E "SUPABASE_SERVICE_ROLE_KEY") w) as Hclient.
  destruct (createClient E _ _ w) as [[e|u] w0]; cbn [snd] in Hclient; subst w0.
  { eexists. eexists. split; [reflexivity|]. right; left. auto. }
  destruct (request_json req) as [e|requestBody].
  { eexists. eexists. split; [reflexivity|]. right; left. auto. }
  unfold bind.
  pose proof (dispatch_frame E (action requestBody) (dmsSystemId requestBody)
                (documentIds requestBody) (since requestBody)
                match options requestBody with Some o => o | None => no_options end w)
    as Hframe.
  destruct (dispatch E _ _ _ _ _ w) as [[e|result] w1] eqn:Hdisp; cbn [snd] in Hframe.
  { eexists. eexists. split; [reflexivity|]. right; left. auto. }
  apply dispatch_inr in Hdisp. destruct Hdisp as (a & Ha & Hshape).
  unfold logSyncOperation, write, ret.
  set (l := mk_SyncLog a (dmsSystemId requestBody)
              (member_or_0 successful result) (member_or_0 failed result)
              (member_or_0 totalDocuments result)
              (json_of_ActionResult result) (toISOString E)).
  exists (mk_Response 200 json_headers
            (Some (object
                     [("success", Some (JBool true));
                      ("action", option_map JStr (action requestBody));
                      ("dmsSystemId", option_map JStr (dmsSystemId requestBody));
                      ("result", Some (json_of_ActionResult result));
                      ("timestamp", Some (JStr (toISOString E)))]))).
  exists (if insert_sync_log_error E then w1
          else with_dms_sync_logs w1 (push (dms_sync_logs w1) l)).
  split.
  { rewrite Ha. cbn [template]. fold l.
    destruct (insert_sync_log_error E); reflexivity. }
  right; right. split; [exact Hmethod|]. split; [reflexivity|].
  exists requestBody, a, result, l.
  split; [reflexivity|]. split; [exact Ha|].
  split.
  { destruct (insert_sync_log_error E); cbn [dms_sync_logs with_dms_sync_logs];
      rewrite ?Hframe; reflexivity. }
  subst l.
  cbn [log_action log_dms_system_id log_created_at log_details log_success log_failed
       log_total].
  repeat (split; [reflexivity|]).
  destruct Hshape as [[Hpp [rep ->]]|[[-> (p & q & ->)]|[-> [st ->]]]].
  - left. split; [exact Hpp|]. exists rep. cbn. auto.
  - right. split; [auto|]. split; [discriminate|]. cbn. auto.
  - right. split; [auto|]. split; [discriminate|]. cbn. auto.
Qed.

(** ** The status of a system *)

Lemma insert_by_created_at_In (l x : SyncLog) (sorted : list SyncLog) :
  List.In x (insert_by_created_at l sorted) <-> x = l \/ List.In x sorted.
Proof.
  induction sorted as [|y rest IH]; cbn.
  - intuition congruence.
  - destruct (String.ltb (log_created_at y) (log_created_at l)); cbn.
    + intuition congruence.
    + rewrite IH. intuition congruence.
Qed.

Lemma insert_by_created_at_length (l : SyncLog) (sorted : list SyncLog) :
  List.length (insert_by_created_at l sorted) = S (List.length sorted).
Proof.
  induction sorted as [|y rest IH]; cbn; [reflexivity|].
  destruct (String.ltb (log_created_at y) (log_created_at l)); cbn; congruence.
Qed.

Lemma ltb_asym (a b : string) : String.ltb a b = true -> String.ltb b a = false.
Proof.
  unfold String.ltb. rewrite (String.compare_antisym a b).
  destruct (String.compare b a); cbn; congruence.
Qed.

Lemma insert_by_created_at_sorted (l : SyncLog) (sorted : list SyncLog) :
  Sorted (fun a b => String.ltb (log_created_at a) (log_created_at b) = false) sorted ->
  Sorted (fun a b => String.ltb (log_created_at a) (log_created_at b) = false)
    (insert_by_created_at l sorted).
Proof.
  induction 1 as [|y rest Hs IH Hhd]; cbn.
  - repeat constructor.
  - destruct (String.ltb (log_created_at y) (log_created_at l)) eqn:Hlt.
    + constructor; [constructor; assumption|].
      constructor. apply ltb_asym. exact Hlt.
    + constructor; [exact IH|].
      destruct rest as [|z rest']; cbn.
      * constructor. exact Hlt.
      * destruct (String.ltb (log_created_at z) (log_created_at l));
          constructor; [exact Hlt|].
        inversion Hhd; assumption.
Qed.

Lemma order_by_created_at_desc_spec (ls : list SyncLog) :
  (forall x, List.In x (order_by_created_at_desc ls) <-> List.In x ls)
  /\ List.length (order_by_created_at_desc ls) = List.length ls
  /\ Sorted (fun a b => String.ltb (log_created_at a) (log_created_at b) = false)
       (order_by_created_at_desc ls).
Proof.
  unfold order_by_created_at_desc.
  induction ls as [|l rest (IHin & IHlen & IHs)]; cbn.
  - repeat split; auto.
  - split; [|split].
    + intros x. rewrite insert_by_created_at_In, IHin. intuition congruence.
    + rewrite insert_by_created_at_length, IHlen. reflexivity.
    + apply insert_by_created_at_sorted. exact IHs.
Qed.

Lemma Sorted_firstn {A : Type} (R : A -> A -> Prop) (n : nat) (l : list A) :
  Sorted R l -> Sorted R (List.firstn n l).
Proof.
  revert l. induction n as [|n IH]; intros l Hs; cbn; [constructor|].
  destruct Hs as [|x rest Hs Hhd]; [constructor|].
  constructor; [apply IH; exact Hs|].
  destruct n; cbn; [constructor|].
  destruct Hhd; constructor; assumption.
Qed.

Lemma In_firstn {A : Type} (n : nat) (l : list A) (x : A) :
  List.In x (List.firstn n l) -> List.In x l.
Proof.
  revert l. induction n as [|n IH]; intros [|y rest]; cbn; try tauto.
  intros [H|H]; [left; exact H | right; apply IH; exact H].
Qed.

Lemma insert_by_created_at_perm (l : SyncLog) (sorted : list SyncLog) :
  Permutation (insert_by_created_at l sorted) (l :: sorted).
Proof.
  induction sorted as [|y rest IH]; cbn; [reflexivity|].
  destruct (String.ltb (log_created_at y) (log_created_at l)); [reflexivity|].
  rewrite IH. apply perm_swap.
Qed.

Lemma order_by_created_at_desc_perm (ls : list SyncLog) :
  Permutation (order_by_created_at_desc ls) ls.
Proof.
  unfold order_by_created_at_desc.
  induction ls as [|l rest IH]; cbn; [reflexivity|].
  rewrite insert_by_created_at_perm. constructor. exact IH.
Qed.

(** Being not older is transitive: the order of [String.compare] is
    total. *)
Lemma not_older_trans (a b c : string) :
  String.ltb a b = false -> String.ltb b c = false -> String.ltb a c = false.
Proof.
  unfold String.ltb.
  destruct (String.compare a b) eqn:Hab; try discriminate; intros _;
    destruct (String.compare b c) eqn:Hbc; try discriminate; intros _.
  - apply String.compare_eq_iff in Hab, Hbc. subst.
    destruct (String.compare c c) eqn:Hcc; try reflexivity.
    pose proof (String.compare_antisym c c) as H. rewrite Hcc in H.
    discriminate H.
  - apply String.compare_eq_iff in Hab. subst. rewrite Hbc. reflexivity.
  - apply String.compare_eq_iff in Hbc. subst. rewrite Hab. reflexivity.
  - assert (String.compare c a = Lt) as Hca.
    { apply OrderedTypeEx.String_as_OT.cmp_lt.
      apply OrderedTypeEx.String_as_OT.lt_trans with b;
        apply OrderedTypeEx.String_as_OT.cmp_lt;
        unfold OrderedTypeEx.String_as_OT.cmp;
        rewrite String.compare_antisym; [rewrite Hbc|rewrite Hab]; reflexivity. }
    rewrite String.compare_antisym, Hca. reflexivity.
Qed.

Lemma In_skipn {A : Type} (n : nat) (l : list A) (x : A) :
  List.In x (List.skipn n l) -> List.In x l.
Proof.
  revert l. induction n as [|n IH]; intros [|y rest]; cbn; try tauto.
  intros H. right. apply IH. exact H.
Qed.

(** In a sorted list every element of a prefix is related to every element
    of the rest. *)
Lemma StronglySorted_firstn_skipn {A : Type} (R : A -> A -> Prop) (n : nat)
    (l : list A) :
  StronglySorted R l ->
  forall x y, List.In x (List.firstn n l) -> List.In y (List.skipn n l) -> R x y.
Proof.
  revert l. induction n as [|n IH]; intros l Hs x y Hx Hy; [contradiction|].
  destruct Hs as [|a rest Hs Hall]; [contradiction|].
  cbn in Hx, Hy. destruct Hx as [<-|Hx].
  - apply In_skipn in Hy. rewrite List.Forall_forall in Hall. auto.
  - exact (IH rest Hs x y Hx Hy).
Qed.

(** X8.  A status request never changes anything.  When the log can be
    read, it returns the ten newest log rows of the requested system at
    most (exactly [min 10 k] when [k] rows exist): the rows it returns are
    logged rows whose [dms_system_id] is the text of the requested id,
    ordered so that no row precedes a newer one, and together with the rows
    it omits they are the logged rows of that system, no omitted row being
    newer than a returned one; [lastSync] is the time of the first and is
    absent exactly when no row of that system exists; [status] reads
    [active] in every case.  When the log cannot be read, it throws
    [Failed to get sync status: <message>]. *)
Theorem status_lists_the_newest_syncs (E : Env) (sys : option string) (w : World) :
  match select_sync_logs_error E with
  | Some m =>
      getDMSSyncStatus E sys w = (inl (Error ("Failed to get sync status: " ++ m)), w)
  | None =>
      exists st,
        getDMSSyncStatus E sys w = (inr st, w)
        /\ status_dmsSystemId st = sys
        /\ sync_status st = "active"
        /\ List.length (recentSyncs st)
           = Nat.min 10
               (List.length (List.filter (log_of_system sys) (dms_sync_logs w)))
        /\ (forall l, List.In l (recentSyncs st) ->
              List.In l (dms_sync_logs w)
              /\ log_dms_system_id l = Some (template sys))
        /\ (exists omitted,
              Permutation (List.app (recentSyncs st) omitted)
                (List.filter
                   (fun l => match log_dms_system_id l with
                             | Some x => String.eqb x (template sys)
                             | None => false
                             end)
                   (dms_sync_logs w))
              /\ forall x l, List.In x (recentSyncs st) -> List.In l omitted ->
                             String.ltb (log_created_at x) (log_created_at l) = false)
        /\ Sorted (fun a b => String.ltb (log_created_at a) (log_created_at b) = false)
             (recentSyncs st)
        /\ lastSync st = option_map log_created_at (List.hd_error (recentSyncs st))
        /\ (lastSync st = None
            <-> forall l, List.In l (dms_sync_logs w) -> log_of_system sys l = false)
  end.
Proof.
  unfold getDMSSyncStatus, bind, read.
  destruct (select_sync_logs_error E) as [m|]; [reflexivity|].
  destruct (order_by_created_at_desc_spec
              (List.filter (log_of_system sys) (dms_sync_logs w)))
    as (Hin & Hlen & Hsorted).
  set (sorted := order_by_created_at_desc
                   (List.filter (log_of_system sys) (dms_sync_logs w))) in *.
  eexists. split; [reflexivity|].
  cbn [status_dmsSystemId sync_status recentSyncs lastSync].
  split; [reflexivity|]. split; [reflexivity|].
  split; [rewrite List.length_firstn, Hlen; reflexivity|].
  split.
  { intros l Hl. apply In_firstn in Hl. apply Hin in Hl.
    apply List.filter_In in Hl. destruct Hl as [Hl Hsys]. split; [exact Hl|].
    unfold log_of_system in Hsys.
    destruct (log_dms_system_id l) as [x|]; [|discriminate].
    apply String.eqb_eq in Hsys. congruence. }
  split.
  { exists (List.skipn 10 sorted). split.
    - rewrite List.firstn_skipn. subst sorted. apply order_by_created_at_desc_perm.
    - apply (StronglySorted_firstn_skipn
               (fun a b => String.ltb (log_created_at a) (log_created_at b) = false)).
      apply Sorted_StronglySorted; [|exact Hsorted].
      intros a b c. apply not_older_trans. }
  split; [apply Sorted_firstn; exact Hsorted|].
  split; [reflexivity|].
  split.
  - intros Hnone l Hl.
    destruct (log_of_system sys l) eqn:Hsys; [|reflexivity].
    assert (List.In l sorted) as Hs.
    { apply Hin. apply List.filter_In. auto. }
    destruct sorted as [|x rest]; [contradiction|]. discriminate Hnone.
  - intros Hall.
    destruct sorted as [|x rest] eqn:Hs; [reflexivity|].
    assert (List.In x (List.filter (log_of_system sys) (dms_sync_logs w))) as Hx.
    { apply Hin. left. reflexivity. }
    apply List.filter_In in Hx. destruct Hx as [Hx1 Hx2].
    rewrite (Hall x Hx1) in Hx2. discriminate.
Qed.

End SyncExtras.

(* ===================================================================== *)
(** * Part VI. Properties of the notification trigger                     *)
(* ===================================================================== *)

Module StatusNotificationFacts.

Import Workflow.
Import WorkflowFacts.
Import StatusNotification.

Local Open Scope string_scope.
Local Open Scope Z_scope.



End StatusNotificationFacts.
(* ===================================================================== *)
(** * Part VII. Properties of the clients of the external APIs            *)
(* ===================================================================== *)

Module JsFacts.

Import Js.

Local Open Scope string_scope.

Lemma Map_get_set_same {V : Type} (key : string) (v : V) (m : Map V) :
  Map_get key (Map_set key v m) = Some v.
Proof.
  induction m as [|[k x] rest IH]; cbn.
  - rewrite String.eqb_refl. reflexivity.
  - destruct (String.eqb k key) eqn:Hk; cbn; rewrite Hk; [reflexivity | exact IH].
Qed.

Lemma Map_get_set_other {V : Type} (key key' : string) (v : V) (m : Map V) :
  key' <> key -> Map_get key' (Map_set key v m) = Map_get key' m.
Proof.
  intros Hne. induction m as [|[k x] rest IH]; cbn.
  - destruct (String.eqb_spec key key'); [congruence | reflexivity].
  - destruct (String.eqb_spec k key) as [->|Hk]; cbn.
    + destruct (String.eqb_spec key key'); [congruence | reflexivity].
    + destruct (String.eqb k key'); [reflexivity | exact IH].
Qed.

End JsFacts.

(** ** The rate limiter *)

Module RateLimiterFacts.

Import RateLimiter.
Import JsFacts.

Local Open Scope string_scope.
Local Open Scope Z_scope.

(** ** The two tables *)

Lemma find_existsb {A : Type} (f : A -> bool) (l : list A) :
  List.existsb f l = false -> List.find f l = None.
Proof.
  induction l as [|x rest IH]; cbn; [reflexivity|].
  destruct (f x); cbn; [discriminate | exact IH].
Qed.

Lemma tables_of_a_plain_name (P : string -> bool) (service : string) :
  inherited P service = false ->
  getRateLimitWindow P service = number 60000
  /\ getMaxRequests P service = number (limit_of service)
  /\ 50 <= limit_of service <= 1000.
Proof.
  unfold inherited, getRateLimitWindow, getMaxRequests, member_of, limit_of,
    windows, limits.
  cbn [List.find List.existsb fst].
  destruct (String.eqb "sharepoint" service); [cbn; repeat split; lia|].
  destruct (String.eqb "brp" service); [cbn; repeat split; lia|].
  destruct (String.eqb "kvk" service); [cbn; repeat split; lia|].
  destruct (String.eqb "sendgrid" service); [cbn; repeat split; lia|].
  destruct (String.eqb "default" service); [cbn; repeat split; lia|].
  cbn [negb orb andb]. intros ->. cbn. repeat split; lia.
Qed.

Lemma tables_of_an_inherited_name (P : string -> bool) (service : string) :
  inherited P service = true ->
  getRateLimitWindow P service = not_a_number
  /\ getMaxRequests P service = not_a_number.
Proof.
  unfold inherited. intros H. apply andb_true_iff in H. destruct H as [Hown HP].
  apply negb_true_iff in Hown.
  unfold getRateLimitWindow, getMaxRequests, member_of.
  assert (List.find (fun entry : string * Z => String.eqb (fst entry) service) windows = None)
    as Hw.
  { apply find_existsb. exact Hown. }
  rewrite Hw, (find_existsb _ _ Hown), HP. split; reflexivity.
Qed.

(** ** One call *)

Lemma checkRateLimit_frame (P : string -> bool) (now : Z) (service endpoint : string)
    (m : Map RateLimitInfo) (key' : string) :
  key' <> service ++ ":" ++ endpoint ->
  Map_get key' (snd (checkRateLimit P now service endpoint m)) = Map_get key' m.
Proof.
  intros Hne. unfold checkRateLimit.
  destruct (Map_get (service ++ ":" ++ endpoint) m) as [limit|].
  - destruct (gt now (resetTime limit)); cbn [snd];
      [apply Map_get_set_other; exact Hne|].
    destruct (ge (count limit) (maxRequests limit)); cbn [snd];
      [reflexivity | apply Map_get_set_other; exact Hne].
  - cbn [snd]. apply Map_get_set_other; exact Hne.
Qed.

(** ** A burst within one window *)

Lemma window_calls (P : string -> bool) (service endpoint : string) (R M : Z)
    (ts : list Z) :
  forall (m : Map RateLimitInfo) (c : Z),
    Map_get (service ++ ":" ++ endpoint) m
    = Some (mk_RateLimitInfo c (number R) (number M)) ->
    List.Forall (fun t => t <= R) ts ->
    c <= M ->
    exists m',
      calls P (List.map (fun t => mk_Call t service endpoint) ts) m
      = (List.map (fun i => c + Z.of_nat i <? M) (List.seq 0 (List.length ts)), m')
      /\ Map_get (service ++ ":" ++ endpoint) m'
         = Some (mk_RateLimitInfo (Z.min (c + Z.of_nat (List.length ts)) M)
                   (number R) (number M))
      /\ (forall key', key' <> service ++ ":" ++ endpoint ->
            Map_get key' m' = Map_get key' m).
Proof.
  induction ts as [|t rest IH]; intros m c Hget Hts Hc.
  - exists m. cbn. rewrite Z.add_0_r, Z.min_l by lia. auto.
  - inversion Hts as [|? ? Ht Hrest]; subst.
    cbn [List.map calls call_now call_service call_endpoint List.length].
    unfold checkRateLimit at 1. rewrite Hget.
    cbn [resetTime count maxRequests gt ge].
    replace (t >? R) with false by (symmetry; rewrite Z.gtb_ltb; apply Z.ltb_ge; lia).
    destruct (c >=? M) eqn:Hfull.
    + assert (c = M) as -> by (apply Z.geb_le in Hfull; lia).
      destruct (IH m M Hget Hrest ltac:(lia)) as (m' & Hrun & Hget' & Hframe).
      exists m'. rewrite Hrun. split; [|split].
      * cbn [List.seq List.map]. f_equal.
        rewrite <- List.seq_shift, List.map_map. f_equal.
        -- f_equal. replace (M + Z.of_nat 0 <? M) with false
             by (symmetry; apply Z.ltb_ge; lia). reflexivity.
        -- apply List.map_ext_in. intros i _.
           rewrite !(proj2 (Z.ltb_ge _ _)) by lia. reflexivity.
      * rewrite Hget'. f_equal. f_equal. lia.
      * exact Hframe.
    + assert (c < M) as Hlt by (rewrite Z.geb_leb in Hfull; apply Z.leb_gt in Hfull; lia).
      set (m1 := Map_set (service ++ ":" ++ endpoint)
                   (mk_RateLimitInfo (c + 1) (number R) (number M)) m).
      destruct (IH m1 (c + 1) (Map_get_set_same _ _ _) Hrest ltac:(lia))
        as (m' & Hrun & Hget' & Hframe).
      exists m'. rewrite Hrun. split; [|split].
      * cbn [List.seq List.map]. f_equal.
        rewrite <- List.seq_shift, List.map_map. f_equal.
        -- f_equal. symmetry. apply Z.ltb_lt. lia.
        -- apply List.map_ext. intros i. f_equal. lia.
      * rewrite Hget'. f_equal. f_equal. lia.
      * intros key' Hne. rewrite (Hframe key' Hne).
        apply Map_get_set_other. exact Hne.
Qed.

(** X13.  For a service whose name is not inherited from
    [Object.prototype]: of the calls made for one service and endpoint
    within the window that the first of them opens (up to and including
    the reset time itself), exactly the first [limit_of service] are
    allowed: the [i]-th call is allowed if and only if [i] is below the
    limit.  Afterwards the counter stands at the number of calls or at the
    limit, whichever is smaller, the window still ends 60000 ms after the
    first call, and no other key has changed. *)
Theorem burst_is_cut_at_the_limit
    (P : string -> bool) (service endpoint : string) (t0 : Z) (ts : list Z)
    (m : Map RateLimitInfo) :
  inherited P service = false ->
  Map_get (service ++ ":" ++ endpoint) m = None ->
  List.Forall (fun t => t <= t0 + 60000) ts ->
  exists m',
    calls P (List.map (fun t => mk_Call t service endpoint) (t0 :: ts)) m
    = (List.map (fun i => Z.of_nat i <? limit_of service)
         (List.seq 0 (S (List.length ts))), m')
    /\ Map_get (service ++ ":" ++ endpoint) m'
       = Some (mk_RateLimitInfo
                 (Z.min (Z.of_nat (S (List.length ts))) (limit_of service))
                 (number (t0 + 60000)) (number (limit_of service)))
    /\ (forall key', key' <> service ++ ":" ++ endpoint ->
          Map_get key' m' = Map_get key' m).
Proof.
  intros Hplain Hnone Hts.
  destruct (tables_of_a_plain_name P service Hplain) as (Hw & Hl & Hrange).
  cbn [List.map calls call_now call_service call_endpoint].
  unfold checkRateLimit at 1. rewrite Hnone, Hw, Hl. cbn [plus].
  set (m1 := Map_set (service ++ ":" ++ endpoint)
               (mk_RateLimitInfo 1 (number (t0 + 60000)) (number (limit_of service))) m).
  destruct (window_calls P service endpoint (t0 + 60000) (limit_of service) ts m1 1
              (Map_get_set_same _ _ _) Hts ltac:(lia))
    as (m' & Hrun & Hget' & Hframe).
  exists m'. rewrite Hrun. split; [|split].
  - cbn [List.seq List.map]. f_equal.
    rewrite <- List.seq_shift, List.map_map. f_equal.
    + f_equal. symmetry. apply Z.ltb_lt. lia.
    + apply List.map_ext. intros i. f_equal. lia.
  - rewrite Hget'. f_equal. f_equal. lia.
  - intros key' Hne. rewrite (Hframe key' Hne).
    apply Map_get_set_other. exact Hne.
Qed.

Lemma burst_is_cut_at_the_limit_witness :
  fst (calls ecmascript_prototype
         (List.map (fun t => mk_Call t "brp" "/personen")
            (List.map Z.of_nat (List.seq 1000 52))) [])
  = (List.repeat true 50 ++ [false; false])%list.
Proof.
  destruct (burst_is_cut_at_the_limit ecmascript_prototype "brp" "/personen" 1000
              (List.map Z.of_nat (List.seq 1001 51)) [] eq_refl eq_refl)
    as (m' & Hrun & _).
  - apply List.Forall_forall. intros t Ht.
    apply List.in_map_iff in Ht. destruct Ht as (n & <- & Hn).
    apply List.in_seq in Hn. lia.
  - change (List.map Z.of_nat (List.seq 1000 52))
      with (1000 :: List.map Z.of_nat (List.seq 1001 51)).
    rewrite Hrun. vm_compute. reflexivity.
Defined.

(** ** The counters *)

(** What every entry of a limiter satisfies. *)
Lemma entry_of_a_call (P : string -> bool) (service : string) :
  forall M, getMaxRequests P service = number M -> 50 <= M <= 1000.
Proof.
  intros M. destruct (inherited P service) eqn:Hi.
  - rewrite (proj2 (tables_of_an_inherited_name P service Hi)). discriminate.
  - destruct (tables_of_a_plain_name P service Hi) as (_ & -> & Hr).
    intros [= <-]. exact Hr.
Qed.

(** A numeric limit is the table's for the service, or 100 for a service
    the table does not name. *)
Lemma getMaxRequests_table (P : string -> bool) (service : string) (M : Z) :
  getMaxRequests P service = number M ->
  List.In (service, M)
    [("sharepoint", 100); ("brp", 50); ("kvk", 200); ("sendgrid", 1000);
     ("default", 100)]
  \/ ((forall n, ~ List.In (service, n)
                    [("sharepoint", 100); ("brp", 50); ("kvk", 200);
                     ("sendgrid", 1000); ("default", 100)])
      /\ M = 100).
Proof.
  unfold getMaxRequests, member_of, limits. cbn [List.find fst].
  destruct (String.eqb_spec "sharepoint" service) as [<-|H1].
  { cbn. intros [= <-]. left. cbn. auto. }
  destruct (String.eqb_spec "brp" service) as [<-|H2].
  { cbn. intros [= <-]. left. cbn. auto. }
  destruct (String.eqb_spec "kvk" service) as [<-|H3].
  { cbn. intros [= <-]. left. cbn. auto. }
  destruct (String.eqb_spec "sendgrid" service) as [<-|H4].
  { cbn. intros [= <-]. left. cbn. auto 6. }
  destruct (String.eqb_spec "default" service) as [<-|H5].
  { cbn. intros [= <-]. left. cbn. auto 6. }
  destruct (P service); cbn; [discriminate|].
  intros [= <-]. right. split; [|reflexivity].
  intros n [H|[H|[H|[H|[H|[]]]]]]; injection H as H _; congruence.
Qed.

(** One call keeps every counter between 1 and its numeric limit, and
    every entry the entry of a call. *)
Lemma checkRateLimit_keeps_counts (P : string -> bool) (c : Call) (seen : list Call)
    (m : Map RateLimitInfo) :
  (forall k l, Map_get k m = Some l ->
     1 <= count l
     /\ (forall M, maxRequests l = number M -> count l <= M)
     /\ exists c', List.In c' seen
                   /\ k = call_service c' ++ ":" ++ call_endpoint c'
                   /\ maxRequests l = getMaxRequests P (call_service c')) ->
  forall k l,
    Map_get k (snd (checkRateLimit P (call_now c) (call_service c) (call_endpoint c) m))
    = Some l ->
    1 <= count l
    /\ (forall M, maxRequests l = number M -> count l <= M)
    /\ exists c', List.In c' (seen ++ [c])%list
                  /\ k = call_service c' ++ ":" ++ call_endpoint c'
                  /\ maxRequests l = getMaxRequests P (call_service c').
Proof.
  intros Hinv k l.
  assert (Hold : forall k l, Map_get k m = Some l ->
            1 <= count l
            /\ (forall M, maxRequests l = number M -> count l <= M)
            /\ exists c', List.In c' (seen ++ [c])%list
                          /\ k = call_service c' ++ ":" ++ call_endpoint c'
                          /\ maxRequests l = getMaxRequests P (call_service c')).
  { intros k0 l0 H0. destruct (Hinv k0 l0 H0) as (H1 & HM & c' & Hin & Hk & Hmax).
    split; [exact H1|]. split; [exact HM|].
    exists c'. split; [apply List.in_or_app; auto|]. auto. }
  destruct (String.eqb_spec k (call_service c ++ ":" ++ call_endpoint c)) as [->|Hne].
  2:{ rewrite (checkRateLimit_frame P (call_now c) (call_service c) (call_endpoint c)
                 m k Hne).
      apply Hold. }
  unfold checkRateLimit.
  destruct (Map_get (call_service c ++ ":" ++ call_endpoint c) m) as [limit|] eqn:Hget.
  - destruct (Hold _ _ Hget) as (H1 & HM & Hc).
    destruct (gt (call_now c) (resetTime limit)); cbn [snd].
    { rewrite Map_get_set_same. intros [= <-]. cbn [count maxRequests].
      split; [lia|]. split; [|exact Hc].
      intros M HeqM. specialize (HM M HeqM). lia. }
    destruct (ge (count limit) (maxRequests limit)) eqn:Hge; cbn [snd].
    { rewrite Hget. intros [= <-]. auto. }
    rewrite Map_get_set_same. intros [= <-]. cbn [count maxRequests].
    split; [lia|]. split; [|exact Hc].
    intros M HeqM. rewrite HeqM in Hge. cbn in Hge.
    rewrite Z.geb_leb in Hge. apply Z.leb_gt in Hge. lia.
  - cbn [snd]. rewrite Map_get_set_same. intros [= <-]. cbn [count maxRequests].
    split; [lia|]. split.
    + intros M HeqM. pose proof (entry_of_a_call P (call_service c) M HeqM). lia.
    + exists c. split; [apply List.in_or_app; right; left; reflexivity|]. auto.
Qed.

(** X14.  Whatever calls a limiter has served, in whatever order and at
    whatever times: every counter it holds is at least 1; every key it
    holds is the key of one of the calls, and where the entry has a numeric
    limit, the counter is at most that limit and the limit is the one the
    table gives for the service of that call (100 for [sharepoint], 50 for
    [brp], 200 for [kvk], 1000 for [sendgrid], 100 for [default] and for a
    service the table does not name); and a refused call has changed
    nothing, an allowed one only the entry of its own key. *)
Theorem counters_stay_within_the_limit (P : string -> bool) (cs : list Call) :
  (forall k l, Map_get k (snd (calls P cs [])) = Some l ->
     1 <= count l
     /\ exists c,
          List.In c cs
          /\ k = call_service c ++ ":" ++ call_endpoint c
          /\ forall M, maxRequests l = number M ->
               count l <= M
               /\ (List.In (call_service c, M)
                     [("sharepoint", 100); ("brp", 50); ("kvk", 200);
                      ("sendgrid", 1000); ("default", 100)]
                   \/ ((forall n, ~ List.In (call_service c, n)
                                     [("sharepoint", 100); ("brp", 50); ("kvk", 200);
                                      ("sendgrid", 1000); ("default", 100)])
                       /\ M = 100)))
  /\ (forall now service endpoint m,
        (fst (checkRateLimit P now service endpoint m) = false ->
           snd (checkRateLimit P now service endpoint m) = m)
        /\ forall key', key' <> service ++ ":" ++ endpoint ->
             Map_get key' (snd (checkRateLimit P now service endpoint m))
             = Map_get key' m).
Proof.
  assert (forall cs seen m,
            (forall k l, Map_get k m = Some l ->
               1 <= count l
               /\ (forall M, maxRequests l = number M -> count l <= M)
               /\ exists c', List.In c' seen
                             /\ k = call_service c' ++ ":" ++ call_endpoint c'
                             /\ maxRequests l = getMaxRequests P (call_service c')) ->
            forall k l, Map_get k (snd (calls P cs m)) = Some l ->
               1 <= count l
               /\ (forall M, maxRequests l = number M -> count l <= M)
               /\ exists c', List.In c' (seen ++ cs)%list
                             /\ k = call_service c' ++ ":" ++ call_endpoint c'
                             /\ maxRequests l = getMaxRequests P (call_service c'))
    as Hrun.
  { clear cs. induction cs as [|c rest IH]; intros seen m Hinv.
    - cbn. rewrite List.app_nil_r. exact Hinv.
    - cbn [calls].
      pose proof (checkRateLimit_keeps_counts P c seen m Hinv) as Hstep.
      destruct (checkRateLimit P (call_now c) (call_service c) (call_endpoint c) m)
        as [allowed m1].
      cbn [snd] in Hstep.
      specialize (IH (seen ++ [c])%list m1 Hstep).
      destruct (calls P rest m1) as [answers m2]. cbn [snd] in *.
      rewrite <- List.app_assoc in IH. exact IH. }
  split.
  - intros k l Hget.
    destruct (Hrun cs [] [] ltac:(cbn; discriminate) k l Hget)
      as (H1 & HM & c & Hin & Hk & Hmax).
    split; [exact H1|]. exists c. split; [exact Hin|]. split; [exact Hk|].
    intros M HeqM. split; [exact (HM M HeqM)|].
    apply (getMaxRequests_table P). congruence.
  - intros now service endpoint m. split.
    + unfold checkRateLimit.
      destruct (Map_get (service ++ ":" ++ endpoint) m) as [limit|];
        [|cbn; discriminate].
      destruct (gt now (resetTime limit)); [cbn; discriminate|].
      destruct (ge (count limit) (maxRequests limit)); cbn; [reflexivity | discriminate].
    + apply checkRateLimit_frame.
Qed.

(** ** Names that are members of [Object.prototype] *)

(** X15.  A service whose name is a member of [Object.prototype] (and not
    of the two tables) is never limited: whatever the number of calls for
    one of its endpoints and whatever their times, each of them is
    allowed. *)
Theorem inherited_name_is_never_limited
    (P : string -> bool) (service endpoint : string) (ts : list Z)
    (m : Map RateLimitInfo) :
  inherited P service = true ->
  Map_get (service ++ ":" ++ endpoint) m = None ->
  fst (calls P (List.map (fun t => mk_Call t service endpoint) ts) m)
  = List.repeat true (List.length ts).
Proof.
  intros Hi Hnone.
  destruct (tables_of_an_inherited_name P service Hi) as [Hw Hl].
  assert (forall ts m,
            (Map_get (service ++ ":" ++ endpoint) m = None
             \/ exists c, Map_get (service ++ ":" ++ endpoint) m
                          = Some (mk_RateLimitInfo c not_a_number not_a_number)) ->
            fst (calls P (List.map (fun t => mk_Call t service endpoint) ts) m)
            = List.repeat true (List.length ts)) as Hrun.
  { clear ts m Hnone. induction ts as [|t rest IH]; intros m Hm; [reflexivity|].
    cbn [List.map calls call_now call_service call_endpoint List.length List.repeat].
    unfold checkRateLimit at 1.
    destruct Hm as [-> | (c & ->)].
    - rewrite Hw, Hl. cbn [plus].
      match goal with |- context [calls P _ ?m1] =>
        specialize (IH m1 (or_intror (ex_intro _ 1 (Map_get_set_same _ _ _))));
        destruct (calls P _ m1) end.
      cbn in *. congruence.
    - cbn [resetTime count maxRequests gt ge].
      match goal with |- context [calls P _ ?m1] =>
        specialize (IH m1 (or_intror (ex_intro _ (c + 1) (Map_get_set_same _ _ _))));
        destruct (calls P _ m1) end.
      cbn in *. congruence. }
  apply Hrun. left. exact Hnone.
Qed.

Lemma inherited_name_is_never_limited_witness :
  fst (calls ecmascript_prototype
         (List.map (fun t => mk_Call t "constructor" "/x") (List.repeat 5 150)) [])
  = List.repeat true 150.
Proof.
  rewrite (inherited_name_is_never_limited ecmascript_prototype "constructor" "/x"
             (List.repeat 5 150) [] eq_refl eq_refl).
  rewrite List.repeat_length. reflexivity.
Defined.

End RateLimiterFacts.

(** ** The token manager *)

Module TokenManagerFacts.

Import TokenManager.
Import JsFacts.

Local Open Scope string_scope.
Local Open Scope Z_scope.

(** The request for the SharePoint token, in environment [E]. *)
Lemma refresh_sharepoint (E : Env) (s : Manager) :
  refreshToken E "sharepoint" s
  = refreshOAuth2Token E "sharepoint"
      (Deno_env E "SHAREPOINT_CLIENT_ID") (Deno_env E "SHAREPOINT_CLIENT_SECRET")
      "https://login.microsoftonline.com/tenant/oauth2/token"
      "https://graph.microsoft.com/.default" s.
Proof. reflexivity. Qed.

(** ** Calls answered from the map *)

Lemma cached_calls (E : Env) (service : string) (info : TokenInfo) (k : nat) :
  forall s,
    Map_get service (tokens s) = Some info ->
    (forall i, (i < k)%nat -> ge (Date_now E (clock s + i)) (expiresAt info) = false) ->
    getTokens E (List.repeat service k) s
    = (List.repeat (inr (token info)) k,
       mk_Manager (tokens s) (requests s) (clock s + k)).
Proof.
  induction k as [|k IH]; intros s Hget Hfresh.
  - cbn. rewrite Nat.add_0_r. destruct s; reflexivity.
  - cbn [List.repeat getTokens]. unfold getToken at 1. rewrite Hget.
    unfold bind, isTokenExpired, bind, now, ret.
    pose proof (Hfresh 0%nat (Nat.lt_0_succ k)) as H0. rewrite Nat.add_0_r in H0.
    rewrite H0.
    rewrite (IH (mk_Manager (tokens s) (requests s) (S (clock s))) Hget).
    + cbn [tokens requests clock].
      replace (clock s + S k)%nat with (S (clock s) + k)%nat by lia. reflexivity.
    + intros i Hi. cbn [clock].
      replace (S (clock s) + i)%nat with (clock s + S i)%nat by lia.
      apply Hfresh. lia.
Qed.

Lemma first_call (E : Env) (s : Manager)
    (a : option string) (e : value) (ty : option string) :
  Map_get "sharepoint" (tokens s) = None ->
  remote E
    (token_request (Deno_env E "SHAREPOINT_CLIENT_ID")
       (Deno_env E "SHAREPOINT_CLIENT_SECRET")
       "https://login.microsoftonline.com/tenant/oauth2/token"
       "https://graph.microsoft.com/.default")
    (List.length (requests s))
  = responded (reply a e ty) ->
  getToken E "sharepoint" s
  = (inr a,
     mk_Manager
       (Map_set "sharepoint"
          (mk_TokenInfo a (plus (Date_now E (clock s)) (times e 1000))
             (token_type_or_Bearer ty))
          (tokens s))
       (DMSSync.push (requests s)
          (token_request (Deno_env E "SHAREPOINT_CLIENT_ID")
             (Deno_env E "SHAREPOINT_CLIENT_SECRET")
             "https://login.microsoftonline.com/tenant/oauth2/token"
             "https://graph.microsoft.com/.default"))
       (S (clock s))).
Proof.
  intros Hnone Hreply. unfold getToken. rewrite Hnone, refresh_sharepoint.
  unfold refreshOAuth2Token, bind, fetch. rewrite Hreply.
  unfold now. cbn [tokens requests clock token]. reflexivity.
Qed.

(** X16.  A token obtained for [sharepoint] is reused until it expires:
    when the server's reply carries a number [n] as [expires_in], the call
    that fetched the token and every later call whose reading of the clock
    is below the time of the fetch plus [1000 n] return the token of the
    reply, and the only request issued is the first one; the first call
    whose reading has reached that time issues a second request. *)
Theorem token_is_reused_until_it_expires
    (E : Env) (s : Manager) (a : option string) (n : Z) (ty : option string) (k : nat) :
  let request :=
    token_request (Deno_env E "SHAREPOINT_CLIENT_ID")
      (Deno_env E "SHAREPOINT_CLIENT_SECRET")
      "https://login.microsoftonline.com/tenant/oauth2/token"
      "https://graph.microsoft.com/.default" in
  let expiry := Date_now E (clock s) + n * 1000 in
  Map_get "sharepoint" (tokens s) = None ->
  remote E request (List.length (requests s)) = responded (reply a (number n) ty) ->
  (forall i, (i < k)%nat -> Date_now E (S (clock s) + i) < expiry) ->
  getTokens E (List.repeat "sharepoint" (S k)) s
  = (List.repeat (inr a) (S k),
     mk_Manager
       (Map_set "sharepoint" (mk_TokenInfo a (number expiry) (token_type_or_Bearer ty))
          (tokens s))
       (DMSSync.push (requests s) request)
       (S (clock s) + k))
  /\ (expiry <= Date_now E (S (clock s) + k) ->
      requests (snd (getTokens E (List.repeat "sharepoint" (S (S k))) s))
      = DMSSync.push (DMSSync.push (requests s) request) request).
Proof.
  intros request expiry Hnone Hreply Hfresh.
  pose proof (first_call E s a (number n) ty Hnone Hreply) as Hfirst.
  cbn [times plus] in Hfirst. fold request expiry in Hfirst.
  set (info := mk_TokenInfo a (number expiry) (token_type_or_Bearer ty)) in *.
  set (s1 := mk_Manager (Map_set "sharepoint" info (tokens s))
               (DMSSync.push (requests s) request) (S (clock s))) in *.
  assert (Map_get "sharepoint" (tokens s1) = Some info) as Hget
    by apply Map_get_set_same.
  assert (getTokens E (List.repeat "sharepoint" k) s1
          = (List.repeat (inr (token info)) k,
             mk_Manager (tokens s1) (requests s1) (clock s1 + k))) as Hrest.
  { apply cached_calls; [exact Hget|].
    intros i Hi. cbn [clock s1 expiresAt info ge].
    rewrite Z.geb_leb. apply Z.leb_gt. apply Hfresh. exact Hi. }
  assert (getTokens E (List.repeat "sharepoint" (S k)) s
          = (List.repeat (inr a) (S k),
             mk_Manager (tokens s1) (requests s1) (S (clock s) + k))) as Hmain.
  { cbn [List.repeat getTokens]. rewrite Hfirst, Hrest. reflexivity. }
  split; [exact Hmain|].
  intros Hexpired.
  replace (S (S k)) with (S k + 1)%nat by lia.
  rewrite List.repeat_app.
  assert (forall l1 l2 s0,
            getTokens E (l1 ++ l2)%list s0
            = (fst (getTokens E l1 s0) ++ fst (getTokens E l2 (snd (getTokens E l1 s0))),
               snd (getTokens E l2 (snd (getTokens E l1 s0))))%list) as Happ.
  { induction l1 as [|x l1 IH]; intros l2 s0.
    - cbn. destruct (getTokens E l2 s0); reflexivity.
    - cbn [List.app getTokens]. destruct (getToken E x s0) as [o s0'].
      rewrite IH. destruct (getTokens E l1 s0'). cbn.
      destruct (getTokens E l2 m). reflexivity. }
  rewrite Happ, Hmain. cbn [snd fst].
  cbn [List.repeat getTokens]. unfold getToken.
  cbn [tokens]. rewrite Hget.
  unfold bind, isTokenExpired, bind, now, ret. cbn [clock expiresAt info ge].
  replace (Date_now E (S (clock s) + k) >=? expiry) with true
    by (symmetry; rewrite Z.geb_leb; apply Z.leb_le; exact Hexpired).
  rewrite refresh_sharepoint. unfold refreshOAuth2Token, bind, fetch.
  fold request. cbn [requests tokens clock s1].
  destruct (remote E request
              (List.length (DMSSync.push (requests s) request)))
    as [reason|[a' e' ty'| |]]; reflexivity.
Qed.

Lemma token_is_reused_until_it_expires_witness :
  getTokens issuing_env (List.repeat "sharepoint" 4) new_manager
  = (List.repeat (inr (Some "token-0")) 4,
     mk_Manager
       [("sharepoint", mk_TokenInfo (Some "token-0") (number 4600000) "Bearer")]
       [token_request (Some "secret") (Some "secret")
          "https://login.microsoftonline.com/tenant/oauth2/token"
          "https://graph.microsoft.com/.default"]
       4).
Proof.
  refine (proj1 (token_is_reused_until_it_expires issuing_env new_manager
                   (Some "token-0") 3600 None 3 eq_refl eq_refl _)).
  intros i Hi. change (example_clock (1 + i) < example_clock 0 + 3600 * 1000).
  unfold example_clock. lia.
Defined.

(** X17.  A reply without a numeric [expires_in] is kept for ever: the
    entry it leaves never expires, so every later call, at whatever time,
    returns what that reply carried as [access_token] ([undefined] for an
    error body) and no request is issued again. *)
Theorem reply_without_expiry_is_kept_for_ever
    (E : Env) (s : Manager) (a : option string) (ty : option string) (k : nat) :
  let request :=
    token_request (Deno_env E "SHAREPOINT_CLIENT_ID")
      (Deno_env E "SHAREPOINT_CLIENT_SECRET")
      "https://login.microsoftonline.com/tenant/oauth2/token"
      "https://graph.microsoft.com/.default" in
  Map_get "sharepoint" (tokens s) = None ->
  remote E request (List.length (requests s)) = responded (reply a not_a_number ty) ->
  getTokens E (List.repeat "sharepoint" (S k)) s
  = (List.repeat (inr a) (S k),
     mk_Manager
       (Map_set "sharepoint" (mk_TokenInfo a not_a_number (token_type_or_Bearer ty))
          (tokens s))
       (DMSSync.push (requests s) request)
       (S (clock s) + k)).
Proof.
  intros request Hnone Hreply.
  pose proof (first_call E s a not_a_number ty Hnone Hreply) as Hfirst.
  cbn [times plus] in Hfirst. fold request in Hfirst.
  cbn [List.repeat getTokens]. rewrite Hfirst.
  rewrite (cached_calls E "sharepoint"
             (mk_TokenInfo a not_a_number (token_type_or_Bearer ty)) k).
  - reflexivity.
  - apply Map_get_set_same.
  - intros i _. reflexivity.
Qed.

Lemma reply_without_expiry_is_kept_for_ever_witness :
  getTokens refusing_env (List.repeat "sharepoint" 50) new_manager
  = (List.repeat (inr None) 50,
     mk_Manager
       [("sharepoint", mk_TokenInfo None not_a_number "Bearer")]
       [token_request None None
          "https://login.microsoftonline.com/tenant/oauth2/token"
          "https://graph.microsoft.com/.default"]
       50).
Proof.
  exact (reply_without_expiry_is_kept_for_ever refusing_env new_manager None None 49
           eq_refl eq_refl).
Defined.

(** ** Any sequence of calls *)

(** What a call for [service] returns when the map holds no entry for it
    and [service] is not [sharepoint]. *)
Lemma stateless_call (E : Env) (service : string) (s : Manager) :
  service <> "sharepoint" ->
  Map_get service (tokens s) = None ->
  getToken E service s
  = (match getServiceConfig E service with
     | Some (jwt _ _) => inr (Some "jwt-token-placeholder")
     | Some (api_key apiKey) => inr apiKey
     | Some inherited_member => inl (DMSSync.Error "Unsupported auth type: undefined")
     | _ => inl (DMSSync.TypeError "Cannot read properties of undefined (reading 'type')")
     end, s).
Proof.
  intros Hne Hnone. unfold getToken. rewrite Hnone.
  unfold refreshToken, getServiceConfig.
  destruct (String.eqb_spec service "sharepoint"); [contradiction|].
  destruct (String.eqb service "brp"); [reflexivity|].
  destruct (String.eqb service "kvk"); [reflexivity|].
  destruct (Object_prototype E service); reflexivity.
Qed.

Lemma sharepoint_call (E : Env) (s : Manager) :
  let request :=
    token_request (Deno_env E "SHAREPOINT_CLIENT_ID")
      (Deno_env E "SHAREPOINT_CLIENT_SECRET")
      "https://login.microsoftonline.com/tenant/oauth2/token"
      "https://graph.microsoft.com/.default" in
  let s' := snd (getToken E "sharepoint" s) in
  (forall key, key <> "sharepoint" -> Map_get key (tokens s') = Map_get key (tokens s))
  /\ (requests s' = requests s \/ requests s' = DMSSync.push (requests s) request).
Proof.
  intros request s'. subst s'. unfold getToken.
  assert (forall s0,
            (forall key, key <> "sharepoint" ->
               Map_get key (tokens (snd (refreshToken E "sharepoint" s0)))
               = Map_get key (tokens s0))
            /\ requests (snd (refreshToken E "sharepoint" s0))
               = DMSSync.push (requests s0) request) as Hrefresh.
  { intros s0. rewrite refresh_sharepoint. unfold refreshOAuth2Token, bind, fetch.
    fold request.
    destruct (remote E request (List.length (requests s0))) as [reason|[a e ty| |]];
      cbn; split; try reflexivity; intros key Hne; try reflexivity.
    apply Map_get_set_other. exact Hne. }
  destruct (Map_get "sharepoint" (tokens s)) as [info|].
  - unfold bind, isTokenExpired, bind, now, ret.
    destruct (ge (Date_now E (clock s)) (expiresAt info)).
    + destruct (Hrefresh (mk_Manager (tokens s) (requests s) (S (clock s)))) as [H1 H2].
      split; [exact H1 | right; exact H2].
    + cbn. split; [reflexivity | left; reflexivity].
  - destruct (Hrefresh s) as [H1 H2]. split; [exact H1 | right; exact H2].
Qed.

(** X18.  Whatever sequence of services the manager is asked for, from
    its construction on: only [sharepoint] ever gets an entry in the map
    and only its token requests are ever issued, at most one per call for
    [sharepoint]; a call for any other service is answered the same way
    every time: [brp] gets the placeholder,
    [kvk] the value of [KVK_API_KEY] ([undefined] when it is not set), a
    name inherited from [Object.prototype] the error [Unsupported auth
    type: undefined], and any other name a [TypeError]. *)
Theorem only_sharepoint_is_cached (E : Env) (services : list string) :
  let request :=
    token_request (Deno_env E "SHAREPOINT_CLIENT_ID")
      (Deno_env E "SHAREPOINT_CLIENT_SECRET")
      "https://login.microsoftonline.com/tenant/oauth2/token"
      "https://graph.microsoft.com/.default" in
  let outcomes := fst (getTokens E services new_manager) in
  let s := snd (getTokens E services new_manager) in
  (forall key info, Map_get key (tokens s) = Some info -> key = "sharepoint")
  /\ (exists n, requests s = List.repeat request n
                /\ (n <= List.count_occ string_dec services "sharepoint")%nat)
  /\ List.Forall2
       (fun service outcome =>
          service <> "sharepoint" ->
          outcome
          = (if String.eqb service "brp" then inr (Some "jwt-token-placeholder")
             else if String.eqb service "kvk" then inr (Deno_env E "KVK_API_KEY")
             else if Object_prototype E service
                  then inl (DMSSync.Error "Unsupported auth type: undefined")
                  else inl (DMSSync.TypeError
                              "Cannot read properties of undefined (reading 'type')")))
       services outcomes.
Proof.
  intros request.
  assert (forall services s0 n0,
            (forall key info, Map_get key (tokens s0) = Some info -> key = "sharepoint") ->
            requests s0 = List.repeat request n0 ->
            (forall key info,
               Map_get key (tokens (snd (getTokens E services s0))) = Some info ->
               key = "sharepoint")
            /\ (exists n, requests (snd (getTokens E services s0)) = List.repeat request n
                          /\ (n <= n0 + List.count_occ string_dec services "sharepoint")%nat)
            /\ List.Forall2
                 (fun service outcome =>
                    service <> "sharepoint" ->
                    outcome
                    = (if String.eqb service "brp" then inr (Some "jwt-token-placeholder")
                       else if String.eqb service "kvk" then inr (Deno_env E "KVK_API_KEY")
                       else if Object_prototype E service
                            then inl (DMSSync.Error "Unsupported auth type: undefined")
                            else inl (DMSSync.TypeError
                                        "Cannot read properties of undefined (reading 'type')")))
                 services (fst (getTokens E services s0))) as Hrun.
  { clear services. induction services as [|service rest IH]; intros s0 n0 Hkeys Hreq.
    - cbn. split; [exact Hkeys|]. split; [exists n0; split; [exact Hreq | lia]|].
      constructor.
    - cbn [getTokens List.count_occ].
      destruct (string_dec service "sharepoint") as [->|Hne].
      + destruct (sharepoint_call E s0) as [Hframe Hr]. fold request in Hr.
        destruct (getToken E "sharepoint" s0) as [outcome s1] eqn:Hcall.
        cbn [snd] in Hframe, Hr.
        assert (exists n1, requests s1 = List.repeat request n1 /\ (n1 <= S n0)%nat)
          as (n1 & Hreq1 & Hn1).
        { destruct Hr as [Hr|Hr]; rewrite Hr, Hreq.
          - exists n0. split; [reflexivity | lia].
          - exists (S n0). split; [|lia]. unfold DMSSync.push.
            change [request] with (List.repeat request 1).
            rewrite <- List.repeat_app. f_equal. lia. }
        destruct (IH s1 n1) as (Hk & (n & Hn & Hle) & Hf).
        { intros key info Hget.
          destruct (String.eqb_spec key "sharepoint") as [|Hk]; [assumption|].
          rewrite (Hframe key Hk) in Hget. exact (Hkeys key info Hget). }
        { exact Hreq1. }
        destruct (getTokens E rest s1) as [outcomes s2]. cbn [fst snd] in *.
        split; [exact Hk|]. split; [exists n; split; [exact Hn | lia]|].
        destruct (string_dec "sharepoint" "sharepoint") as [_|Hc]; [|contradiction].
        constructor; [intros Hc; contradiction | exact Hf].
      + assert (Map_get service (tokens s0) = None) as Hnone.
        { destruct (Map_get service (tokens s0)) as [info|] eqn:Hget; [|reflexivity].
          exfalso. apply Hne. exact (Hkeys service info Hget). }
        rewrite (stateless_call E service s0 Hne Hnone).
        destruct (IH s0 n0 Hkeys Hreq) as (Hk & (n & Hn & Hle) & Hf).
        destruct (getTokens E rest s0) as [outcomes s2]. cbn [fst snd] in *.
        split; [exact Hk|]. split.
        { exists n. split; [exact Hn|].
          destruct (string_dec service "sharepoint"); [contradiction | lia]. }
        constructor; [|exact Hf]. intros _.
        unfold getServiceConfig.
        destruct (String.eqb_spec service "sharepoint"); [contradiction|].
        destruct (String.eqb service "brp"); [reflexivity|].
        destruct (String.eqb service "kvk"); [reflexivity|].
        destruct (Object_prototype E service); reflexivity. }
  intros outcomes s. subst outcomes s.
  destruct (Hrun services new_manager 0%nat) as (Hk & (n & Hn & Hle) & Hf).
  - cbn. discriminate.
  - reflexivity.
  - split; [exact Hk|]. split; [exists n; split; [exact Hn | lia] | exact Hf].
Qed.

End TokenManagerFacts.

(** ** The health monitor *)

Module HealthMonitorFacts.

Import HealthMonitor.

Local Open Scope string_scope.
Local Open Scope Z_scope.

(** The check of a service that has a probe. *)
Lemma probed_check (E : Env) (service label : string) (probe : Request) (s : Monitor) :
  ping_service E service s = ping E probe label s ->
  exists st,
    checkIntegrationHealth E service s
    = (st, set_status service st
             (mk_Monitor (healthStatus s) (DMSSync.push (requests s) probe)
                (integration_health_logs s)))
    /\ (status st = "healthy" <-> exists text, remote E probe = responded true text)
    /\ (status st = "healthy" \/ status st = "unhealthy").
Proof.
  intros Hping. unfold checkIntegrationHealth. rewrite Hping. unfold ping.
  destruct (remote E probe) as [reason|[|] text]; eexists; (split; [reflexivity|]);
    cbn [status]; split; auto.
  - split; [discriminate | intros (t & Ht); discriminate Ht].
  - split; [intros _; exists text; reflexivity | reflexivity].
  - split; [discriminate | intros (t & Ht); discriminate Ht].
Qed.

(** X19.  A run of [checkAllIntegrations] never reports [healthy]: of the
    six integrations it checks, [messagebird] and [mollie] have no probe
    and are reported [unhealthy] with [Unknown service: <name>] in every
    run, so the overall status is [degraded] whatever the probes answer.
    [brp] is reported [healthy] in every run (its ping does nothing), and
    [sharepoint], [kvk] and [sendgrid] are healthy exactly when their
    probe is answered with an [ok] response.  The run issues these three
    probes, records the six statuses in the monitor, appends the report to
    the log unless the insert is refused, and returns the report unless
    the database client cannot be constructed. *)
Theorem overall_status_is_never_healthy (E : Env) (s : Monitor) :
  exists report,
    fst (checkAllIntegrations E s)
    = match createClient_throws E with
      | Some e => inl e
      | None => inr report
      end
    /\ overallStatus report = "degraded"
    /\ timestamp report = reportTime E
    /\ List.map fst (integrations report) = integrations_checked
    /\ List.In ("messagebird",
                mk_HealthStatus "unhealthy" (-1) (checkTime E "messagebird")
                  "Unknown service: messagebird" (Some "Error"))
         (integrations report)
    /\ List.In ("mollie",
                mk_HealthStatus "unhealthy" (-1) (checkTime E "mollie")
                  "Unknown service: mollie" (Some "Error"))
         (integrations report)
    /\ List.In ("brp",
                mk_HealthStatus "healthy" (endTime E "brp" - startTime E "brp")
                  (checkTime E "brp") "Service is responding normally" None)
         (integrations report)
    /\ List.Forall
         (fun probed =>
            exists st,
              List.In (fst probed, st) (integrations report)
              /\ (status st = "healthy"
                  <-> exists text, remote E (snd probed) = responded true text))
         [("sharepoint", sharepoint_probe); ("kvk", kvk_probe E);
          ("sendgrid", sendgrid_probe E)]
    /\ (forall service st,
          List.In (service, st) (integrations report) ->
          healthStatus (snd (checkAllIntegrations E s)) service = Some st)
    /\ (forall service,
          ~ List.In service integrations_checked ->
          healthStatus (snd (checkAllIntegrations E s)) service = healthStatus s service)
    /\ requests (snd (checkAllIntegrations E s))
       = (requests s ++ [sharepoint_probe; kvk_probe E; sendgrid_probe E])%list
    /\ integration_health_logs (snd (checkAllIntegrations E s))
       = match createClient_throws E with
         | Some _ => integration_health_logs s
         | None =>
             if insert_refused E then integration_health_logs s
             else (integration_health_logs s ++ [report])%list
         end.
Proof.
  unfold checkAllIntegrations, integrations_checked.
  cbn [check_each].
  destruct (probed_check E "sharepoint" "SharePoint" sharepoint_probe s eq_refl)
    as (st1 & -> & Hst1 & Hs1).
  set (s1 := set_status "sharepoint" st1 _).
  assert (checkIntegrationHealth E "brp" s1
          = (mk_HealthStatus "healthy" (endTime E "brp" - startTime E "brp")
               (checkTime E "brp") "Service is responding normally" None,
             set_status "brp"
               (mk_HealthStatus "healthy" (endTime E "brp" - startTime E "brp")
                  (checkTime E "brp") "Service is responding normally" None) s1)) as ->
    by reflexivity.
  set (st2 := mk_HealthStatus "healthy" _ _ _ _).
  set (s2 := set_status "brp" st2 s1).
  destruct (probed_check E "kvk" "KVK" (kvk_probe E) s2 eq_refl)
    as (st3 & -> & Hst3 & Hs3).
  set (s3 := set_status "kvk" st3 _).
  destruct (probed_check E "sendgrid" "SendGrid" (sendgrid_probe E) s3 eq_refl)
    as (st4 & -> & Hst4 & Hs4).
  set (s4 := set_status "sendgrid" st4 _).
  assert (forall name s0,
            String.eqb name "sharepoint" = false -> String.eqb name "brp" = false ->
            String.eqb name "kvk" = false -> String.eqb name "sendgrid" = false ->
            checkIntegrationHealth E name s0
            = (mk_HealthStatus "unhealthy" (-1) (checkTime E name)
                 ("Unknown service: " ++ name) (Some "Error"),
               set_status name
                 (mk_HealthStatus "unhealthy" (-1) (checkTime E name)
                    ("Unknown service: " ++ name) (Some "Error")) s0)) as Hunknown.
  { intros name s0 H1 H2 H3 H4. unfold checkIntegrationHealth, ping_service.
    rewrite H1, H2, H3, H4. reflexivity. }
  rewrite (Hunknown "messagebird" s4 eq_refl eq_refl eq_refl eq_refl).
  set (st5 := mk_HealthStatus "unhealthy" _ _ _ _).
  set (s5 := set_status "messagebird" st5 s4).
  rewrite (Hunknown "mollie" s5 eq_refl eq_refl eq_refl eq_refl).
  set (st6 := mk_HealthStatus "unhealthy" _ _ _ _).
  set (s6 := set_status "mollie" st6 s5).
  cbn [List.forallb List.combine].
  assert ((String.eqb (status st1) "healthy" && (String.eqb (status st2) "healthy"
           && (String.eqb (status st3) "healthy" && (String.eqb (status st4) "healthy"
           && (String.eqb (status st5) "healthy"
           && (String.eqb (status st6) "healthy" && true))))))%bool = false) as ->.
  { subst st5. cbn [status]. change (String.eqb "unhealthy" "healthy") with false.
    cbn [andb]. rewrite !andb_false_r. reflexivity. }
  set (report := mk_HealthReport _ _ _).
  exists report.
  assert (healthStatus s6 "sharepoint" = Some st1
          /\ healthStatus s6 "brp" = Some st2
          /\ healthStatus s6 "kvk" = Some st3
          /\ healthStatus s6 "sendgrid" = Some st4
          /\ healthStatus s6 "messagebird" = Some st5
          /\ healthStatus s6 "mollie" = Some st6) as (H1 & H2 & H3 & H4 & H5 & H6)
    by (repeat split; reflexivity).
  assert (requests s6
          = (requests s ++ [sharepoint_probe; kvk_probe E; sendgrid_probe E])%list) as Hreq.
  { cbn. unfold DMSSync.push. rewrite <- !List.app_assoc. reflexivity. }
  assert (forall service, ~ List.In service
                              ["sharepoint"; "brp"; "kvk"; "sendgrid"; "messagebird"; "mollie"] ->
            healthStatus s6 service = healthStatus s service) as Hframe.
  { intros service Hnot. cbn [healthStatus s6 s5 s4 s3 s2 s1 set_status].
    repeat match goal with
           | |- context [String.eqb service ?k] =>
               destruct (String.eqb_spec service k) as [->|_];
               [exfalso; apply Hnot; cbn; tauto|]
           end.
    reflexivity. }
  unfold logHealthReport.
  split.
  { destruct (createClient_throws E); reflexivity. }
  split; [reflexivity|]. split; [reflexivity|]. split; [reflexivity|].
  split; [cbn; tauto|]. split; [cbn; tauto|]. split; [cbn; tauto|].
  split.
  { repeat constructor; cbn [fst snd].
    - exists st1. split; [cbn; tauto | exact Hst1].
    - exists st3. split; [cbn; tauto | exact Hst3].
    - exists st4. split; [cbn; tauto | exact Hst4]. }
  split.
  { assert (forall service st, List.In (service, st) (integrations report) ->
              healthStatus s6 service = Some st) as Hall.
    { intros service st Hin. cbn in Hin.
      repeat destruct Hin as [Hin|Hin]; try contradiction;
        injection Hin as <- <-; assumption. }
    destruct (createClient_throws E); cbn [snd]; [exact Hall|].
    destruct (insert_refused E); exact Hall. }
  split.
  { destruct (createClient_throws E); cbn [snd]; [exact Hframe|].
    destruct (insert_refused E); exact Hframe. }
  split.
  { destruct (createClient_throws E); cbn [snd]; [exact Hreq|].
    destruct (insert_refused E); exact Hreq. }
  destruct (createClient_throws E); cbn [snd]; [reflexivity|].
  destruct (insert_refused E); reflexivity.
Qed.

End HealthMonitorFacts.

(* ===================================================================== *)
(** * Part VIII. Properties of the first [sync-dms] function              *)
(* ===================================================================== *)

Module LegacySyncFacts.

Import DMSSync.
Import LegacySync.

Local Open Scope string_scope.

Section Push.

Variable E : Env.

Lemma patch_id (x : string) (d : Document) : id (patch E x d) = id d.
Proof. reflexivity. Qed.

(** The loop, from any table: one [success] entry per document, and the
    rows whose update the database carries out patched. *)
Lemma push_loop (docs : list Document) :
  forall (acc : list PushResult) (w : World),
    for_of docs (push_item E) acc w
    = (inr (acc ++ List.map
                     (fun doc => mk_PushResult (id doc)
                                   (Some (uploadToExternalDMS E (id doc))) "success" None)
                     docs)%list,
       with_documents w
         (List.map
            (fun d => if updated_by E docs d
                      then patch E (uploadToExternalDMS E (id d)) d else d)
            (documents w))).
Proof.
  induction docs as [|doc rest IH]; intros acc w.
  - cbn. rewrite List.app_nil_r, List.map_id. destruct w; reflexivity.
  - cbn [for_of]. unfold bind at 1.
    unfold push_item at 1, try_catch, bind, update_documents, ret.
    destruct (update_documents_error E (id doc)) as [m|] eqn:Herr.
    + rewrite IH. unfold push. rewrite <- List.app_assoc. cbn [List.map List.app].
      f_equal. f_equal. apply List.map_ext. intros d.
      cbn [updated_by List.existsb]. rewrite Herr, andb_false_r. reflexivity.
    + rewrite IH. unfold push. rewrite <- List.app_assoc. cbn [List.map List.app].
      f_equal. cbn [documents with_documents]. unfold with_documents.
      cbn [dms_sync_logs requests]. f_equal.
      rewrite List.map_map. apply List.map_ext. intros d.
      cbn [updated_by List.existsb]. rewrite Herr, andb_true_r.
      destruct (String.eqb_spec (id d) (id doc)) as [Heq|Hne].
      * rewrite <- Heq. cbn [orb].
        destruct (updated_by E rest (patch E (uploadToExternalDMS E (id d)) d));
          reflexivity.
      * cbn [orb]. reflexivity.
Qed.

End Push.

(** X20.  The first version of the push reports every document it
    selected as [success], whatever the database did with the update:
    [successful] equals [processed], [failed] is 0 and no entry is an
    [error].  A document whose update the database refused is left as it
    was although the report gives it an external id, while the rows whose
    update was carried out have the reported external id and the current
    time as [synced_at].  Only a failure of the initial query makes the
    function throw. *)
Theorem first_push_reports_success_for_every_document
    (E : Env) (documentIds : option (list string)) (w : World) :
  match select_documents_error E with
  | Some m =>
      pushToExternalDMS E documentIds w
      = (inl (Error ("Failed to fetch documents: " ++ m)), w)
  | None =>
      exists report w',
        pushToExternalDMS E documentIds w = (inr report, w')
        /\ processed report = List.length (candidates documentIds (documents w))
        /\ push_successful report = processed report
        /\ push_failed report = 0%nat
        /\ push_results report
           = List.map
               (fun doc => mk_PushResult (id doc)
                             (Some (uploadToExternalDMS E (id doc))) "success" None)
               (candidates documentIds (documents w))
        /\ documents w'
           = List.map
               (fun d => if updated_by E (candidates documentIds (documents w)) d
                         then patch E (uploadToExternalDMS E (id d)) d else d)
               (documents w)
        /\ (forall d, List.In d (documents w) ->
              update_documents_error E (id d) <> None ->
              List.In d (documents w'))
        /\ dms_sync_logs w' = dms_sync_logs w
        /\ requests w' = requests w
  end.
Proof.
  unfold pushToExternalDMS, bind, read.
  destruct (select_documents_error E) as [m|]; [reflexivity|].
  rewrite push_loop. unfold ret. cbn [List.app].
  set (docs := candidates documentIds (documents w)).
  assert (forall (l : list Document) (f : Document -> PushResult),
            (forall doc, push_status (f doc) = "success") ->
            List.length (List.filter (fun r => String.eqb (push_status r) "success")
                           (List.map f l)) = List.length l
            /\ List.length (List.filter (fun r => String.eqb (push_status r) "error")
                              (List.map f l)) = 0%nat) as Hcount.
  { intros l f Hf. induction l as [|x l [IH1 IH2]]; [split; reflexivity|].
    cbn [List.map List.filter]. rewrite (Hf x). cbn. rewrite IH1, IH2. auto. }
  destruct (Hcount docs
              (fun doc => mk_PushResult (id doc)
                            (Some (uploadToExternalDMS E (id doc))) "success" None)
              (fun _ => eq_refl)) as [Hs Hf].
  eexists. eexists. split; [reflexivity|].
  cbn [processed push_successful push_failed push_results documents with_documents
       dms_sync_logs requests].
  rewrite Hs, Hf. repeat split.
  intros d Hin Herr.
  apply List.in_map_iff. exists d. split; [|exact Hin].
  assert (updated_by E docs d = false) as ->; [|reflexivity].
  unfold updated_by. apply not_true_is_false. intros Hex.
  apply List.existsb_exists in Hex. destruct Hex as (doc & _ & Hdoc).
  apply andb_true_iff in Hdoc. destruct Hdoc as [Heq Hok].
  apply String.eqb_eq in Heq. rewrite <- Heq in Hok.
  destruct (update_documents_error E (id d)); [discriminate | contradiction].
Qed.

Lemma first_push_reports_success_for_every_document_witness :
  exists report w',
    pushToExternalDMS refusing_doc_2 None example_world = (inr report, w')
    /\ push_successful report = 3%nat
    /\ push_failed report = 0%nat
    /\ List.In (local_document "doc-2" "b.pdf") (documents w').
Proof.
  destruct (first_push_reports_success_for_every_document refusing_doc_2 None example_world)
    as (report & w' & Hrun & Hp & Hs & Hf & _ & _ & Hkept & _).
  exists report, w'. split; [exact Hrun|]. split; [rewrite Hs, Hp; reflexivity|].
  split; [exact Hf|].
  apply Hkept; [cbn; tauto | cbn; discriminate].
Defined.

End LegacySyncFacts.

